(** * krita-ai-diffusion: the Automatic1111 client ([ai_tools/diffusion.py])

    A shallow embedding of the request tracker ([RequestManager]), the
    progress reporter ([Progress]), the error classifier
    ([NetworkError.from_reply]), the result extractor ([_collect_images])
    and the orchestration code of [Auto1111] ([_get], [_post], [_img2img],
    [upscale], [interrupt]), with the properties the specification states
    about them.

    Python values travel as [json]; Python floats are IEEE binary64 numbers
    ([spec_float] with 53 bits of precision); raised exceptions are the
    [Raise] results of the [pyres] monad; objects that are mutated in place
    (futures, replies, [Progress] instances, the [_requests] dict) live in
    an explicit [world]. *)

From Stdlib Require Import ZArith Ascii String List Bool Lia.
From Stdlib Require Import Floats.SpecFloat.
From stdpp Require Import gmap strings list fin_maps pretty.

Set Warnings "-register-all".

Local Open Scope string_scope.
Local Open Scope list_scope.
Local Open Scope Z_scope.

(** ** Python floats: IEEE 754 binary64 *)

Definition float : Type := spec_float.

Module Float.

Definition prec : Z := 53.
Definition emax : Z := 1024.

(** [float(z)] for a Python int [z]. *)
Definition of_Z (z : Z) : float := binary_normalize prec emax z 0 false.

Definition add : float -> float -> float := SFadd prec emax.
Definition mul : float -> float -> float := SFmul prec emax.
Definition div : float -> float -> float := SFdiv prec emax.
Definition leb : float -> float -> bool := SFleb.
Definition ltb : float -> float -> bool := SFltb.

Definition zero : float := Eval vm_compute in of_Z 0.
Definition one : float := Eval vm_compute in of_Z 1.
(** The literals [0.5] and [0.4] of the source and of the specification. *)
Definition half : float := Eval vm_compute in div (of_Z 1) (of_Z 2).
Definition f0_4 : float := Eval vm_compute in div (of_Z 4) (of_Z 10).

End Float.

(** ** Python values as they come out of [json.loads] and go into
    [json.dumps] *)

Inductive json : Type :=
| JNull
| JBool (b : bool)
| JInt (z : Z)
| JFloat (f : float)
| JStr (s : string)
| JList (l : list json)
| JObj (fields : list (string * json)).

(** ** Exceptions *)

(** The two exception classes of the module: [NetworkError] and its
    subclass [OutOfMemoryError]. *)
Inductive error_class : Type := NetworkErrorClass | OutOfMemoryErrorClass.

(** The fields [NetworkError.__init__] stores.  [message] is whatever object
    the caller passed: a [str], or the value found under ["errors"]. *)
Record net_error : Type := MkNetError {
  err_class : error_class;
  code : Z;
  message : json;
  url : string
}.

Inductive exn : Type :=
| TypeError
| KeyError
| AttributeError
| AssertionError
| UnboundLocalError
| JSONDecodeError
| CancelledError
| InvalidStateError
| Interrupted
| NetError (e : net_error).

Inductive pyres (A : Type) : Type :=
| Ok (a : A)
| Raise (e : exn).
Arguments Ok {A} a.
Arguments Raise {A} e.

Definition bind {A B : Type} (m : pyres A) (k : A -> pyres B) : pyres B :=
  match m with
  | Ok a => k a
  | Raise e => Raise e
  end.

Notation "x <- m ;; k" := (bind m (fun x => k))
  (at level 100, m at next level, right associativity).

(** ** Python operations on values *)

Module Py.

(** The dict behind a JSON object: the first binding of a key is the one a
    lookup finds ([json.loads] keeps one binding per key). *)
Fixpoint assoc (key : string) (fields : list (string * json)) : option json :=
  match fields with
  | [] => None
  | (k, v) :: rest => if String.eqb k key then Some v else assoc key rest
  end.

(** [data.get(key, default)]: only a dict has [get]. *)
Definition get (data : json) (key : string) (default : json) : pyres json :=
  match data with
  | JObj fields => Ok (match assoc key fields with Some v => v | None => default end)
  | _ => Raise AttributeError
  end.

(** [data[key]] for a [str] key. *)
Definition getitem (data : json) (key : string) : pyres json :=
  match data with
  | JObj fields =>
      match assoc key fields with
      | Some v => Ok v
      | None => Raise KeyError
      end
  | _ => Raise TypeError
  end.

Fixpoint is_prefix (p s : string) : bool :=
  match p, s with
  | EmptyString, _ => true
  | String a p', String b s' => if Ascii.eqb a b then is_prefix p' s' else false
  | String _ _, EmptyString => false
  end.

Fixpoint is_substring (p s : string) : bool :=
  is_prefix p s ||
  match s with
  | EmptyString => false
  | String _ s' => is_substring p s'
  end.

Definition is_str (v : json) (s : string) : bool :=
  match v with
  | JStr s' => String.eqb s' s
  | _ => false
  end.

(** [key in data] for a [str] key: key membership in a dict, element
    membership in a list, substring test in a [str]; not defined on the
    other values. *)
Definition contains (data : json) (key : string) : pyres bool :=
  match data with
  | JObj fields => Ok (match assoc key fields with Some _ => true | None => false end)
  | JList l => Ok (existsb (fun v => is_str v key) l)
  | JStr s => Ok (is_substring key s)
  | _ => Raise TypeError
  end.

(** [l[:stop]] *)
Definition slice_to {A : Type} (l : list A) (stop : Z) : list A :=
  let n := Z.of_nat (length l) in
  let k := if stop <? 0 then Z.max 0 (n + stop) else Z.min stop n in
  take (Z.to_nat k) l.

(** A value used as a number: [int], [float] and [bool] are numbers. *)
Inductive number : Type := NInt (z : Z) | NFloat (f : float).

Definition as_number (v : json) : pyres number :=
  match v with
  | JInt z => Ok (NInt z)
  | JBool b => Ok (NInt (if b then 1 else 0))
  | JFloat f => Ok (NFloat f)
  | _ => Raise TypeError
  end.

Definition to_float (n : number) : float :=
  match n with
  | NInt z => Float.of_Z z
  | NFloat f => f
  end.

(** [v >= z] and [v > z] against an int literal [z]. *)
Definition ge_int (v : json) (z : Z) : pyres bool :=
  n <- as_number v ;;
  Ok (match n with
      | NInt x => z <=? x
      | NFloat f => Float.leb (Float.of_Z z) f
      end).

Definition gt_int (v : json) (z : Z) : pyres bool :=
  n <- as_number v ;;
  Ok (match n with
      | NInt x => z <? x
      | NFloat f => Float.ltb (Float.of_Z z) f
      end).

End Py.

(** ** The objects the module mutates *)

(** A [QNetworkReply] is identified by its position in the list of replies
    the access manager has created, an [asyncio.Future] by its position in
    the list of futures of the running loop, a [Progress] instance by its
    position in the list of instances. *)
Definition handle : Type := nat.
Definition fut : Type := nat.
Definition ref : Type := nat.
(** A progress callback, known by its identity; its invocations are logged. *)
Definition sink : Type := nat.

(** [QNetworkReply.NoError] *)
Definition NoError : Z := 0.

Record Reply : Type := MkReply {
  reply_url : string;       (* reply.url().toString() *)
  isFinished : bool;        (* reply.isFinished() *)
  error : Z;                (* reply.error() *)
  errorString : string;     (* reply.errorString() *)
  body : string             (* reply.readAll().data() *)
}.

Inductive future_state : Type :=
| Pending
| Cancelled
| Result (v : json)
| Exception (e : exn).

(** [class Request(NamedTuple)] *)
Record Request : Type := MkRequest {
  req_url : string;
  future : fut
}.

(** [class Progress]: the attributes of one instance. *)
Record ProgressObj : Type := MkProgress {
  callback : sink;
  scale : float;
  offset : float
}.

(** What the outside observes: requests handed to the access manager and
    invocations of progress callbacks, in the order they happen. *)
Inductive event : Type :=
| Sent (h : handle) (method : string) (target : string) (data : option json)
| Called (cb : sink) (v : float).

Record world : Type := MkWorld {
  replies : list Reply;             (* the replies [self._net] created *)
  _requests : gmap handle Request;  (* [RequestManager._requests] *)
  futures : list future_state;      (* the futures of the running loop *)
  objects : list ProgressObj;       (* the [Progress] instances *)
  log : list event;
  unhandled : list exn              (* exceptions that escaped a slot *)
}.

Definition empty_world : world :=
  MkWorld [] ∅ [] [] [] [].

Definition set_replies (x : list Reply) (w : world) : world :=
  MkWorld x (_requests w) (futures w) (objects w) (log w) (unhandled w).
Definition set_requests (x : gmap handle Request) (w : world) : world :=
  MkWorld (replies w) x (futures w) (objects w) (log w) (unhandled w).
Definition set_futures (x : list future_state) (w : world) : world :=
  MkWorld (replies w) (_requests w) x (objects w) (log w) (unhandled w).
Definition set_objects (x : list ProgressObj) (w : world) : world :=
  MkWorld (replies w) (_requests w) (futures w) x (log w) (unhandled w).
Definition emit (e : event) (w : world) : world :=
  MkWorld (replies w) (_requests w) (futures w) (objects w) (log w ++ [e]) (unhandled w).
Definition escape (e : exn) (w : world) : world :=
  MkWorld (replies w) (_requests w) (futures w) (objects w) (log w) (unhandled w ++ [e]).

(** A method that runs to its end without suspending: it returns or raises,
    and leaves a world behind. *)
Definition action (A : Type) : Type := world -> pyres A * world.

(** ** [asyncio.Future] *)

Module Future.

Definition state (w : world) (f : fut) : future_state :=
  match futures w !! f with
  | Some st => st
  | None => Pending
  end.

(** [loop.create_future()] *)
Definition create : action fut :=
  fun w => (Ok (length (futures w)), set_futures (futures w ++ [Pending]) w).

Definition cancelled (w : world) (f : fut) : bool :=
  match state w f with
  | Cancelled => true
  | _ => false
  end.

Definition done (w : world) (f : fut) : bool :=
  match state w f with
  | Pending => false
  | _ => true
  end.

Definition set_result (f : fut) (v : json) : action unit :=
  fun w =>
    match state w f with
    | Pending => (Ok tt, set_futures (<[f := Result v]> (futures w)) w)
    | _ => (Raise InvalidStateError, w)
    end.

Definition set_exception (f : fut) (e : exn) : action unit :=
  fun w =>
    match state w f with
    | Pending => (Ok tt, set_futures (<[f := Exception e]> (futures w)) w)
    | _ => (Raise InvalidStateError, w)
    end.

(** [future.cancel()]: [False] on a future that is done. *)
Definition cancel (f : fut) : action bool :=
  fun w =>
    match state w f with
    | Pending => (Ok true, set_futures (<[f := Cancelled]> (futures w)) w)
    | _ => (Ok false, w)
    end.

End Future.

(** ** [QNetworkAccessManager] *)

Module Net.

(** [self._net.post(request, data_bytes)] and [self._net.get(request)]: a
    new reply object, not finished. *)
Definition send (method : string) (target : string) (data : option json) : action handle :=
  fun w =>
    let h := length (replies w) in
    (Ok h,
     emit (Sent h method target data)
       (set_replies (replies w ++ [MkReply target false NoError "" ""]) w)).

Definition is_finished (w : world) (h : handle) : bool :=
  match replies w !! h with
  | Some r => isFinished r
  | None => false
  end.

End Net.

(** ** Collaborators that live outside the module *)

(** The [json] library and the formatting of values inside f-strings. *)
Class JsonLib : Type := {
  (** [json.loads(bytes)]; [None] when it raises. *)
  json_loads : string -> option json;
  (** [str(v)] for a value that is not a [str]. *)
  str_other : json -> string
}.

(** [Image] and [ImageCollection] of [ai_tools/image.py]: an opaque codec.
    An [ImageCollection] is the list of its images. *)
Class Codec : Type := {
  Image : Type;
  from_base64 : json -> Image;
  to_base64 : Image -> string
}.

(** The fields of [settings] that the modelled operations read. *)
Class Settings : Type := {
  upscaler : string
}.

(** [f"{v}"] *)
Definition format {J : JsonLib} (v : json) : string :=
  match v with
  | JStr s => s
  | _ => str_other v
  end.

(** ** [class NetworkError] *)

Module NetworkError.
Section WithJson.
Context {J : JsonLib}.

(** [NetworkError.__init__(self, code, msg, url)], also reached through
    [OutOfMemoryError.__init__]: the three parameters are required, a call
    that leaves [url] out raises [TypeError]. *)
Definition __init__ (cls : error_class) (c : Z) (msg : json) (u : option string)
  : pyres net_error :=
  match u with
  | Some u => Ok (MkNetError cls c msg u)
  | None => Raise TypeError
  end.

(** The [try] block of [from_reply]; [Ok None] when control leaves the block
    without returning. *)
Definition from_reply_try (reply : Reply) : pyres (option net_error) :=
  let c := error reply in
  let u := reply_url reply in
  match json_loads (body reply) with
  | None => Raise JSONDecodeError
  | Some data =>
      e <- Py.get data "error" (JStr "") ;;
      if Py.is_str e "OutOfMemoryError" then
        msg <- Py.get data "errors" (JStr (errorString reply)) ;;
        r <- __init__ OutOfMemoryErrorClass c msg (Some u) ;;
        Ok (Some r)
      else
        detail <- Py.get data "detail" (JStr "") ;;
        errors <- Py.get data "errors" (JStr "") ;;
        if negb (Py.is_str detail "") || negb (Py.is_str errors "") then
          r <- __init__ NetworkErrorClass c
                 (JStr (format detail +:+ " " +:+ format errors +:+
                        " (" +:+ errorString reply +:+ ")"))
                 None ;;
          Ok (Some r)
        else Ok None
  end.

Definition from_reply (reply : Reply) : pyres net_error :=
  let c := error reply in
  let u := reply_url reply in
  match from_reply_try reply with
  | Ok (Some r) => Ok r
  | Ok None | Raise _ =>
      (* [except: pass], or the end of the [try] block *)
      __init__ NetworkErrorClass c (JStr (errorString reply)) (Some u)
  end.

End WithJson.
End NetworkError.

(** ** [class RequestManager] *)

Module RequestManager.
Section WithJson.
Context {J : JsonLib}.

Definition _cleanup (w : world) : world :=
  set_requests
    (filter (fun '(reply, request) => Net.is_finished w reply = false) (_requests w))
    w.

Definition request (method : string) (u : string) (data : option json) : action fut :=
  fun w =>
    let w := _cleanup w in
    (* [data_bytes] is bound only when [data is not None] *)
    let data_bytes := data in
    if negb (String.eqb method "GET" || String.eqb method "POST")
    then (Raise AssertionError, w)
    else
      let sent :=
        if String.eqb method "POST" then
          match data_bytes with
          | Some d => Net.send "POST" u (Some d) w
          | None => (Raise UnboundLocalError, w)
          end
        else Net.send "GET" u None w in
      match sent with
      | (Raise e, w) => (Raise e, w)
      | (Ok reply, w) =>
          match Future.create w with
          | (Raise e, w) => (Raise e, w)
          | (Ok f, w) =>
              (Ok f, set_requests (<[reply := MkRequest u f]> (_requests w)) w)
          end
      end.

Definition get (u : string) : action fut := request "GET" u None.

Definition post (u : string) (data : json) : action fut := request "POST" u (Some data).

(** The slot connected to [self._net.finished]; [h] is the identity of
    [reply], the key of the dict. *)
Definition _finished (h : handle) (reply : Reply) : action unit :=
  fun w =>
    let c := error reply in
    match _requests w !! h with
    | None => (Raise KeyError, w)
    | Some r =>
        let f := future r in
        if Future.cancelled w f then (Ok tt, w)
        else if c =? NoError then
          match json_loads (body reply) with
          | None => (Raise JSONDecodeError, w)
          | Some v => Future.set_result f v w
          end
        else
          match NetworkError.from_reply reply with
          | Raise e => (Raise e, w)
          | Ok e => Future.set_exception f (NetError e) w
          end
    end.

End WithJson.
End RequestManager.

(** ** [class Progress] *)

Module Progress.

(** [Progress(callback, scale)]: [__init__] stores the callback and the
    scale; [offset] is the class attribute, [0]. *)
Definition __init__ (cb : sink) (sc : float) : action ref :=
  fun w =>
    (Ok (length (objects w)),
     set_objects (objects w ++ [MkProgress cb sc Float.zero]) w).

Definition forward (other : ref) (sc : float) : action ref :=
  fun w =>
    match objects w !! other with
    | None => (Raise AttributeError, w)
    | Some o => __init__ (callback o) sc w
    end.

Definition __call__ (self : ref) (progress : float) : action unit :=
  fun w =>
    match objects w !! self with
    | None => (Raise AttributeError, w)
    | Some o =>
        (Ok tt, emit (Called (callback o) (Float.add (offset o) (Float.mul (scale o) progress))) w)
    end.

Definition finish (self : ref) : action unit :=
  fun w =>
    match objects w !! self with
    | None => (Raise AttributeError, w)
    | Some o =>
        let o' := MkProgress (callback o) (scale o) (Float.add (offset o) (scale o)) in
        (Ok tt, emit (Called (callback o') (offset o')) (set_objects (<[self := o']> (objects w)) w))
    end.

End Progress.

(** ** [_collect_images] *)

Section CollectImages.
Context {Cd : Codec}.

(** [count] is [None] for the default [...]. *)
Definition _collect_images (result : json) (count : option Z) : pyres (list Image) :=
  present <- Py.contains result "images" ;;
  if present then
    images <- Py.getitem result "images" ;;
    match images with
    | JList images =>
        let images :=
          match count with
          | Some c => Py.slice_to images c
          | None => images
          end in
        Ok (map from_base64 images)
    | _ => Raise AssertionError
    end
  else Raise Interrupted.

End CollectImages.

(** ** The event loop *)

(** What the transport reports when a reply completes. *)
Record completion : Type := MkCompletion {
  ev_reply : handle;
  ev_error : Z;
  ev_errorString : string;
  ev_body : string
}.

(** The completions the loop delivers each time the running coroutine is
    suspended, for as long as the backend is observed. *)
Definition schedule : Type := list (list completion).

Inductive outcome (A : Type) : Type :=
| Returned (a : A)
| Raised (e : exn)
| Suspended.   (* still waiting when the schedule ends *)
Arguments Returned {A} a.
Arguments Raised {A} e.
Arguments Suspended {A}.

(** A coroutine: it consumes part of the schedule. *)
Definition co (A : Type) : Type := schedule -> world -> outcome A * schedule * world.

Module Loop.
Section WithJson.
Context {J : JsonLib}.

(** The [finished] signal of a reply: the reply completes once, and the slot
    runs; an exception of the slot goes nowhere. *)
Definition deliver (ev : completion) (w : world) : world :=
  match replies w !! ev_reply ev with
  | None => w
  | Some r =>
      if isFinished r then w
      else
        let r := MkReply (reply_url r) true (ev_error ev) (ev_errorString ev) (ev_body ev) in
        let w := set_replies (<[ev_reply ev := r]> (replies w)) w in
        match RequestManager._finished (ev_reply ev) r w with
        | (Ok _, w) => w
        | (Raise e, w) => escape e w
        end
  end.

Definition deliver_all (evs : list completion) (w : world) : world :=
  fold_left (fun w ev => deliver ev w) evs w.

Definition run (s : schedule) (w : world) : world :=
  fold_left (fun w evs => deliver_all evs w) s w.

Definition ret {A : Type} (a : A) : co A := fun s w => (Returned a, s, w).

Definition raise {A : Type} (e : exn) : co A := fun s w => (Raised e, s, w).

Definition cbind {A B : Type} (m : co A) (k : A -> co B) : co B :=
  fun s w =>
    match m s w with
    | (Returned a, s, w) => k a s w
    | (Raised e, s, w) => (Raised e, s, w)
    | (Suspended, s, w) => (Suspended, s, w)
    end.

(** A call that does not suspend. *)
Definition call {A : Type} (m : action A) : co A :=
  fun s w =>
    match m w with
    | (Ok a, w) => (Returned a, s, w)
    | (Raise e, w) => (Raised e, s, w)
    end.

Definition pure {A : Type} (m : pyres A) : co A := call (fun w => (m, w)).

(** What [await] gives for a future that is done. *)
Definition settled (st : future_state) : option (outcome json) :=
  match st with
  | Pending => None
  | Cancelled => Some (Raised CancelledError)
  | Result v => Some (Returned v)
  | Exception e => Some (Raised e)
  end.

Fixpoint wait (f : fut) (s : schedule) (w : world) : outcome json * schedule * world :=
  match s with
  | [] => (Suspended, [], w)
  | evs :: s =>
      let w := deliver_all evs w in
      match settled (Future.state w f) with
      | Some o => (o, s, w)
      | None => wait f s w
      end
  end.

(** [await f] *)
Definition await (f : fut) : co json :=
  fun s w =>
    match settled (Future.state w f) with
    | Some o => (o, s, w)
    | None => wait f s w
    end.

End WithJson.
End Loop.

Notation "x <~ m ;; k" := (Loop.cbind m (fun x => k))
  (at level 100, m at next level, right associativity).

(** ** [class Auto1111] *)

Record Extent : Type := MkExtent {
  width : Z;
  height : Z
}.

(** [Image.extent] of [ai_tools/image.py]. *)
Class ImageExtent {Cd : Codec} : Type := {
  extent : Image -> Extent
}.

(** More fields of [settings]. *)
Class BatchSettings : Type := {
  batch_size : Z;
  upscaler_index : json
}.

(** [a == b] on extents *)
Definition extent_eqb (a b : Extent) : bool :=
  (width a =? width b) && (height a =? height b).

(** Iteration and comprehensions *)
Module PyIter.

Fixpoint keys (fields : list (string * json)) (seen : list string) : list json :=
  match fields with
  | [] => []
  | (k, _) :: rest =>
      if existsb (String.eqb k) seen then keys rest seen
      else JStr k :: keys rest (k :: seen)
  end.

Fixpoint chars (s : string) : list json :=
  match s with
  | EmptyString => []
  | String c s => JStr (String c EmptyString) :: chars s
  end.

(** [for u in v]: the elements of a list, the keys of a dict, the
    characters of a [str]; the other values are not iterable. *)
Definition iter (v : json) : pyres (list json) :=
  match v with
  | JList l => Ok l
  | JObj fields => Ok (keys fields [])
  | JStr s => Ok (chars s)
  | _ => Raise TypeError
  end.

End PyIter.

Module Auto1111.
Section WithCollaborators.
Context {J : JsonLib} {Cd : Codec} {St : Settings}.

Definition default_sampler : string := "DPM++ 2M Karras".
Definition negative_prompt : string := "EasyNegative verybadimagenegative_v1.3".
Definition upscale_prompt : string := "highres 8k uhd".

(** [self.url] *)
Variable self_url : string.

Definition _get (op : string) : co json :=
  f <~ Loop.call (RequestManager.get (self_url +:+ "/" +:+ op)) ;;
  Loop.await f.

(** One turn of the [while] loop of [_post], after its test; [true] when
    the turn ends in [break]. *)
Definition _post_poll (progress : ref) : co bool :=
  status <~ _get "sdapi/v1/progress" ;;
  p <~ Loop.pure (Py.getitem status "progress") ;;
  stop <~ Loop.pure (Py.ge_int p 1) ;;
  if stop then Loop.ret true
  else
    p <~ Loop.pure (Py.getitem status "progress") ;;
    some <~ Loop.pure (Py.gt_int p 0) ;;
    if some then
      p <~ Loop.pure (Py.getitem status "progress") ;;
      n <~ Loop.pure (Py.as_number p) ;;
      _ <~ Loop.call (Progress.__call__ progress (Py.to_float n)) ;;
      Loop.ret false
    else Loop.ret false.

(** [while not request.done(): ...]; every turn waits for a reply, so the
    loop makes at most as many turns as the schedule has entries. *)
Fixpoint _post_while (fuel : nat) (request : fut) (progress : ref) : co unit :=
  fun s w =>
    match fuel with
    | O => (Suspended, s, w)
    | S fuel =>
        if Future.done w request then (Returned tt, s, w)
        else
          (stop <~ _post_poll progress ;;
           if stop : bool then Loop.ret tt
           else _post_while fuel request progress) s w
    end.

(** [progress] is [None] for the default [...]. *)
Definition _post (op : string) (data : json) (progress : option ref) : co json :=
  request <~ Loop.call (RequestManager.post (self_url +:+ "/" +:+ op) data) ;;
  _ <~ match progress with
       | Some progress =>
           _ <~ (fun s => _post_while (S (length s)) request progress s) ;;
           Loop.call (Progress.finish progress)
       | None => Loop.ret tt
       end ;;
  Loop.await request.

Definition _make_tiled_vae_payload : json :=
  JObj [("tiled vae", JObj [("args", JList [JBool true; JInt 1536])])].

(** The request body [_img2img] builds. *)
Definition img2img_payload (image : json) (prompt : string) (strength : float)
    (extent : Extent) (cfg_scale : Z) (batch_size : Z) : json :=
  JObj [
    ("init_images", JList [image]);
    ("denoising_strength", JFloat strength);
    ("prompt", JStr prompt);
    ("negative_prompt", JStr negative_prompt);
    ("batch_size", JInt batch_size);
    ("steps", JInt 30);
    ("cfg_scale", JInt cfg_scale);
    ("width", JInt (width extent));
    ("height", JInt (height extent));
    ("alwayson_scripts", _make_tiled_vae_payload);
    ("sampler_index", JStr default_sampler)
  ].

(** [image] is an [Image] or an already encoded value. *)
Definition _img2img (image : Image + json) (prompt : string) (strength : float)
    (extent : Extent) (cfg_scale : Z) (batch_size : Z) (progress : ref)
  : co (list Image) :=
  let image :=
    match image with
    | inl img => JStr (to_base64 img)
    | inr v => v
    end in
  let payload := img2img_payload image prompt strength extent cfg_scale batch_size in
  result <~ _post "sdapi/v1/img2img" payload (Some progress) ;;
  Loop.pure (_collect_images result None).

Definition upscale_payload (img : Image) (target : Extent) : json :=
  JObj [
    ("resize_mode", JInt 1);
    ("upscaling_resize_w", JInt (width target));
    ("upscaling_resize_h", JInt (height target));
    ("upscaler_1", JStr upscaler);
    ("image", JStr (to_base64 img))
  ].

Definition upscale (img : Image) (target : Extent) (prompt : string) (progress : ref)
  : co (list Image) :=
  result <~ _post "sdapi/v1/extra-single-image" (upscale_payload img target) None ;;
  image <~ Loop.pure (Py.getitem result "image") ;;
  _img2img (inr image) (upscale_prompt +:+ ", " +:+ prompt) Float.f0_4 target 5 1 progress.

Definition interrupt : co json :=
  _post "sdapi/v1/interrupt" (JObj []) None.

Context {Ie : ImageExtent} {Bs : BatchSettings}.

Definition txt2img_payload (prompt : string) (e : Extent) : json :=
  JObj [
    ("prompt", JStr prompt);
    ("negative_prompt", JStr negative_prompt);
    ("batch_size", JInt batch_size);
    ("steps", JInt 30);
    ("cfg_scale", JInt 7);
    ("width", JInt (width e));
    ("height", JInt (height e));
    ("sampler_index", JStr default_sampler)
  ].

Definition txt2img (prompt : string) (e : Extent) (progress : ref) : co (list Image) :=
  result <~ _post "sdapi/v1/txt2img" (txt2img_payload prompt e) (Some progress) ;;
  Loop.pure (_collect_images result None).

Definition txt2img_inpaint_payload (img mask : Image) (prompt : string) (e : Extent) : json :=
  let cn_payload :=
    JObj [("controlnet",
           JObj [("args",
                  JList [JObj [
                    ("input_image", JStr (to_base64 img));
                    ("mask", JStr (to_base64 mask));
                    ("module", JStr "inpaint_only+lama");
                    ("model", JStr "control_v11p_sd15_inpaint [ebff9138]");
                    ("control_mode", JStr "ControlNet is more important");
                    ("pixel_perfect", JBool true)]])])] in
  JObj [
    ("prompt", JStr prompt);
    ("negative_prompt", JStr negative_prompt);
    ("batch_size", JInt batch_size);
    ("steps", JInt 20);
    ("cfg_scale", JInt 5);
    ("width", JInt (width e));
    ("height", JInt (height e));
    ("alwayson_scripts", cn_payload);
    ("sampler_index", JStr "DDIM")
  ].

Definition txt2img_inpaint (img mask : Image) (prompt : string) (e : Extent)
    (progress : ref) : co (list Image) :=
  if negb (extent_eqb (extent img) (extent mask)) then Loop.raise AssertionError
  else
    result <~ _post "sdapi/v1/txt2img" (txt2img_inpaint_payload img mask prompt e)
                (Some progress) ;;
    Loop.pure (_collect_images result (Some (-1))).

Definition img2img (img : Image) (prompt : string) (strength : float) (e : Extent)
    (progress : ref) : co (list Image) :=
  _img2img (inl img) prompt strength e 7 batch_size progress.

Definition img2img_inpaint_payload (img mask : Image) (prompt : string)
    (strength : float) (e : Extent) : json :=
  let cn_payload :=
    JObj [("controlnet",
           JObj [("args",
                  JList [JObj [
                    ("module", JStr "inpaint_only");
                    ("model", JStr "control_v11p_sd15_inpaint [ebff9138]");
                    ("control_mode", JStr "Balanced");
                    ("pixel_perfect", JBool true)]])])] in
  JObj [
    ("init_images", JList [JStr (to_base64 img)]);
    ("denoising_strength", JFloat strength);
    ("mask", JStr (to_base64 mask));
    ("mask_blur", JInt 0);
    ("inpainting_fill", JInt 1);
    ("inpainting_full_res", JBool true);
    ("prompt", JStr prompt);
    ("negative_prompt", JStr negative_prompt);
    ("batch_size", JInt batch_size);
    ("steps", JInt 30);
    ("cfg_scale", JInt 7);
    ("width", JInt (width e));
    ("height", JInt (height e));
    ("alwayson_scripts", cn_payload);
    ("sampler_index", JStr default_sampler)
  ].

Definition img2img_inpaint (img mask : Image) (prompt : string) (strength : float)
    (e : Extent) (progress : ref) : co (list Image) :=
  if negb (extent_eqb (extent img) (extent mask)) then Loop.raise AssertionError
  else
    result <~ _post "sdapi/v1/img2img" (img2img_inpaint_payload img mask prompt strength e)
                (Some progress) ;;
    Loop.pure (_collect_images result (Some (-1))).

Definition upscale_tiled_payload (img : Image) (target : Extent) (prompt : string) : json :=
  let cn_payload :=
    JObj [("controlnet",
           JObj [("args",
                  JList [JObj [
                    ("input_image", JStr (to_base64 img));
                    ("module", JStr "tile_resample");
                    ("model", JStr "control_v11f1e_sd15_tile [a371b31b]");
                    ("control_mode", JStr "Balanced")]])])] in
  let upscale_args :=
    [JNull; JInt 768; JInt 768; JInt 8; JInt 32; JInt 0; JInt 0; JInt 0;
     upscaler_index; JBool false; JInt 0; JBool false; JInt 0; JInt 0;
     JInt 0; JInt 0; JInt 0; JInt 0] in
  JObj [
    ("init_images", JList [JStr (to_base64 img)]);
    ("resize_mode", JInt 0);
    ("denoising_strength", JFloat Float.f0_4);
    ("prompt", JStr (upscale_prompt +:+ ", " +:+ prompt));
    ("negative_prompt", JStr negative_prompt);
    ("sampler_index", JStr "DPM++ 2M Karras");
    ("steps", JInt 30);
    ("cfg_scale", JInt 5);
    ("width", JInt (width target));
    ("height", JInt (height target));
    ("script_name", JStr "ultimate sd upscale");
    ("script_args", JList upscale_args);
    ("alwayson_scripts", cn_payload)
  ].

Definition upscale_tiled (img : Image) (target : Extent) (prompt : string)
    (progress : ref) : co (list Image) :=
  result <~ _post "sdapi/v1/img2img" (upscale_tiled_payload img target prompt)
              (Some progress) ;;
  Loop.pure (_collect_images result None).

End WithCollaborators.

Definition default_url : string := "http://127.0.0.1:7860".

(** [[u["name"] for u in upscalers if not u["name"] == "None"]] *)
Fixpoint upscaler_names_of (upscalers : list json) : pyres (list json) :=
  match upscalers with
  | [] => Ok []
  | u :: rest =>
      n <- Py.getitem u "name" ;;
      if negb (Py.is_str n "None") then
        n <- Py.getitem u "name" ;;
        names <- upscaler_names_of rest ;;
        Ok (n :: names)
      else upscaler_names_of rest
  end.

Definition upscaler_names (upscalers : json) : pyres (list json) :=
  us <- PyIter.iter upscalers ;;
  upscaler_names_of us.

(** [connect(url)]: the result is the new instance, known by its [url],
    together with the value the call stores in [settings.upscalers]. *)
Definition connect {J : JsonLib} (url : string) : co (string * list json) :=
  upscalers <~ _get url "sdapi/v1/upscalers" ;;
  names <~ Loop.pure (upscaler_names upscalers) ;;
  Loop.ret (url, names).

End Auto1111.

(** ** Vocabulary of the properties *)

(** The [NetworkError] of the last line of [from_reply]. *)
Definition fallback (reply : Reply) : net_error :=
  MkNetError NetworkErrorClass (error reply) (JStr (errorString reply)) (reply_url reply).

(** One call after the other, as long as none raises. *)
Definition and_then {A B : Type} (m : action A) (k : A -> action B) : action B :=
  fun w =>
    match m w with
    | (Ok a, w) => k a w
    | (Raise e, w) => (Raise e, w)
    end.

Notation "x <<- m ;; k" := (and_then m (fun x => k))
  (at level 100, m at next level, right associativity).

(** [for v in vs: progress(v)] *)
Fixpoint reports (progress : ref) (vs : list float) : action unit :=
  match vs with
  | [] => fun w => (Ok tt, w)
  | v :: vs => _ <<- Progress.__call__ progress v ;; reports progress vs
  end.

(** A phase driven to completion: its reports, then [finish()]. *)
Definition drive (progress : ref) (vs : list float) : action unit :=
  _ <<- reports progress vs ;; Progress.finish progress.

(** [k] calls of [finish()] in a row. *)
Fixpoint finishes (k : nat) (progress : ref) : action unit :=
  match k with
  | O => fun w => (Ok tt, w)
  | S k => _ <<- Progress.finish progress ;; finishes k progress
  end.

(** Two phases in sequence, each on its own [forward(0.5)] scope. *)
Definition two_phases (parent : ref) (vs1 vs2 : list float) : action unit :=
  c1 <<- Progress.forward parent Float.half ;;
  _ <<- drive c1 vs1 ;;
  c2 <<- Progress.forward parent Float.half ;;
  drive c2 vs2.

(** [scale] added [i] times to [offset], one addition after the other. *)
Definition offset_after (o : ProgressObj) (i : nat) : float :=
  Nat.iter i (fun x => Float.add x (scale o)) (offset o).

(** The world [request] leaves when it registers a request: the sweep, a
    new reply, a new future, a new entry of the dict. *)
Definition registered (method u : string) (data : option json) (w : world) : world :=
  set_requests
    (<[length (replies w) := MkRequest u (length (futures w))]>
       (_requests (RequestManager._cleanup w)))
    (set_futures (futures w ++ [Pending])
       (emit (Sent (length (replies w)) method u data)
          (set_replies (replies w ++ [MkReply u false NoError "" ""])
             (RequestManager._cleanup w)))).

(** What the polling loop of [_post] may let the outside observe: a [GET]
    of the progress endpoint, or an invocation of the callback [cb]. *)
Definition poll_event (self_url : string) (cb : sink) (e : event) : Prop :=
  match e with
  | Sent _ method target data =>
      method = "GET" /\ target = self_url +:+ "/" +:+ "sdapi/v1/progress" /\ data = None
  | Called cb' _ => cb' = cb
  end.

(** An event without its payload. *)
Inductive brief : Type :=
| Req (method target : string)
| Rep (cb : sink) (v : float).

Definition summary (e : event) : brief :=
  match e with
  | Sent _ method target _ => Req method target
  | Called cb v => Rep cb v
  end.

(** ** Concrete collaborators and inputs, for the examples *)

Module Demo.

(** [s] between double quotes. *)
Definition dq (s : string) : string :=
  String "034"%char (s +:+ String "034"%char EmptyString).

(** [{"detail":"bad request","errors":"field x invalid"}] *)
Definition body_bad_request : string :=
  "{" +:+ dq "detail" +:+ ":" +:+ dq "bad request" +:+ "," +:+
  dq "errors" +:+ ":" +:+ dq "field x invalid" +:+ "}".

Definition data_bad_request : json :=
  JObj [("detail", JStr "bad request"); ("errors", JStr "field x invalid")].

(** [{"images":["a","b","c"]}] *)
Definition body_abc : string :=
  "{" +:+ dq "images" +:+ ":[" +:+ dq "a" +:+ "," +:+ dq "b" +:+ "," +:+ dq "c" +:+ "]}".

Definition data_abc : json :=
  JObj [("images", JList [JStr "a"; JStr "b"; JStr "c"])].

(** [{"image":"big"}] *)
Definition body_resized : string :=
  "{" +:+ dq "image" +:+ ":" +:+ dq "big" +:+ "}".

Definition data_resized : json := JObj [("image", JStr "big")].

(** [{"images":["out"]}] *)
Definition body_out : string :=
  "{" +:+ dq "images" +:+ ":[" +:+ dq "out" +:+ "]}".

Definition data_out : json := JObj [("images", JList [JStr "out"])].

(** [{}] *)
Definition body_empty : string := "{}".

(** [{"progress":0.5}] and [{"progress":1.0}] *)
Definition body_progress_half : string := "{" +:+ dq "progress" +:+ ":0.5}".
Definition body_progress_done : string := "{" +:+ dq "progress" +:+ ":1.0}".

Definition data_progress_half : json := JObj [("progress", JFloat Float.half)].
Definition data_progress_done : json := JObj [("progress", JFloat Float.one)].

(** Not JSON. *)
Definition body_html : string := "<html>Bad Gateway</html>".

(** [json.loads] on the bodies above; it raises on every other text. *)
Definition loads (b : string) : option json :=
  if String.eqb b body_bad_request then Some data_bad_request
  else if String.eqb b body_abc then Some data_abc
  else if String.eqb b body_resized then Some data_resized
  else if String.eqb b body_out then Some data_out
  else if String.eqb b body_empty then Some (JObj [])
  else if String.eqb b body_progress_half then Some data_progress_half
  else if String.eqb b body_progress_done then Some data_progress_done
  else None.

Definition json_lib : JsonLib :=
  {| json_loads := loads; str_other := fun _ => "<value>" |}.

(** Images known by their encoding. *)
Definition codec : Codec :=
  {| Image := json;
     from_base64 := fun v => v;
     to_base64 := fun v => match v with JStr s => s | _ => "" end |}.

Definition settings : Settings := {| upscaler := "Lanczos" |}.

(** A reply that came back with HTTP 400. *)
Definition reply_bad_request : Reply :=
  MkReply "http://127.0.0.1:7860/sdapi/v1/txt2img" true 302 "Bad Request" body_bad_request.

(** A reply with an error and a body that is not JSON. *)
Definition reply_bad_gateway : Reply :=
  MkReply "http://127.0.0.1:7860/sdapi/v1/txt2img" true 302 "Bad Gateway" body_html.

(** A world with one [Progress] instance, at reference [0]. *)
Definition scope_world (o : ProgressObj) : world :=
  set_objects [o] empty_world.

(** A fresh scope of scale [0.5] on callback [7], and the same scope after
    one [finish()]. *)
Definition scope_fresh : ProgressObj := MkProgress 7%nat Float.half Float.zero.
Definition scope_advanced : ProgressObj := MkProgress 7%nat Float.half Float.half.
(** A root scope: scale [1], offset [0]. *)
Definition scope_root : ProgressObj := MkProgress 7%nat Float.one Float.zero.

(** A tracker with two requests in flight; the reply of the first one has
    completed, the reply of the second one has not. *)
Definition tracker_world : world :=
  MkWorld
    [MkReply "http://127.0.0.1:7860/sdapi/v1/progress" true NoError "" body_empty;
     MkReply "http://127.0.0.1:7860/sdapi/v1/txt2img" false NoError "" ""]
    (<[0%nat := MkRequest "http://127.0.0.1:7860/sdapi/v1/progress" 0%nat]>
       (<[1%nat := MkRequest "http://127.0.0.1:7860/sdapi/v1/txt2img" 1%nat]> ∅))
    [Result (JObj []); Pending]
    [] [] [].

(** One request in flight, posted from the empty world. *)
Definition posted_world : world :=
  snd (RequestManager.post
         "http://127.0.0.1:7860/sdapi/v1/txt2img" (JObj []) empty_world).

(** The reply of that request completes without error, with a body that is
    not JSON. *)
Definition html_completion : completion := MkCompletion 0%nat NoError "" body_html.

Definition base_url : string := "http://127.0.0.1:7860".

(** The backend answers the interrupt request with [{}], or with an error. *)
Definition interrupt_ok : schedule := [[MkCompletion 0%nat NoError "" body_empty]].
Definition interrupt_failed : schedule := [[MkCompletion 0%nat 302 "Bad Gateway" body_html]].

(** An upscale: the resize reply; one progress reply at [0.5]; then the
    img2img reply together with a progress reply at [1.0]. *)
Definition upscale_schedule : schedule :=
  [[MkCompletion 0%nat NoError "" body_resized];
   [MkCompletion 2%nat NoError "" body_progress_half];
   [MkCompletion 1%nat NoError "" body_out; MkCompletion 3%nat NoError "" body_progress_done]].

Definition upscale_run : outcome (list json) * schedule * world :=
  Auto1111.upscale (J := json_lib) (Cd := codec) (St := settings)
    base_url (JStr "small") (MkExtent 1024 1024) "a cat" 0%nat
    upscale_schedule (scope_world scope_root).

End Demo.

(** ** Histories of the tracker *)

(** What can happen to a tracker: a call of [request], the caller
    cancelling a future, the transport completing a reply. *)
Inductive tracker_op : Type :=
| DoRequest (method u : string) (data : option json)
| DoCancel (f : fut)
| DoDeliver (ev : completion).

Definition tracker_step {J : JsonLib} (op : tracker_op) (w : world) : world :=
  match op with
  | DoRequest method u data => snd (RequestManager.request method u data w)
  | DoCancel f => snd (Future.cancel f w)
  | DoDeliver ev => Loop.deliver ev w
  end.

Definition tracker_run {J : JsonLib} (ops : list tracker_op) (w : world) : world :=
  fold_left (fun w op => tracker_step op w) ops w.

(** The shape the tracker keeps: a reply that has not completed is a key of
    the dict and its future is pending or cancelled; two keys never share a
    future; keys and futures exist; nothing but [JSONDecodeError] has
    escaped the slot. *)
Definition tracker_ok (w : world) : Prop :=
  (forall h r, replies w !! h = Some r -> isFinished r = false ->
     exists q, _requests w !! h = Some q /\
               (futures w !! future q = Some Pending \/
                futures w !! future q = Some Cancelled)) /\
  (forall h1 h2 q1 q2,
     _requests w !! h1 = Some q1 -> _requests w !! h2 = Some q2 ->
     future q1 = future q2 -> h1 = h2) /\
  (forall h q, _requests w !! h = Some q ->
     (h < length (replies w))%nat /\ (future q < length (futures w))%nat) /\
  Forall (fun e => e = JSONDecodeError) (unhandled w).

(** ** More concrete inputs *)

Module Demo2.

(** [{"error":"OutOfMemoryError","errors":"device allocation failed"}] *)
Definition body_oom : string :=
  "{" +:+ Demo.dq "error" +:+ ":" +:+ Demo.dq "OutOfMemoryError" +:+ "," +:+
  Demo.dq "errors" +:+ ":" +:+ Demo.dq "device allocation failed" +:+ "}".

Definition data_oom : json :=
  JObj [("error", JStr "OutOfMemoryError"); ("errors", JStr "device allocation failed")].

(** [[{"name":"None"},{"name":"Lanczos"},{"name":"ESRGAN_4x"}]] *)
Definition body_upscalers : string :=
  "[{" +:+ Demo.dq "name" +:+ ":" +:+ Demo.dq "None" +:+ "},{" +:+
  Demo.dq "name" +:+ ":" +:+ Demo.dq "Lanczos" +:+ "},{" +:+
  Demo.dq "name" +:+ ":" +:+ Demo.dq "ESRGAN_4x" +:+ "}]".

Definition data_upscalers : json :=
  JList [JObj [("name", JStr "None")];
         JObj [("name", JStr "Lanczos")];
         JObj [("name", JStr "ESRGAN_4x")]].

(** [json.loads] on the bodies of [Demo] and on the two above. *)
Definition loads (b : string) : option json :=
  if String.eqb b body_oom then Some data_oom
  else if String.eqb b body_upscalers then Some data_upscalers
  else Demo.loads b.

Definition json_lib : JsonLib :=
  {| json_loads := loads; str_other := fun _ => "<value>" |}.

(** A reply that came back with HTTP 500 and the out-of-memory tag. *)
Definition reply_oom : Reply :=
  MkReply "http://127.0.0.1:7860/sdapi/v1/txt2img" true 401 "Internal Server Error" body_oom.

End Demo2.

(** A future the tracker alone has touched: it is pending, or resolved, or
    rejected with a classified error. *)
Definition tracker_settled (st : future_state) : Prop :=
  st = Pending \/ (exists v, st = Result v) \/ (exists e, st = Exception (NetError e)).

(** The exceptions that the handling of a progress status can raise. *)
Definition status_error (e : exn) : Prop :=
  e = KeyError \/ e = TypeError.

(** From [w] to [w'] no future has disappeared, and the futures of [w] that
    the tracker alone had touched are still so. *)
Definition keeps_futures (w w' : world) : Prop :=
  (length (futures w) <= length (futures w'))%nat /\
  forall g, (g < length (futures w))%nat ->
            tracker_settled (Future.state w g) ->
            tracker_settled (Future.state w' g).

(** The exceptions an operation of [Auto1111] can raise before it reads
    the result: a classified network error, or a progress status that has
    no number under ["progress"]. *)
Definition transport_error (e : exn) : Prop :=
  status_error e \/ exists ne, e = NetError ne.

(** The scope [o] after its [finish()]. *)
Definition finished_scope (o : ProgressObj) : ProgressObj :=
  MkProgress (callback o) (scale o) (Float.add (offset o) (scale o)).

(** More collaborators for the examples: every image is 512 by 512, except
    the image ["wide"]. *)
Module Demo3.

Definition image_extent : ImageExtent (Cd := Demo.codec) :=
  {| extent := fun v : Image (Codec := Demo.codec) =>
                 if Py.is_str v "wide" then MkExtent 1024 512 else MkExtent 512 512 |}.

Definition batch : BatchSettings := {| batch_size := 2; upscaler_index := JInt 0 |}.

(** The job reply and a progress reply at [1.0] arrive together. *)
Definition job_schedule (body : string) : schedule :=
  [[MkCompletion 0%nat NoError "" body;
    MkCompletion 1%nat NoError "" Demo.body_progress_done]].

End Demo3.

(** ** [class ComfyWorkflow] ([ai_diffusion/comfyworkflow.py]) *)

(** [class Output(NamedTuple)] *)
Record Output : Type := MkOutput {
  node : Z;
  output : Z
}.

(** [Bounds] of [ai_diffusion/image.py] *)
Record Bounds : Type := MkBounds {
  bounds_x : Z;
  bounds_y : Z;
  bounds_width : Z;
  bounds_height : Z
}.

(** A keyword argument of [add]: an [Output], or any other value. *)
Inductive value : Type :=
| VOutput (o : Output)
| VOther (j : json).

(** What [add] returns: one [Output], or a tuple of them. *)
Inductive outputs : Type :=
| Single (o : Output)
| Tuple (l : list Output).

(** [str(inputs)] for the keyword arguments of a call. *)
Class PyRuntime : Type := {
  str_inputs : list (string * value) -> string
}.

(** The generator of the module [random]: the values it has still to
    draw.  [random.getrandbits(k)] takes the next one, a number of [k] bits,
    and leaves the generator with the rest. *)
Definition random_state : Type := nat -> Z.

Definition getrandbits (k : Z) (r : random_state) : Z * random_state :=
  (r 0%nat mod 2 ^ k, fun i => r (S i)).

Module ComfyWorkflow.

Record t : Type := Mk {
  root : gmap string json;
  node_count : Z;
  sample_count : Z;
  _cache : gmap string outputs
}.

(** [ComfyWorkflow()] *)
Definition __init__ : t := Mk ∅ 0 0 ∅.

(** [normalize] in [add] *)
Definition normalize (x : value) : json :=
  match x with
  | VOutput o => JList [JStr (pretty (node o)); JInt (output o)]
  | VOther j => j
  end.

(** [range(n)] *)
Definition range (n : Z) : list Z := map Z.of_nat (seq 0 (Z.to_nat n)).

Definition add (class_type : string) (output_count : Z) (inputs : list (string * value))
    (self : t) : outputs * t :=
  let count := node_count self + 1 in
  let entry :=
    JObj [("class_type", JStr class_type);
          ("inputs", JObj (map (fun '(k, v) => (k, normalize v)) inputs))] in
  let self := Mk (<[pretty count := entry]> (root self)) count
                 (sample_count self) (_cache self) in
  let out := map (fun i => MkOutput count i) (range output_count) in
  (* [output[0] if output_count == 1 else output] *)
  (if output_count =? 1 then Single (hd (MkOutput count 0) out) else Tuple out, self).

Section WithRuntime.
Context {R : PyRuntime}.

Definition add_cached (class_type : string) (output_count : Z)
    (inputs : list (string * value)) (self : t) : outputs * t :=
  let key := class_type +:+ str_inputs inputs in
  match _cache self !! key with
  | Some result => (result, self)
  | None =>
      let '(result, self) := add class_type output_count inputs self in
      (result,
       Mk (root self) (node_count self) (sample_count self)
          (<[key := result]> (_cache self)))
  end.

(** [seed] is compared with [-1], and the generator is asked only then;
    the other arguments are stored as they come. *)
Definition ksampler (model positive negative latent_image : value)
    (sampler scheduler : string) (steps : Z) (cfg denoise : value) (seed : Z)
    (self : t) (rng : random_state) : outputs * t * random_state :=
  let self := Mk (root self) (node_count self) (sample_count self + steps) (_cache self) in
  let '(seed, rng) := if seed =? -1 then getrandbits 64 rng else (seed, rng) in
  (add "KSampler" 1
     [("seed", VOther (JInt seed));
      ("sampler_name", VOther (JStr sampler));
      ("scheduler", VOther (JStr scheduler));
      ("model", model);
      ("positive", positive);
      ("negative", negative);
      ("latent_image", latent_image);
      ("steps", VOther (JInt steps));
      ("cfg", cfg);
      ("denoise", denoise)]
     self,
   rng).

Definition load_checkpoint (checkpoint : value) : t -> outputs * t :=
  add_cached "CheckpointLoaderSimple" 3 [("ckpt_name", checkpoint)].

Definition load_vae (vae_name : value) : t -> outputs * t :=
  add_cached "VAELoader" 1 [("vae_name", vae_name)].

End WithRuntime.

Definition load_lora (model clip lora_name strength_model strength_clip : value)
  : t -> outputs * t :=
  add "LoraLoader" 2
    [("model", model); ("clip", clip); ("lora_name", lora_name);
     ("strength_model", strength_model); ("strength_clip", strength_clip)].

Definition scale_image (image : value) (e : Extent) : t -> outputs * t :=
  add "ImageScale" 1
    [("image", image);
     ("width", VOther (JInt (width e)));
     ("height", VOther (JInt (height e)));
     ("upscale_method", VOther (JStr "bilinear"));
     ("crop", VOther (JStr "disabled"))].

Definition image_to_mask (image : value) : t -> outputs * t :=
  add "ImageToMask" 1 [("image", image); ("channel", VOther (JStr "red"))].

Definition mask_to_image (mask : value) : t -> outputs * t :=
  add "MaskToImage" 1 [("mask", mask)].

(** The result of an [add] as the argument of the next call: a single
    [Output] is an [Output]; a tuple is passed as the tuple it is. *)
Definition as_value (r : outputs) : value :=
  match r with
  | Single o => VOutput o
  | Tuple l => VOther (JList (map (fun o => JList [JInt (node o); JInt (output o)]) l))
  end.

Definition scale_mask (mask : value) (e : Extent) (self : t) : outputs * t :=
  let '(img, self) := mask_to_image mask self in
  let '(scaled, self) := scale_image (as_value img) e self in
  image_to_mask (as_value scaled) self.

Definition crop_image (image : value) (b : Bounds) : t -> outputs * t :=
  add "ETN_CropImage" 1
    [("image", image);
     ("x", VOther (JInt (bounds_x b)));
     ("y", VOther (JInt (bounds_y b)));
     ("width", VOther (JInt (bounds_width b)));
     ("height", VOther (JInt (bounds_height b)))].

Definition load_image {Cd : Codec} (image : Image) : t -> outputs * t :=
  add "ETN_LoadImageBase64" 1 [("image", VOther (JStr (to_base64 image)))].

End ComfyWorkflow.

(** The calls that build a workflow. *)
Inductive workflow_op : Type :=
| OpAdd (class_type : string) (output_count : Z) (inputs : list (string * value))
| OpAddCached (class_type : string) (output_count : Z) (inputs : list (string * value)).

Definition workflow_step {R : PyRuntime} (op : workflow_op) (self : ComfyWorkflow.t)
  : ComfyWorkflow.t :=
  match op with
  | OpAdd ct oc inputs => snd (ComfyWorkflow.add ct oc inputs self)
  | OpAddCached ct oc inputs => snd (ComfyWorkflow.add_cached ct oc inputs self)
  end.

Definition workflow_run {R : PyRuntime} (ops : list workflow_op) (self : ComfyWorkflow.t)
  : ComfyWorkflow.t :=
  fold_left (fun self op => workflow_step op self) ops self.

(** The nodes of a workflow are numbered from [1] to [node_count]. *)
Definition numbered (self : ComfyWorkflow.t) : Prop :=
  0 <= ComfyWorkflow.node_count self /\
  forall k : string,
    is_Some (ComfyWorkflow.root self !! k) <->
    exists i, 1 <= i <= ComfyWorkflow.node_count self /\ k = pretty i.

Module Demo4.

(** A runtime whose [str] of the keyword arguments tells the values of
    checkpoint names apart. *)
Definition runtime : PyRuntime :=
  {| str_inputs := fun inputs =>
       match inputs with
       | [(k, VOther (JStr v))] => "{" +:+ k +:+ ": " +:+ v +:+ "}"
       | _ => "{...}"
       end |}.

End Demo4.

(** ** The reply that resolves a request *)

(** Every request of the tracker refers to a future that exists. *)
Definition requests_have_futures (w : world) : Prop :=
  map_Forall (fun (_ : handle) q => (future q < length (futures w))%nat) (_requests w).

(** The request that was sent with the reply [h] and the future [f]: no
    other entry of the dict refers to [f]; as long as the reply has not
    completed, the entry is there and [f] is pending; once it has completed,
    [f] is resolved exactly when there was no error and the body parses, with
    what the body parses to. *)
Definition resolved_by_reply {J : JsonLib} (h : handle) (f : fut) (w : world) : Prop :=
  (h < length (replies w))%nat /\ (f < length (futures w))%nat /\
  (forall h' q, _requests w !! h' = Some q -> future q = f -> h' = h) /\
  exists reply,
    replies w !! h = Some reply /\
    if isFinished reply then
      forall v, Future.state w f = Result v <->
                error reply = NoError /\ json_loads (body reply) = Some v
    else
      Future.state w f = Pending /\
      exists q, _requests w !! h = Some q /\ future q = f.

(** * Properties *)

(** ** The error classifier *)

Section Classifier.
Context {J : JsonLib}.

Lemma from_reply_cases (reply : Reply) :
  NetworkError.from_reply reply = Ok (fallback reply) \/
  exists r, NetworkError.from_reply_try reply = Ok (Some r) /\
            NetworkError.from_reply reply = Ok r.
Proof.
  unfold NetworkError.from_reply.
  destruct (NetworkError.from_reply_try reply) as [[r|]|e]; eauto.
Qed.

Lemma from_reply_total (reply : Reply) :
  exists r, NetworkError.from_reply reply = Ok r.
Proof.
  destruct (from_reply_cases reply) as [E | (r & _ & E)]; eauto.
Qed.

(** C7: [from_reply] returns for every reply, it never raises; whenever the
    [try] block raises, the result is the plain [NetworkError] that carries
    the error string alone, and that is the case of a body [json.loads]
    rejects. *)
Theorem from_reply_never_raises (reply : Reply) :
  (exists r, NetworkError.from_reply reply = Ok r) /\
  (forall e, NetworkError.from_reply_try reply = Raise e ->
             NetworkError.from_reply reply = Ok (fallback reply)) /\
  (json_loads (body reply) = None ->
   NetworkError.from_reply reply = Ok (fallback reply)).
Proof.
  split; [|split].
  - apply from_reply_total.
  - intros e E. unfold NetworkError.from_reply. now rewrite E.
  - intros E. unfold NetworkError.from_reply, NetworkError.from_reply_try.
    now rewrite E.
Qed.

(** The branch for [detail] and [errors] calls [NetworkError] without its
    [url] argument: the [TypeError] is swallowed by [except: pass], and the
    formatted message is lost. *)
Lemma from_reply_detail_errors (reply : Reply) (data detail errors e : json) :
  json_loads (body reply) = Some data ->
  Py.get data "error" (JStr "") = Ok e ->
  Py.is_str e "OutOfMemoryError" = false ->
  Py.get data "detail" (JStr "") = Ok detail ->
  Py.get data "errors" (JStr "") = Ok errors ->
  negb (Py.is_str detail "") || negb (Py.is_str errors "") = true ->
  NetworkError.from_reply reply = Ok (fallback reply).
Proof.
  intros E1 E2 E3 E4 E5 E6.
  unfold NetworkError.from_reply, NetworkError.from_reply_try.
  rewrite E1, E2. cbn. rewrite E3, E4. cbn. rewrite E5. cbn. now rewrite E6.
Qed.

End Classifier.

(** C3: on the body [{"detail":"bad request","errors":"field x invalid"}]
    with error string ["Bad Request"], [from_reply] returns a [NetworkError]
    whose message is ["Bad Request"], not
    ["bad request field x invalid (Bad Request)"]. *)
Theorem from_reply_bad_request_message :
  NetworkError.from_reply (J := Demo.json_lib) Demo.reply_bad_request =
    Ok (MkNetError NetworkErrorClass 302 (JStr "Bad Request")
          "http://127.0.0.1:7860/sdapi/v1/txt2img") /\
  NetworkError.from_reply_try (J := Demo.json_lib) Demo.reply_bad_request = Raise TypeError /\
  NetworkError.from_reply (J := Demo.json_lib) Demo.reply_bad_request <>
    Ok (MkNetError NetworkErrorClass 302
          (JStr "bad request field x invalid (Bad Request)")
          "http://127.0.0.1:7860/sdapi/v1/txt2img").
Proof.
  split; [|split]; [reflexivity | reflexivity |].
  vm_compute. discriminate.
Qed.

Lemma from_reply_never_raises_witness :
  json_loads (JsonLib := Demo.json_lib) (body Demo.reply_bad_gateway) = None /\
  NetworkError.from_reply (J := Demo.json_lib) Demo.reply_bad_gateway =
    Ok (MkNetError NetworkErrorClass 302 (JStr "Bad Gateway")
          "http://127.0.0.1:7860/sdapi/v1/txt2img").
Proof.
  split; [reflexivity|].
  apply (from_reply_never_raises (J := Demo.json_lib) Demo.reply_bad_gateway). reflexivity.
Defined.

(** ** The result extractor *)

Section Extractor.
Context {Cd : Codec}.

Lemma collect_images_dict (fields : list (string * json)) (count : option Z) :
  _collect_images (JObj fields) count =
    match Py.assoc "images" fields with
    | None => Raise Interrupted
    | Some (JList images) =>
        Ok (map from_base64
              match count with
              | Some c => Py.slice_to images c
              | None => images
              end)
    | Some _ => Raise AssertionError
    end.
Proof.
  unfold _collect_images. cbn.
  destruct (Py.assoc "images" fields) as [v|]; [|reflexivity].
  now destruct v.
Qed.

Lemma slice_to_negative {A : Type} (l : list A) (stop : Z) :
  stop < 0 ->
  Py.slice_to l stop = take (length l - Z.to_nat (Z.abs stop)) l.
Proof.
  intros Hneg. unfold Py.slice_to.
  destruct (Z.ltb_spec stop 0) as [_|]; [|lia].
  f_equal. lia.
Qed.

(** C8: on a dict payload [_collect_images] raises [Interrupted] exactly
    when the key ["images"] is missing; when the key holds a list and no
    count is given, the result is the decoding of every element, in the
    order of the list. *)
Theorem collect_images_interrupted_iff (fields : list (string * json)) (count : option Z) :
  (_collect_images (JObj fields) count = Raise Interrupted <->
   Py.assoc "images" fields = None) /\
  (forall images : list json,
     Py.assoc "images" fields = Some (JList images) ->
     _collect_images (JObj fields) None = Ok (map from_base64 images)).
Proof.
  split.
  - rewrite collect_images_dict.
    destruct (Py.assoc "images" fields) as [v|]; [|tauto].
    destruct v; split; discriminate.
  - intros images E. rewrite collect_images_dict. now rewrite E.
Qed.

(** C1 (as the code has it): with a negative count [-k] the slice
    [images[:count]] drops the last [k] elements of the list: the result is
    the decoding of the first [len(images) - k] elements, in order (none
    when the list has no more than [k]). *)
Theorem collect_images_negative_count
    (fields : list (string * json)) (images : list json) (count : Z) :
  Py.assoc "images" fields = Some (JList images) ->
  count < 0 ->
  _collect_images (JObj fields) (Some count) =
    Ok (map from_base64 (take (length images - Z.to_nat (Z.abs count)) images)).
Proof.
  intros E Hneg. rewrite collect_images_dict, E.
  now rewrite slice_to_negative.
Qed.

End Extractor.

Lemma collect_images_interrupted_iff_witness :
  _collect_images (Cd := Demo.codec) (JObj []) None = Raise Interrupted /\
  _collect_images (Cd := Demo.codec) Demo.data_abc None =
    Ok [JStr "a"; JStr "b"; JStr "c"].
Proof.
  split.
  - apply (collect_images_interrupted_iff (Cd := Demo.codec) [] None). reflexivity.
  - exact (proj2 (collect_images_interrupted_iff (Cd := Demo.codec)
                    [("images", JList [JStr "a"; JStr "b"; JStr "c"])] None)
             [JStr "a"; JStr "b"; JStr "c"] eq_refl).
Defined.

Lemma collect_images_negative_count_witness :
  _collect_images (Cd := Demo.codec) Demo.data_abc (Some (-1)) =
    Ok [JStr "a"; JStr "b"].
Proof.
  apply (collect_images_negative_count (Cd := Demo.codec)
           [("images", JList [JStr "a"; JStr "b"; JStr "c"])]
           [JStr "a"; JStr "b"; JStr "c"] (-1)); [reflexivity | lia].
Defined.

(** C1 as stated fails: on [{"images":["a","b","c"]}] with count [-1] the
    result is the decoding of ["a"] and ["b"], not of ["c"] alone. *)
Lemma collect_images_keeps_last_counterexample :
  _collect_images (Cd := Demo.codec) Demo.data_abc (Some (-1)) =
    Ok (map (from_base64 (Codec := Demo.codec)) [JStr "a"; JStr "b"]) /\
  _collect_images (Cd := Demo.codec) Demo.data_abc (Some (-1)) <>
    Ok (map (from_base64 (Codec := Demo.codec)) [JStr "c"]).
Proof.
  split; [reflexivity|]. vm_compute. discriminate.
Qed.

(** ** The progress scope *)

Section ProgressScope.

Lemma reports_spec (p : ref) (o : ProgressObj) (vs : list float) (w : world) :
  objects w !! p = Some o ->
  exists w',
    reports p vs w = (Ok tt, w') /\
    objects w' = objects w /\
    log w' = log w ++
      map (fun v => Called (callback o) (Float.add (offset o) (Float.mul (scale o) v))) vs.
Proof.
  revert w. induction vs as [|v vs IH]; intros w Hp; cbn.
  - exists w. now rewrite app_nil_r.
  - unfold and_then, Progress.__call__. rewrite Hp.
    destruct (IH (emit (Called (callback o)
                          (Float.add (offset o) (Float.mul (scale o) v))) w) Hp)
      as (w' & E & Ho & Hl).
    exists w'. split; [exact E|]. split; [exact Ho|].
    rewrite Hl. cbn. now rewrite <- app_assoc.
Qed.

Lemma finish_spec (p : ref) (o : ProgressObj) (w : world) :
  objects w !! p = Some o ->
  Progress.finish p w =
    (Ok tt,
     emit (Called (callback o) (Float.add (offset o) (scale o)))
       (set_objects
          (<[p := MkProgress (callback o) (scale o) (Float.add (offset o) (scale o))]>
             (objects w)) w)).
Proof. intros Hp. unfold Progress.finish. now rewrite Hp. Qed.

Lemma finishes_spec (k : nat) (p : ref) (o : ProgressObj) (w : world) :
  objects w !! p = Some o ->
  exists w',
    finishes k p w = (Ok tt, w') /\
    objects w' !! p = Some (MkProgress (callback o) (scale o) (offset_after o k)) /\
    (forall q, q <> p -> objects w' !! q = objects w !! q) /\
    log w' = log w ++
      map (fun i => Called (callback o) (offset_after o i)) (seq 1 k).
Proof.
  revert o w. induction k as [|k IH]; intros o w Hp.
  - exists w. cbn. rewrite app_nil_r. destruct o. now rewrite Hp.
  - cbn [finishes]. unfold and_then. rewrite (finish_spec p o w Hp).
    set (o' := MkProgress (callback o) (scale o) (Float.add (offset o) (scale o))).
    set (w1 := emit _ _).
    assert (Hp' : objects w1 !! p = Some o').
    { cbn. apply list_lookup_insert_eq. now apply lookup_lt_Some in Hp. }
    destruct (IH o' w1 Hp') as (w' & E & Ho & Hf & Hl).
    assert (Hshift : forall i, offset_after o' i = offset_after o (S i)).
    { intros i. unfold offset_after. cbn [callback scale offset o'].
      now rewrite Nat.iter_succ_r. }
    exists w'. split; [exact E|]. split; [|split].
    + rewrite Ho. cbn [callback scale o']. now rewrite Hshift.
    + intros q Hq. rewrite (Hf q Hq). cbn.
      now apply list_lookup_insert_ne.
    + rewrite Hl. cbn [log w1 emit]. rewrite <- app_assoc. f_equal.
      cbn [seq map app]. f_equal.
      rewrite <- (seq_shift k 1), map_map. apply map_ext. intros i.
      cbn [callback o']. now rewrite Hshift.
Qed.

(** C10: reporting a value invokes the callback with
    [offset + scale * v] and changes no [Progress] instance; [finish()]
    replaces [offset] by [offset + scale] and invokes the callback with the
    new offset, so [k] calls of [finish()] in a row invoke it with
    [offset + scale], then that plus [scale], and so on ([scale] added [i]
    times at the [i]-th call) and leave [scale] added [k] times in
    [offset]. *)
Theorem report_keeps_finish_advances (w : world) (p : ref) (o : ProgressObj) :
  objects w !! p = Some o ->
  (forall v : float,
     Progress.__call__ p v w =
       (Ok tt, emit (Called (callback o)
                       (Float.add (offset o) (Float.mul (scale o) v))) w) /\
     objects (snd (Progress.__call__ p v w)) = objects w) /\
  (exists w',
     Progress.finish p w = (Ok tt, w') /\
     objects w' = <[p := MkProgress (callback o) (scale o)
                           (Float.add (offset o) (scale o))]> (objects w) /\
     log w' = log w ++ [Called (callback o) (Float.add (offset o) (scale o))]) /\
  (forall k : nat,
     exists w',
       finishes k p w = (Ok tt, w') /\
       objects w' !! p = Some (MkProgress (callback o) (scale o) (offset_after o k)) /\
       log w' = log w ++
         map (fun i => Called (callback o) (offset_after o i)) (seq 1 k)).
Proof.
  intros Hp. split; [|split].
  - intros v. unfold Progress.__call__. rewrite Hp. split; reflexivity.
  - eexists. split; [apply (finish_spec p o w Hp)|]. split; reflexivity.
  - intros k. destruct (finishes_spec k p o w Hp) as (w' & E & Ho & _ & Hl).
    exists w'. auto.
Qed.

End ProgressScope.

Lemma report_keeps_finish_advances_witness :
  exists w',
    finishes 2 0%nat (Demo.scope_world Demo.scope_fresh) = (Ok tt, w') /\
    objects w' !! 0%nat = Some (MkProgress 7%nat Float.half Float.one) /\
    log w' = [Called 7%nat Float.half; Called 7%nat Float.one].
Proof.
  exact (proj2 (proj2 (report_keeps_finish_advances
                         (Demo.scope_world Demo.scope_fresh) 0%nat
                         Demo.scope_fresh eq_refl)) 2%nat).
Defined.

Section Forward.

Lemma forward_spec (parent : ref) (o : ProgressObj) (sc : float) (w : world) :
  objects w !! parent = Some o ->
  Progress.forward parent sc w =
    (Ok (length (objects w)),
     set_objects (objects w ++ [MkProgress (callback o) sc Float.zero]) w).
Proof. intros Hp. unfold Progress.forward. now rewrite Hp. Qed.

Lemma drive_spec (p : ref) (o : ProgressObj) (vs : list float) (w : world) :
  objects w !! p = Some o ->
  exists w',
    drive p vs w = (Ok tt, w') /\
    objects w' = <[p := MkProgress (callback o) (scale o)
                          (Float.add (offset o) (scale o))]> (objects w) /\
    last (log w') = Some (Called (callback o) (Float.add (offset o) (scale o))).
Proof.
  intros Hp. unfold drive, and_then.
  destruct (reports_spec p o vs w Hp) as (w1 & E & Ho & _).
  rewrite E. rewrite (finish_spec p o w1) by now rewrite Ho.
  eexists. split; [reflexivity|]. split.
  - cbn. now rewrite Ho.
  - cbn. apply last_snoc.
Qed.

(** A phase on a [forward] scope: the child is a new instance with the
    callback of the parent and offset [0]; driven to completion, its last
    invocation of the callback carries [0 + sc], and the parent is as it
    was. *)
Lemma forward_drive (parent : ref) (o : ProgressObj) (sc : float)
    (vs : list float) (w : world) :
  objects w !! parent = Some o ->
  exists w1 w2,
    Progress.forward parent sc w = (Ok (length (objects w)), w1) /\
    objects w1 !! length (objects w) = Some (MkProgress (callback o) sc Float.zero) /\
    objects w1 !! parent = Some o /\
    drive (length (objects w)) vs w1 = (Ok tt, w2) /\
    last (log w2) = Some (Called (callback o) (Float.add Float.zero sc)) /\
    objects w2 !! parent = Some o.
Proof.
  intros Hp.
  pose proof (lookup_lt_Some _ _ _ Hp) as Hlt.
  set (child := MkProgress (callback o) sc Float.zero).
  set (w1 := set_objects (objects w ++ [child]) w).
  assert (Hc : objects w1 !! length (objects w) = Some child).
  { cbn. rewrite lookup_app_r by lia. now rewrite Nat.sub_diag. }
  assert (Hp1 : objects w1 !! parent = Some o).
  { cbn. now rewrite lookup_app_l. }
  destruct (drive_spec (length (objects w)) child vs w1 Hc) as (w2 & E & Ho & Hl).
  exists w1, w2. rewrite (forward_spec parent o sc w Hp).
  repeat split; try assumption.
  rewrite Ho. rewrite list_lookup_insert_ne by lia. exact Hp1.
Qed.

(** C2 (as the code has it): [forward(0.5)] makes a new scope with the
    callback of the parent, scale [0.5] and offset [0], whatever the offset
    of the parent; driving it to completion ends with the callback invoked
    with [0.5] and leaves the parent as it was; two such phases in sequence
    end with the callback invoked with [0.5]. *)
Theorem forward_starts_at_zero (w : world) (parent : ref) (o : ProgressObj)
    (vs1 vs2 : list float) :
  objects w !! parent = Some o ->
  (exists w1 w2,
     Progress.forward parent Float.half w = (Ok (length (objects w)), w1) /\
     objects w1 !! length (objects w) =
       Some (MkProgress (callback o) Float.half Float.zero) /\
     drive (length (objects w)) vs1 w1 = (Ok tt, w2) /\
     last (log w2) = Some (Called (callback o) Float.half) /\
     objects w2 !! parent = Some o) /\
  (exists w3,
     two_phases parent vs1 vs2 w = (Ok tt, w3) /\
     last (log w3) = Some (Called (callback o) Float.half) /\
     objects w3 !! parent = Some o).
Proof.
  intros Hp.
  destruct (forward_drive parent o Float.half vs1 w Hp)
    as (w1 & w2 & E1 & Hc & _ & E2 & Hl & Hp2).
  split.
  - exists w1, w2. auto.
  - destruct (forward_drive parent o Float.half vs2 w2 Hp2)
      as (w3 & w4 & E3 & _ & _ & E4 & Hl4 & Hp4).
    exists w4. unfold two_phases, and_then.
    rewrite E1, E2, E3, E4. auto.
Qed.

End Forward.

Lemma forward_starts_at_zero_witness :
  exists w3,
    two_phases 0%nat [Float.f0_4] [] (Demo.scope_world Demo.scope_root) = (Ok tt, w3) /\
    last (log w3) = Some (Called 7%nat Float.half) /\
    objects w3 !! 0%nat = Some Demo.scope_root.
Proof.
  exact (proj2 (forward_starts_at_zero (Demo.scope_world Demo.scope_root) 0%nat
                  Demo.scope_root [Float.f0_4] [] eq_refl)).
Defined.

(** C2 as stated fails.  On a parent whose offset is [0.5], the scope
    [forward(0.5)] makes has offset [0], not [0.5]; driven to completion it
    ends with the callback invoked with [0.5], not [1.0], and the offset of
    the parent is still [0.5].  Two [forward(0.5)] phases on a root scope
    end with [0.5], not [1.0]. *)
Lemma forward_keeps_offset_counterexample :
  let w := Demo.scope_world Demo.scope_advanced in
  let o := offset Demo.scope_advanced in
  o = Float.half /\
  Float.add o Float.half = Float.one /\
  (exists w1 w2,
     Progress.forward 0%nat Float.half w = (Ok 1%nat, w1) /\
     offset <$> objects w1 !! 1%nat = Some Float.zero /\
     offset <$> objects w1 !! 1%nat <> Some o /\
     drive 1%nat [] w1 = (Ok tt, w2) /\
     last (log w2) = Some (Called 7%nat Float.half) /\
     last (log w2) <> Some (Called 7%nat (Float.add o Float.half)) /\
     offset <$> objects w2 !! 0%nat = Some o /\
     offset <$> objects w2 !! 0%nat <> Some (Float.add o Float.half)) /\
  (exists w3,
     two_phases 0%nat [] [] (Demo.scope_world Demo.scope_root) = (Ok tt, w3) /\
     last (log w3) = Some (Called 7%nat Float.half) /\
     last (log w3) <> Some (Called 7%nat Float.one)).
Proof.
  cbv zeta. split; [reflexivity|]. split; [reflexivity|]. split.
  - eexists; eexists.
    split; [reflexivity|]. split; [reflexivity|]. split; [vm_compute; discriminate|].
    split; [reflexivity|]. split; [reflexivity|]. split; [vm_compute; discriminate|].
    split; [reflexivity|]. vm_compute; discriminate.
  - eexists. split; [reflexivity|]. split; [reflexivity|]. vm_compute; discriminate.
Qed.

(** ** The request tracker *)

Section Tracker.
Context {J : JsonLib}.

Lemma cleanup_lookup (w : world) (h : handle) :
  _requests (RequestManager._cleanup w) !! h =
    if Net.is_finished w h then None else _requests w !! h.
Proof.
  unfold RequestManager._cleanup. cbn [_requests set_requests].
  destruct (_requests w !! h) as [r|] eqn:E.
  - destruct (Net.is_finished w h) eqn:F.
    + apply map_lookup_filter_None. right. intros r' E'. cbn. congruence.
    + apply map_lookup_filter_Some. split; [exact E|]. exact F.
  - replace (if Net.is_finished w h then None else None) with (@None Request)
      by now destruct (Net.is_finished w h).
    apply map_lookup_filter_None. now left.
Qed.

Lemma finished_snoc (l : list Reply) (r : Reply) (h : nat) :
  isFinished r = false ->
  match (l ++ [r]) !! h with Some x => isFinished x | None => false end =
  match l !! h with Some x => isFinished x | None => false end.
Proof.
  intros Hr. destruct (decide (h < length l)%nat) as [Hlt|Hge].
  - now rewrite lookup_app_l.
  - rewrite lookup_app_r by lia.
    rewrite (proj2 (lookup_ge_None l h)) by lia.
    destruct (h - length l)%nat; cbn; [exact Hr | reflexivity].
Qed.

Lemma cleanup_replies (w : world) : replies (RequestManager._cleanup w) = replies w.
Proof. reflexivity. Qed.

(** What a call of [request] leaves behind: it raised after the sweep, or it
    registered a new reply with a new future. *)
Lemma request_cases (method u : string) (data : option json) (w : world) :
  (exists e, RequestManager.request method u data w =
               (Raise e, RequestManager._cleanup w)) \/
  (exists m d,
     RequestManager.request method u data w =
       (Ok (length (futures w)),
        set_requests
          (<[length (replies w) := MkRequest u (length (futures w))]>
             (_requests (RequestManager._cleanup w)))
          (set_futures (futures w ++ [Pending])
             (emit (Sent (length (replies w)) m u d)
                (set_replies (replies w ++ [MkReply u false NoError "" ""])
                   (RequestManager._cleanup w)))))).
Proof.
  unfold RequestManager.request.
  destruct (String.eqb method "GET"), (String.eqb method "POST"), data;
    cbn; eauto.
Qed.

(** C9: [request] sweeps before it registers.  After the call the dict holds
    no reply that reports finished, except possibly the reply just added;
    every other key is bound as before the call when its reply was not
    finished, and is unbound when it was. *)
Theorem request_purges_finished (method u : string) (data : option json) (w : world) :
  let w' := snd (RequestManager.request method u data w) in
  (forall h r,
     _requests w' !! h = Some r -> Net.is_finished w' h = true ->
     h = length (replies w)) /\
  (forall h,
     h <> length (replies w) ->
     _requests w' !! h = if Net.is_finished w h then None else _requests w !! h).
Proof.
  cbv zeta.
  destruct (request_cases method u data w) as [(e & E) | (m & d & E)];
    rewrite E; cbn [snd]; split.
  - intros h r Hh Hf. rewrite cleanup_lookup in Hh.
    unfold Net.is_finished in *. rewrite cleanup_replies in Hf.
    rewrite Hf in Hh. discriminate.
  - intros h _. apply cleanup_lookup.
  - intros h r Hh Hf.
    destruct (decide (h = length (replies w))) as [|Hne]; [assumption|exfalso].
    cbn [_requests set_requests] in Hh.
    rewrite lookup_insert_ne in Hh by congruence.
    rewrite cleanup_lookup in Hh.
    unfold Net.is_finished in Hf at 1.
    cbn [replies set_replies set_requests set_futures emit] in Hf.
    rewrite ?cleanup_replies in Hf.
    rewrite finished_snoc in Hf by reflexivity.
    unfold Net.is_finished in Hh. unfold handle in *.
    rewrite Hf in Hh. discriminate.
  - intros h Hne. cbn [_requests set_requests].
    rewrite lookup_insert_ne by congruence. apply cleanup_lookup.
Qed.

End Tracker.

Lemma request_purges_finished_witness :
  let w' := snd (RequestManager.request "GET"
                   "http://127.0.0.1:7860/sdapi/v1/progress" None Demo.tracker_world) in
  Net.is_finished Demo.tracker_world 0%nat = true /\
  _requests Demo.tracker_world !! 0%nat =
    Some (MkRequest "http://127.0.0.1:7860/sdapi/v1/progress" 0%nat) /\
  _requests w' !! 0%nat = None /\
  _requests w' !! 1%nat = Some (MkRequest "http://127.0.0.1:7860/sdapi/v1/txt2img" 1%nat).
Proof.
  cbv zeta. split; [reflexivity|]. split; [reflexivity|]. split.
  - exact (proj2 (request_purges_finished "GET"
                    "http://127.0.0.1:7860/sdapi/v1/progress" None Demo.tracker_world)
             0%nat ltac:(discriminate)).
  - exact (proj2 (request_purges_finished "GET"
                    "http://127.0.0.1:7860/sdapi/v1/progress" None Demo.tracker_world)
             1%nat ltac:(discriminate)).
Defined.

Section Delivery.
Context {J : JsonLib}.

Lemma state_insert_other (w : world) (f g : fut) (st : future_state) :
  Future.state w f = Pending ->
  Future.state w g <> Pending ->
  Future.state (set_futures (<[f := st]> (futures w)) w) g = Future.state w g.
Proof.
  intros Hf Hg. unfold Future.state in *. cbn [futures set_futures].
  destruct (decide (f = g)) as [->|Hne]; [contradiction|].
  now rewrite list_lookup_insert_ne.
Qed.

Lemma state_insert_same (w : world) (f : fut) (st : future_state) :
  futures w !! f = Some Pending ->
  Future.state (set_futures (<[f := st]> (futures w)) w) f = st.
Proof.
  intros Hf. unfold Future.state. cbn [futures set_futures].
  rewrite list_lookup_insert_eq; [reflexivity|].
  now apply lookup_lt_Some in Hf.
Qed.

Lemma set_result_keeps_settled (f g : fut) (v : json) (w : world) :
  Future.state w g <> Pending ->
  Future.state (snd (Future.set_result f v w)) g = Future.state w g.
Proof.
  intros Hg. unfold Future.set_result.
  destruct (Future.state w f) eqn:Ef; cbn [snd]; try reflexivity.
  now apply state_insert_other.
Qed.

Lemma set_exception_keeps_settled (f g : fut) (e : exn) (w : world) :
  Future.state w g <> Pending ->
  Future.state (snd (Future.set_exception f e w)) g = Future.state w g.
Proof.
  intros Hg. unfold Future.set_exception.
  destruct (Future.state w f) eqn:Ef; cbn [snd]; try reflexivity.
  now apply state_insert_other.
Qed.

(** The slot leaves every future that is done as it is. *)
Lemma finished_keeps_settled (h : handle) (reply : Reply) (w : world) (g : fut) :
  Future.state w g <> Pending ->
  Future.state (snd (RequestManager._finished h reply w)) g = Future.state w g.
Proof.
  intros Hg. unfold RequestManager._finished.
  destruct (_requests w !! h) as [r|]; [|reflexivity].
  destruct (Future.cancelled w (future r)); [reflexivity|].
  destruct (error reply =? NoError).
  - destruct (json_loads (body reply)); [|reflexivity].
    now apply set_result_keeps_settled.
  - destruct (NetworkError.from_reply reply); [|reflexivity].
    now apply set_exception_keeps_settled.
Qed.

Lemma deliver_keeps_settled (ev : completion) (w : world) (g : fut) :
  Future.state w g <> Pending ->
  Future.state (Loop.deliver ev w) g = Future.state w g.
Proof.
  intros Hg. unfold Loop.deliver.
  destruct (replies w !! ev_reply ev) as [r|]; [|reflexivity].
  destruct (isFinished r); [reflexivity|].
  match goal with
  | |- context [RequestManager._finished ?h ?r ?w1] =>
      pose proof (finished_keeps_settled h r w1 g Hg) as K;
      destruct (RequestManager._finished h r w1) as [[u|e] w2]
  end; exact K.
Qed.

Lemma deliver_all_keeps_settled (evs : list completion) (w : world) (g : fut) :
  Future.state w g <> Pending ->
  Future.state (Loop.deliver_all evs w) g = Future.state w g.
Proof.
  revert w. induction evs as [|ev evs IH]; intros w Hg; [reflexivity|].
  cbn. unfold Loop.deliver_all in IH. rewrite IH.
  - now apply deliver_keeps_settled.
  - now rewrite deliver_keeps_settled.
Qed.

(** A future that is done, cancelled or not, stays as it is through every
    later completion. *)
Lemma run_keeps_settled (s : schedule) (w : world) (g : fut) :
  Future.state w g <> Pending ->
  Future.state (Loop.run s w) g = Future.state w g.
Proof.
  revert w. induction s as [|evs s IH]; intros w Hg; [reflexivity|].
  cbn. unfold Loop.run in IH. rewrite IH.
  - now apply deliver_all_keeps_settled.
  - now rewrite deliver_all_keeps_settled.
Qed.

(** The completion of a cancelled request is dropped: the slot returns and
    changes nothing. *)
Lemma finished_discards_cancelled (h : handle) (reply : Reply) (r : Request) (w : world) :
  _requests w !! h = Some r ->
  Future.state w (future r) = Cancelled ->
  RequestManager._finished h reply w = (Ok tt, w).
Proof.
  intros Hr Hc. unfold RequestManager._finished, Future.cancelled.
  now rewrite Hr, Hc.
Qed.

Lemma cancelled_stays_cancelled (s : schedule) (w : world) (f : fut) :
  Future.state w f = Cancelled ->
  Future.state (Loop.run s w) f = Cancelled.
Proof.
  intros Hc. rewrite run_keeps_settled; [exact Hc|]. rewrite Hc. discriminate.
Qed.

(** A reply without error whose body parses resolves the pending future. *)
Lemma finished_resolves (h : handle) (reply : Reply) (r : Request) (v : json) (w : world) :
  _requests w !! h = Some r ->
  futures w !! future r = Some Pending ->
  error reply = NoError ->
  json_loads (body reply) = Some v ->
  exists w',
    RequestManager._finished h reply w = (Ok tt, w') /\
    Future.state w' (future r) = Result v.
Proof.
  intros Hr Hp He Hv. unfold RequestManager._finished, Future.cancelled.
  assert (Hs : Future.state w (future r) = Pending)
    by (unfold Future.state; now rewrite Hp).
  rewrite Hr, Hs, He, Hv. cbn. unfold Future.set_result. rewrite Hs.
  eexists. split; [reflexivity|]. now apply state_insert_same.
Qed.

(** A reply with an error rejects the pending future with the classified
    error. *)
Lemma finished_rejects (h : handle) (reply : Reply) (r : Request) (w : world) :
  _requests w !! h = Some r ->
  futures w !! future r = Some Pending ->
  error reply <> NoError ->
  exists w' e,
    NetworkError.from_reply reply = Ok e /\
    RequestManager._finished h reply w = (Ok tt, w') /\
    Future.state w' (future r) = Exception (NetError e).
Proof.
  intros Hr Hp He. unfold RequestManager._finished, Future.cancelled.
  assert (Hs : Future.state w (future r) = Pending)
    by (unfold Future.state; now rewrite Hp).
  destruct (from_reply_total reply) as (e & Ee).
  rewrite Hr, Hs, Ee. apply Z.eqb_neq in He. rewrite He.
  unfold Future.set_exception. rewrite Hs.
  eexists. exists e. split; [reflexivity|]. split; [reflexivity|].
  now apply state_insert_same.
Qed.

(** Once every reply has completed, no completion changes anything. *)
Lemma deliver_all_finished (ev : completion) (w : world) :
  (forall h r, replies w !! h = Some r -> isFinished r = true) ->
  Loop.deliver ev w = w.
Proof.
  intros Hall. unfold Loop.deliver.
  destruct (replies w !! ev_reply ev) as [r|] eqn:E; [|reflexivity].
  now rewrite (Hall _ _ E).
Qed.

Lemma deliver_all_all_finished (evs : list completion) (w : world) :
  (forall h r, replies w !! h = Some r -> isFinished r = true) ->
  Loop.deliver_all evs w = w.
Proof.
  intros Hall. induction evs as [|ev evs IH]; [reflexivity|].
  unfold Loop.deliver_all in *. cbn. now rewrite deliver_all_finished.
Qed.

Lemma run_all_finished (s : schedule) (w : world) :
  (forall h r, replies w !! h = Some r -> isFinished r = true) ->
  Loop.run s w = w.
Proof.
  intros Hall. induction s as [|evs s IH]; [reflexivity|].
  unfold Loop.run in *. cbn. now rewrite deliver_all_all_finished.
Qed.

End Delivery.

(** A reply without error whose body [json.loads] rejects: the slot raises
    before it reaches [set_result], and the future is left pending. *)
Lemma finished_unparseable {J : JsonLib} (h : handle) (reply : Reply) (r : Request) (w : world) :
  _requests w !! h = Some r ->
  Future.state w (future r) = Pending ->
  error reply = NoError ->
  json_loads (body reply) = None ->
  RequestManager._finished h reply w = (Raise JSONDecodeError, w).
Proof.
  intros Hr Hs He Hv. unfold RequestManager._finished, Future.cancelled.
  now rewrite Hr, Hs, He, Hv.
Qed.

(** C6: a request is posted and not cancelled; its reply completes without
    error with the body [<html>Bad Gateway</html>].  The slot raises
    [JSONDecodeError], and the future is pending after the completion and
    after every later one: it is neither resolved nor rejected. *)
Theorem finished_unparseable_body_leaves_pending :
  let w := Demo.posted_world in
  let w1 := Loop.deliver (J := Demo.json_lib) Demo.html_completion w in
  _requests w !! 0%nat = Some (MkRequest "http://127.0.0.1:7860/sdapi/v1/txt2img" 0%nat) /\
  Future.state w 0%nat = Pending /\
  Future.state w1 0%nat = Pending /\
  unhandled w1 = [JSONDecodeError] /\
  forall s : schedule, Future.state (Loop.run (J := Demo.json_lib) s w1) 0%nat = Pending.
Proof.
  cbv zeta. split; [reflexivity|]. split; [reflexivity|]. split; [reflexivity|].
  split; [reflexivity|].
  intros s. rewrite run_all_finished; [reflexivity|].
  intros [|[|h]] r; cbn; intros E; inversion E; reflexivity.
Qed.

(** ** The orchestration *)

Section Frames.
Context {J : JsonLib}.

Lemma cbind_inv {A B : Type} (m : co A) (k : A -> co B) s w out s' w' :
  Loop.cbind m k s w = (out, s', w') ->
  (exists a s1 w1, m s w = (Returned a, s1, w1) /\ k a s1 w1 = (out, s', w')) \/
  (exists e, m s w = (Raised e, s', w') /\ out = Raised e) \/
  (m s w = (Suspended, s', w') /\ out = Suspended).
Proof.
  unfold Loop.cbind. destruct (m s w) as [[[a|e|] s1] w1]; intros E.
  - left. eauto.
  - right. left. inversion E. eauto.
  - right. right. inversion E. eauto.
Qed.

Lemma pure_inv {A : Type} (m : pyres A) s w out s' w' :
  Loop.pure m s w = (out, s', w') ->
  s' = s /\ w' = w /\
  match m with Ok a => out = Returned a | Raise e => out = Raised e end.
Proof.
  unfold Loop.pure, Loop.call. destruct m; intros E; inversion E; auto.
Qed.

(** The slot and the deliveries touch futures and replies only. *)
Lemma finished_frame (h : handle) (reply : Reply) (w : world) :
  let w' := snd (RequestManager._finished h reply w) in
  log w' = log w /\ objects w' = objects w.
Proof.
  cbv zeta. unfold RequestManager._finished.
  destruct (_requests w !! h) as [r|]; [|auto].
  destruct (Future.cancelled w (future r)); [auto|].
  destruct (error reply =? NoError).
  - destruct (json_loads (body reply)); [|auto].
    unfold Future.set_result. destruct (Future.state w (future r)); auto.
  - destruct (NetworkError.from_reply reply); [|auto].
    unfold Future.set_exception. destruct (Future.state w (future r)); auto.
Qed.

Lemma deliver_frame (ev : completion) (w : world) :
  log (Loop.deliver ev w) = log w /\ objects (Loop.deliver ev w) = objects w.
Proof.
  unfold Loop.deliver.
  destruct (replies w !! ev_reply ev) as [r|]; [|auto].
  destruct (isFinished r); [auto|].
  match goal with
  | |- context [RequestManager._finished ?h ?r ?w1] =>
      pose proof (finished_frame h r w1) as K;
      destruct (RequestManager._finished h r w1) as [[u|e] w2]
  end; exact K.
Qed.

Lemma deliver_all_frame (evs : list completion) (w : world) :
  log (Loop.deliver_all evs w) = log w /\ objects (Loop.deliver_all evs w) = objects w.
Proof.
  revert w. induction evs as [|ev evs IH]; intros w; [auto|].
  unfold Loop.deliver_all in *. cbn.
  destruct (IH (Loop.deliver ev w)) as [E1 E2].
  destruct (deliver_frame ev w) as [E3 E4].
  split; congruence.
Qed.

Lemma wait_frame (f : fut) (s : schedule) (w : world) out s' w' :
  Loop.wait f s w = (out, s', w') ->
  log w' = log w /\ objects w' = objects w /\
  (out <> Suspended -> (length s' < length s)%nat).
Proof.
  revert w. induction s as [|evs s IH]; intros w; cbn.
  - intros E. inversion E. subst. repeat split. congruence.
  - destruct (deliver_all_frame evs w) as [E1 E2].
    destruct (Loop.settled (Future.state (Loop.deliver_all evs w) f)) as [o|].
    + intros E. inversion E. subst. repeat split; try assumption. lia.
    + intros E. destruct (IH _ E) as (E3 & E4 & E5).
      repeat split; try congruence. intros Hs. specialize (E5 Hs). lia.
Qed.

Lemma await_frame (f : fut) (s : schedule) (w : world) out s' w' :
  Loop.await f s w = (out, s', w') ->
  log w' = log w /\ objects w' = objects w.
Proof.
  unfold Loop.await. destruct (Loop.settled (Future.state w f)).
  - intros E. inversion E. auto.
  - intros E. destruct (wait_frame _ _ _ _ _ _ E) as (E1 & E2 & _). auto.
Qed.

(** [get] and [post] always register. *)
Lemma post_spec (u : string) (data : json) (w : world) :
  RequestManager.post u data w =
    (Ok (length (futures w)), registered "POST" u (Some data) w).
Proof. reflexivity. Qed.

Lemma get_spec (u : string) (w : world) :
  RequestManager.get u w = (Ok (length (futures w)), registered "GET" u None w).
Proof. reflexivity. Qed.

Lemma registered_pending (method u : string) (data : option json) (w : world) :
  futures (registered method u data w) !! length (futures w) = Some Pending.
Proof.
  cbn. rewrite lookup_app_r by lia. now rewrite Nat.sub_diag.
Qed.

Lemma registered_state (method u : string) (data : option json) (w : world) :
  Future.state (registered method u data w) (length (futures w)) = Pending.
Proof. unfold Future.state. now rewrite registered_pending. Qed.

End Frames.

Section Orchestrator.
Context {J : JsonLib} {Cd : Codec} {St : Settings}.
Variable self_url : string.

Lemma get_frame (op : string) s w out s' w' :
  Auto1111._get self_url op s w = (out, s', w') ->
  log w' = log w ++ [Sent (length (replies w)) "GET" (self_url +:+ "/" +:+ op) None] /\
  objects w' = objects w /\
  (out <> Suspended -> (length s' < length s)%nat).
Proof.
  unfold Auto1111._get, Loop.cbind, Loop.call. rewrite get_spec.
  unfold Loop.await. rewrite registered_state. cbn [Loop.settled].
  intros E. destruct (wait_frame _ _ _ _ _ _ E) as (E1 & E2 & E3).
  rewrite E1, E2. auto.
Qed.

(** One turn of the loop: a [GET] of the progress endpoint, then at most
    one invocation of the callback; a turn that returns has consumed part
    of the schedule. *)
Lemma post_poll_frame (p : ref) (o : ProgressObj) s w out s' w' :
  objects w !! p = Some o ->
  Auto1111._post_poll self_url p s w = (out, s', w') ->
  (exists l, log w' = log w ++ l /\ Forall (poll_event self_url (callback o)) l) /\
  objects w' = objects w /\
  (out <> Suspended -> (length s' < length s)%nat).
Proof.
  intros Hp E. unfold Auto1111._post_poll in E.
  apply cbind_inv in E as [(status & s1 & w1 & Eg & E) | [(e & Eg & ->) | (Eg & ->)]];
    destruct (get_frame _ _ _ _ _ _ Eg) as (L1 & O1 & N1).
  - assert (Hs1 : (length s1 < length s)%nat) by (apply N1; discriminate).
    assert (Hp1 : objects w1 !! p = Some o) by now rewrite O1.
    assert (G : Forall (poll_event self_url (callback o))
                  [Sent (length (replies w)) "GET"
                     (self_url +:+ "/" +:+ "sdapi/v1/progress") None])
      by (repeat constructor).
    assert (Hstop : forall b : bool,
              (Returned b, s1, w1) = (out, s', w') ->
              (exists l, log w' = log w ++ l /\
                         Forall (poll_event self_url (callback o)) l) /\
              objects w' = objects w /\
              (out <> Suspended -> (length s' < length s)%nat)).
    { intros b Eb. inversion Eb; subst. eauto. }
    assert (Hraise : forall e : exn,
              (@Raised bool e, s1, w1) = (out, s', w') ->
              (exists l, log w' = log w ++ l /\
                         Forall (poll_event self_url (callback o)) l) /\
              objects w' = objects w /\
              (out <> Suspended -> (length s' < length s)%nat)).
    { intros e Eb. inversion Eb; subst. eauto. }
    revert E. unfold Loop.cbind, Loop.pure, Loop.call, Loop.ret.
    destruct (Py.getitem status "progress") as [v|e]; cbn; [|apply Hraise].
    destruct (Py.ge_int v 1) as [[|]|e]; cbn; [apply Hstop | | apply Hraise].
    destruct (Py.gt_int v 0) as [[|]|e]; cbn; [| apply Hstop | apply Hraise].
    destruct (Py.as_number v) as [n|e]; cbn; [|apply Hraise].
    unfold Progress.__call__. rewrite Hp1.
    intros E; inversion E; subst. split; [|split]; auto.
    eexists. split.
    + cbn [log emit]. rewrite L1, <- app_assoc. reflexivity.
    + repeat constructor.
  - split; [|split]; auto. eexists. split; [exact L1|]. repeat constructor.
  - split; [|split]; auto. eexists. split; [exact L1|]. repeat constructor.
Qed.

Lemma post_while_frame (fuel : nat) (request : fut) (p : ref) (o : ProgressObj) :
  forall s w out s' w',
    objects w !! p = Some o ->
    Auto1111._post_while self_url fuel request p s w = (out, s', w') ->
    (exists l, log w' = log w ++ l /\ Forall (poll_event self_url (callback o)) l) /\
    objects w' = objects w.
Proof.
  induction fuel as [|fuel IH]; intros s w out s' w' Hp E; cbn in E.
  - inversion E; subst. split; [|reflexivity]. exists []. now rewrite app_nil_r.
  - destruct (Future.done w request).
    + inversion E; subst. split; [|reflexivity]. exists []. now rewrite app_nil_r.
    + apply cbind_inv in E as [(stop & s1 & w1 & Eg & E) | [(e & Eg & ->) | (Eg & ->)]];
        destruct (post_poll_frame _ _ _ _ _ _ _ Hp Eg) as ((l1 & L1 & F1) & O1 & _);
        try (split; [eauto | assumption]).
      destruct stop.
      * inversion E; subst. split; [eauto | assumption].
      * assert (Hp1 : objects w1 !! p = Some o) by now rewrite O1.
        destruct (IH _ _ _ _ _ Hp1 E) as ((l2 & L2 & F2) & O2).
        split; [|congruence].
        exists (l1 ++ l2). split.
        -- rewrite L2, L1. now rewrite app_assoc.
        -- apply Forall_app. auto.
Qed.

(** The loop never runs out of turns: with more turns than the schedule has
    entries, the number of turns allowed makes no difference. *)
Lemma post_while_fuel (request : fut) (p : ref) (fuel1 : nat) :
  forall fuel2 s w,
    (length s < fuel1)%nat -> (length s < fuel2)%nat ->
    Auto1111._post_while self_url fuel1 request p s w =
    Auto1111._post_while self_url fuel2 request p s w.
Proof.
  induction fuel1 as [|fuel1 IH]; intros fuel2 s w H1 H2; [lia|].
  destruct fuel2 as [|fuel2]; [lia|]. cbn.
  destruct (Future.done w request); [reflexivity|].
  unfold Loop.cbind.
  destruct (Auto1111._post_poll self_url p s w) as [[[stop|e|] s1] w1] eqn:Eg;
    try reflexivity.
  destruct stop; [reflexivity|].
  assert (Hs1 : (length s1 < length s)%nat).
  { unfold Auto1111._post_poll in Eg.
    apply cbind_inv in Eg as [(status & s2 & w2 & Eg & E) | [(e & Eg & Ee) | (Eg & Ee)]];
      try discriminate.
    destruct (get_frame _ _ _ _ _ _ Eg) as (_ & _ & N1).
    assert (length s2 < length s)%nat by (apply N1; discriminate).
    revert E. unfold Loop.cbind, Loop.pure, Loop.call, Loop.ret.
    destruct (Py.getitem status "progress") as [v|e]; cbn; [|discriminate].
    destruct (Py.ge_int v 1) as [[|]|e]; cbn; try discriminate;
      try (intros E; inversion E; subst; assumption).
    destruct (Py.gt_int v 0) as [[|]|e]; cbn; try discriminate;
      try (intros E; inversion E; subst; assumption).
    destruct (Py.as_number v) as [n|e]; cbn; try discriminate.
    destruct (Progress.__call__ p (Py.to_float n) w2) as [[u|e] w3];
      intros E; inversion E; subst; assumption. }
  apply IH; lia.
Qed.

Lemma post_plain (op : string) (data : json) (s : schedule) (w : world) :
  Auto1111._post self_url op data None s w =
    Loop.await (length (futures w)) s
      (registered "POST" (self_url +:+ "/" +:+ op) (Some data) w).
Proof. reflexivity. Qed.

(** [_post] with a progress scope: the [POST], then what the loop lets
    observe, then, when the call goes on to [await request], the invocation
    of the callback by [finish()]. *)
Lemma post_progress_frame (op : string) (data : json) (p : ref) (o : ProgressObj)
    s w out s' w' :
  objects w !! p = Some o ->
  Auto1111._post self_url op data (Some p) s w = (out, s', w') ->
  exists polls,
    log w' = log w ++
      Sent (length (replies w)) "POST" (self_url +:+ "/" +:+ op) (Some data) :: polls /\
    Forall (poll_event self_url (callback o)) polls /\
    length (objects w') = length (objects w) /\
    (forall v, out = Returned v ->
       exists polls',
         polls = polls' ++ [Called (callback o) (Float.add (offset o) (scale o))]).
Proof.
  intros Hp E. unfold Auto1111._post in E.
  apply cbind_inv in E as [(request & s1 & w1 & Ep & E) | [(e & Ep & _) | (Ep & _)]];
    unfold Loop.call in Ep; rewrite post_spec in Ep; inversion Ep; subst; clear Ep.
  set (W := registered "POST" (self_url +:+ "/" +:+ op) (Some data) w) in *.
  assert (HpW : objects W !! p = Some o) by exact Hp.
  assert (LW : log W = log w ++
            [Sent (length (replies w)) "POST" (self_url +:+ "/" +:+ op) (Some data)])
    by reflexivity.
  apply cbind_inv in E as [(u & s2 & w2 & El & E) | [(e & El & ->) | (El & ->)]].
  - (* the loop and [finish] returned *)
    apply cbind_inv in El as [(u1 & s3 & w3 & El & Ef) | [(e & El & Ee) | (El & Ee)]];
      try discriminate.
    destruct (post_while_frame _ _ _ _ _ _ _ _ _ HpW El) as ((l & L & F) & O).
    assert (Hp3 : objects w3 !! p = Some o) by now rewrite O.
    unfold Loop.call in Ef. rewrite (finish_spec p o w3 Hp3) in Ef.
    inversion Ef; subst; clear Ef.
    destruct (await_frame _ _ _ _ _ _ E) as (L4 & O4).
    exists (l ++ [Called (callback o) (Float.add (offset o) (scale o))]).
    split; [|split; [|split]].
    + rewrite L4. cbn [log emit set_objects]. rewrite L, LW.
      rewrite <- !app_assoc. reflexivity.
    + apply Forall_app. split; [exact F|]. repeat constructor.
    + rewrite O4. cbn [objects emit set_objects]. rewrite length_insert.
      now rewrite O.
    + intros v _. eauto.
  - (* the loop or [finish] raised *)
    apply cbind_inv in El as [(u1 & s3 & w3 & El & Ef) | [(e' & El & Ee) | (El & Ee)]];
      try discriminate.
    + destruct (post_while_frame _ _ _ _ _ _ _ _ _ HpW El) as ((l & L & F) & O).
      assert (Hp3 : objects w3 !! p = Some o) by now rewrite O.
      unfold Loop.call in Ef. rewrite (finish_spec p o w3 Hp3) in Ef. discriminate.
    + destruct (post_while_frame _ _ _ _ _ _ _ _ _ HpW El) as ((l & L & F) & O).
      exists l. split; [|split; [|split]].
      * rewrite L, LW. rewrite <- app_assoc. reflexivity.
      * exact F.
      * now rewrite O.
      * intros v Ev. discriminate.
  - (* the loop is suspended *)
    apply cbind_inv in El as [(u1 & s3 & w3 & El & Ef) | [(e' & El & Ee) | (El & Ee)]];
      try discriminate.
    + destruct (post_while_frame _ _ _ _ _ _ _ _ _ HpW El) as ((l & L & F) & O).
      assert (Hp3 : objects w3 !! p = Some o) by now rewrite O.
      unfold Loop.call in Ef. rewrite (finish_spec p o w3 Hp3) in Ef. discriminate.
    + destruct (post_while_frame _ _ _ _ _ _ _ _ _ HpW El) as ((l & L & F) & O).
      exists l. split; [|split; [|split]].
      * rewrite L, LW. rewrite <- app_assoc. reflexivity.
      * exact F.
      * now rewrite O.
      * intros v Ev. discriminate.
Qed.

(** The completion of the reply just registered, delivered alone. *)
Lemma deliver_registered (method u : string) (data : option json) (w : world)
    (ev : completion) :
  ev_reply ev = length (replies w) ->
  let W := registered method u data w in
  let f := length (futures w) in
  let reply := MkReply u true (ev_error ev) (ev_errorString ev) (ev_body ev) in
  (ev_error ev = NoError ->
   forall v, json_loads (ev_body ev) = Some v ->
   Future.state (Loop.deliver_all [ev] W) f = Result v) /\
  (ev_error ev <> NoError ->
   exists e, NetworkError.from_reply reply = Ok e /\
             Future.state (Loop.deliver_all [ev] W) f = Exception (NetError e)).
Proof.
  intros Hh. cbv zeta.
  set (W := registered method u data w).
  set (reply := MkReply u true (ev_error ev) (ev_errorString ev) (ev_body ev)).
  assert (Hr : replies W !! ev_reply ev = Some (MkReply u false NoError "" "")).
  { rewrite Hh. cbn. rewrite lookup_app_r by lia. now rewrite Nat.sub_diag. }
  set (W1 := set_replies (<[ev_reply ev := reply]> (replies W)) W).
  assert (Hq : _requests W1 !! ev_reply ev = Some (MkRequest u (length (futures w)))).
  { rewrite Hh. cbn. apply lookup_insert_eq. }
  assert (Hp : futures W1 !! length (futures w) = Some Pending)
    by apply registered_pending.
  assert (Hd : Loop.deliver_all [ev] W =
               match RequestManager._finished (ev_reply ev) reply W1 with
               | (Ok _, w) => w
               | (Raise e, w) => escape e w
               end).
  { unfold Loop.deliver_all. cbn [fold_left]. unfold Loop.deliver. now rewrite Hr. }
  split.
  - intros He v Hv.
    destruct (finished_resolves (ev_reply ev) reply _ v W1 Hq Hp He Hv) as (w' & E & S).
    rewrite Hd, E. exact S.
  - intros He.
    destruct (finished_rejects (ev_reply ev) reply _ W1 Hq Hp He) as (w' & e & Ee & E & S).
    exists e. split; [exact Ee|]. rewrite Hd, E. exact S.
Qed.

(** C5 (as the code has it): [interrupt] posts [{}] to the interrupt
    endpoint and awaits the reply.  It is suspended for as long as no reply
    comes; when the reply comes without error and with a body that parses,
    it returns the parsed body; when the reply comes with an error, it
    raises the classified error. *)
Theorem interrupt_awaits_reply (s : schedule) (w : world) :
  let u := self_url +:+ "/" +:+ "sdapi/v1/interrupt" in
  let h := length (replies w) in
  let f := length (futures w) in
  let W := registered "POST" u (Some (JObj [])) w in
  log W = log w ++ [Sent h "POST" u (Some (JObj []))] /\
  Auto1111.interrupt self_url s w = Loop.wait f s W /\
  Auto1111.interrupt self_url [] w = (Suspended, [], W) /\
  (forall ev rest,
     ev_reply ev = h ->
     (ev_error ev = NoError ->
      forall v, json_loads (ev_body ev) = Some v ->
      exists w', Auto1111.interrupt self_url ([ev] :: rest) w = (Returned v, rest, w')) /\
     (ev_error ev <> NoError ->
      exists w' e,
        NetworkError.from_reply
          (MkReply u true (ev_error ev) (ev_errorString ev) (ev_body ev)) = Ok e /\
        Auto1111.interrupt self_url ([ev] :: rest) w = (Raised (NetError e), rest, w'))).
Proof.
  cbv zeta.
  assert (Hw : forall s,
            Auto1111.interrupt self_url s w =
            Loop.wait (length (futures w)) s
              (registered "POST" (self_url +:+ "/" +:+ "sdapi/v1/interrupt")
                 (Some (JObj [])) w)).
  { intros s0. unfold Auto1111.interrupt. rewrite post_plain.
    unfold Loop.await. now rewrite registered_state. }
  split; [reflexivity|]. split; [apply Hw|]. split; [now rewrite Hw|].
  intros ev rest Hh.
  destruct (deliver_registered "POST" (self_url +:+ "/" +:+ "sdapi/v1/interrupt")
              (Some (JObj [])) w ev Hh) as [Hok Herr].
  split.
  - intros He v Hv. rewrite Hw. cbn [Loop.wait].
    rewrite (Hok He v Hv). cbn. eauto.
  - intros He. destruct (Herr He) as (e & Ee & S).
    rewrite Hw. cbn [Loop.wait]. rewrite S. cbn. eauto.
Qed.

End Orchestrator.

(** *** Concrete runs *)

Lemma interrupt_awaits_reply_witness :
  (exists w',
     Auto1111.interrupt (J := Demo.json_lib) Demo.base_url Demo.interrupt_ok empty_world =
       (Returned (JObj []), [], w')) /\
  (exists w' e,
     NetworkError.from_reply (J := Demo.json_lib)
       (MkReply (Demo.base_url +:+ "/" +:+ "sdapi/v1/interrupt") true 302
          "Bad Gateway" Demo.body_html) = Ok e /\
     Auto1111.interrupt (J := Demo.json_lib) Demo.base_url Demo.interrupt_failed empty_world =
       (Raised (NetError e), [], w')).
Proof.
  pose proof (interrupt_awaits_reply (J := Demo.json_lib) Demo.base_url [] empty_world)
    as (_ & _ & _ & K).
  split.
  - exact (proj1 (K (MkCompletion 0%nat NoError "" Demo.body_empty) [] eq_refl)
             eq_refl (JObj []) eq_refl).
  - exact (proj2 (K (MkCompletion 0%nat 302 "Bad Gateway" Demo.body_html) [] eq_refl)
             ltac:(discriminate)).
Defined.

(** C5 as stated fails: the completion of [interrupt] depends on the reply
    to the interrupt request.  Without a reply the call does not return;
    with the reply [{}] it returns [{}]; with a failed reply it raises. *)
Lemma interrupt_fire_and_forget_counterexample :
  fst (fst (Auto1111.interrupt (J := Demo.json_lib) Demo.base_url [] empty_world)) =
    Suspended /\
  fst (fst (Auto1111.interrupt (J := Demo.json_lib) Demo.base_url
              Demo.interrupt_ok empty_world)) =
    Returned (JObj []) /\
  fst (fst (Auto1111.interrupt (J := Demo.json_lib) Demo.base_url
              Demo.interrupt_failed empty_world)) =
    Raised (NetError (MkNetError NetworkErrorClass 302 (JStr "Bad Gateway")
                        "http://127.0.0.1:7860/sdapi/v1/interrupt")) /\
  fst (fst (Auto1111.interrupt (J := Demo.json_lib) Demo.base_url [] empty_world)) <>
  fst (fst (Auto1111.interrupt (J := Demo.json_lib) Demo.base_url
              Demo.interrupt_ok empty_world)).
Proof.
  split; [reflexivity|]. split; [reflexivity|]. split; [reflexivity|].
  vm_compute. discriminate.
Qed.

(** C4 as stated fails.  In a run of [upscale] that returns its image, no
    [Progress] instance is created, so no [forward()] took place; nothing
    is reported between the resize request and the img2img request; and the
    one [finish()] is on the scope of the caller, whose offset moves to
    [1.0]. *)
Lemma upscale_forward_scopes_counterexample :
  let out := fst (fst Demo.upscale_run) in
  let w' := snd Demo.upscale_run in
  out = Returned [JStr "out"] /\
  map summary (log w') =
    [Req "POST" "http://127.0.0.1:7860/sdapi/v1/extra-single-image";
     Req "POST" "http://127.0.0.1:7860/sdapi/v1/img2img";
     Req "GET" "http://127.0.0.1:7860/sdapi/v1/progress";
     Rep 7%nat Float.half;
     Req "GET" "http://127.0.0.1:7860/sdapi/v1/progress";
     Rep 7%nat Float.one] /\
  objects (Demo.scope_world Demo.scope_root) = [MkProgress 7%nat Float.one Float.zero] /\
  objects w' = [MkProgress 7%nat Float.one Float.one] /\
  length (objects w') <> (length (objects (Demo.scope_world Demo.scope_root)) + 2)%nat.
Proof.
  cbv zeta. split; [vm_compute; reflexivity|]. split; [vm_compute; reflexivity|].
  split; [reflexivity|]. split; [vm_compute; reflexivity|]. vm_compute. discriminate.
Qed.

(** * Further properties *)

(** ** The tracker over its histories *)

Section TrackerHistories.
Context {J : JsonLib}.

Lemma tracker_ok_empty : tracker_ok empty_world.
Proof.
  unfold tracker_ok. cbn. split; [|split; [|split]].
  - intros h r E. rewrite lookup_nil in E. discriminate.
  - intros h1 h2 q1 q2 E. rewrite lookup_empty in E. discriminate.
  - intros h q E. rewrite lookup_empty in E. discriminate.
  - constructor.
Qed.

Lemma tracker_ok_cleanup (w : world) :
  tracker_ok w -> tracker_ok (RequestManager._cleanup w).
Proof.
  intros (Ha & Hb & Hd & Hc). unfold tracker_ok.
  split; [|split; [|split]]; try exact Hc.
  - intros h r Hr Hf. rewrite cleanup_lookup.
    change (replies (RequestManager._cleanup w)) with (replies w) in Hr.
    unfold Net.is_finished. unfold handle in *. rewrite Hr, Hf.
    exact (Ha h r Hr Hf).
  - intros h1 h2 q1 q2 E1 E2. rewrite cleanup_lookup in E1, E2.
    destruct (Net.is_finished w h1); [discriminate|].
    destruct (Net.is_finished w h2); [discriminate|]. eauto.
  - intros h q E. rewrite cleanup_lookup in E.
    destruct (Net.is_finished w h); [discriminate|]. exact (Hd h q E).
Qed.

Lemma tracker_ok_registered (method u : string) (data : option json) (w : world) :
  tracker_ok w -> tracker_ok (registered method u data w).
Proof.
  intros Hok. pose proof (tracker_ok_cleanup w Hok) as (Ha & Hb & Hd & Hc).
  change (replies (RequestManager._cleanup w)) with (replies w) in *.
  change (futures (RequestManager._cleanup w)) with (futures w) in *.
  unfold tracker_ok, registered.
  cbn [replies _requests futures unhandled set_requests set_futures set_replies emit].
  change (replies (RequestManager._cleanup w)) with (replies w).
  change (futures (RequestManager._cleanup w)) with (futures w).
  change (unhandled (RequestManager._cleanup w)) with (unhandled w).
  unfold handle, fut in *.
  split; [|split; [|split]]; try exact Hc.
  - intros h r Hr Hf.
    destruct (decide (h = length (replies w))) as [->|Hne].
    + rewrite lookup_insert_eq. eexists. split; [reflexivity|]. left. cbn.
      rewrite lookup_app_r by lia. now rewrite Nat.sub_diag.
    + rewrite lookup_insert_ne by congruence.
      assert (Hlt : (h < length (replies w))%nat).
      { apply lookup_lt_Some in Hr. rewrite length_app in Hr. cbn in Hr. lia. }
      rewrite lookup_app_l in Hr by exact Hlt.
      destruct (Ha h r Hr Hf) as (q & Hq & Hs). exists q. split; [exact Hq|].
      destruct (Hd h q Hq) as [_ Hfl].
      rewrite lookup_app_l by exact Hfl. exact Hs.
  - intros h1 h2 q1 q2 E1 E2 Ef.
    destruct (decide (h1 = length (replies w))) as [->|N1];
      destruct (decide (h2 = length (replies w))) as [->|N2]; try reflexivity.
    + rewrite lookup_insert_eq in E1. rewrite lookup_insert_ne in E2 by congruence.
      inversion E1; subst. cbn in Ef. destruct (Hd h2 q2 E2). lia.
    + rewrite lookup_insert_eq in E2. rewrite lookup_insert_ne in E1 by congruence.
      inversion E2; subst. cbn in Ef. destruct (Hd h1 q1 E1). lia.
    + rewrite lookup_insert_ne in E1, E2 by congruence. eauto.
  - intros h q E. rewrite !length_app. cbn [length].
    destruct (decide (h = length (replies w))) as [->|N1].
    + rewrite lookup_insert_eq in E. inversion E; subst. cbn. lia.
    + rewrite lookup_insert_ne in E by congruence. destruct (Hd h q E). lia.
Qed.

Lemma tracker_ok_request (method u : string) (data : option json) (w : world) :
  tracker_ok w -> tracker_ok (snd (RequestManager.request method u data w)).
Proof.
  intros Hok.
  destruct (request_cases method u data w) as [(e & E) | (m & d & E)]; rewrite E; cbn [snd].
  - now apply tracker_ok_cleanup.
  - now apply (tracker_ok_registered m u d w).
Qed.

(** Changing a future from pending keeps the shape, as long as no reply
    that has not completed points to it, or it becomes cancelled. *)
Lemma tracker_ok_set_future (w : world) (f : fut) (st : future_state) :
  tracker_ok w ->
  (st = Cancelled \/
   forall h r q, replies w !! h = Some r -> isFinished r = false ->
                 _requests w !! h = Some q -> future q <> f) ->
  futures w !! f = Some Pending ->
  tracker_ok (set_futures (<[f := st]> (futures w)) w).
Proof.
  intros (Ha & Hb & Hd & Hc) Hst Hf. unfold tracker_ok.
  cbn [replies _requests futures unhandled set_futures].
  split; [|split; [|split]]; try assumption.
  - intros h r Hr Hu. destruct (Ha h r Hr Hu) as (q & Hq & Hs).
    exists q. split; [exact Hq|].
    destruct (decide (future q = f)) as [Heq|Hne].
    + destruct Hst as [->|Hst]; [|exfalso; exact (Hst h r q Hr Hu Hq Heq)].
      right. rewrite Heq. apply list_lookup_insert_eq. now apply lookup_lt_Some in Hf.
    + rewrite list_lookup_insert_ne by congruence. exact Hs.
  - intros h q Hq. rewrite length_insert. exact (Hd h q Hq).
Qed.

Lemma tracker_ok_cancel (f : fut) (w : world) :
  tracker_ok w -> tracker_ok (snd (Future.cancel f w)).
Proof.
  intros Hok. unfold Future.cancel, Future.state.
  destruct (futures w !! f) as [st|] eqn:E.
  - destruct st; cbn [snd]; try exact Hok.
    apply tracker_ok_set_future; auto.
  - cbn [snd]. rewrite list_insert_ge by now apply lookup_ge_None.
    now destruct w.
Qed.

(** The reply [h] completes: it is no longer among the replies the shape
    speaks about. *)
Lemma tracker_ok_completed (w : world) (h : handle) (r' : Reply) :
  tracker_ok w -> isFinished r' = true ->
  tracker_ok (set_replies (<[h := r']> (replies w)) w).
Proof.
  intros (Ha & Hb & Hd & Hc) Hfin. unfold tracker_ok.
  cbn [replies _requests futures unhandled set_replies].
  split; [|split; [|split]]; try assumption.
  - intros h' r Hr Hu. destruct (decide (h = h')) as [->|Hne].
    + apply list_lookup_insert_Some in Hr as [(_ & <- & _) | (N & _)]; congruence.
    + rewrite list_lookup_insert_ne in Hr by exact Hne. exact (Ha h' r Hr Hu).
  - intros h' q Hq. rewrite length_insert. exact (Hd h' q Hq).
Qed.

Lemma tracker_ok_escape (w : world) :
  tracker_ok w -> tracker_ok (escape JSONDecodeError w).
Proof.
  intros (Ha & Hb & Hd & Hc). unfold tracker_ok.
  cbn [replies _requests futures unhandled escape].
  split; [|split; [|split]]; try assumption.
  apply Forall_app. split; [exact Hc|]. repeat constructor.
Qed.

Lemma tracker_ok_deliver (ev : completion) (w : world) :
  tracker_ok w -> tracker_ok (Loop.deliver ev w).
Proof.
  intros Hok. unfold Loop.deliver.
  destruct (replies w !! ev_reply ev) as [r|] eqn:Er; [|exact Hok].
  destruct (isFinished r) eqn:Ef; [exact Hok|].
  set (r' := MkReply (reply_url r) true (ev_error ev) (ev_errorString ev) (ev_body ev)).
  pose proof (tracker_ok_completed w (ev_reply ev) r' Hok eq_refl) as Hok1.
  set (w1 := set_replies (<[ev_reply ev := r']> (replies w)) w) in *.
  destruct Hok as (Ha & Hb & Hd & Hc).
  destruct (Ha _ _ Er Ef) as (q & Hq & Hs).
  assert (Hfresh : forall h0 r0 q0,
            replies w1 !! h0 = Some r0 -> isFinished r0 = false ->
            _requests w1 !! h0 = Some q0 -> future q0 <> future q).
  { intros h0 r0 q0 Hr0 Hu0 Hq0 Heq.
    assert (h0 = ev_reply ev) as -> by exact (Hb _ _ _ _ Hq0 Hq Heq).
    cbn in Hr0. apply list_lookup_insert_Some in Hr0 as [(_ & <- & _) | (N & _)];
      [discriminate | congruence]. }
  assert (Hq1 : _requests w1 !! ev_reply ev = Some q) by exact Hq.
  unfold RequestManager._finished. unfold handle, fut in *. rewrite Hq1.
  cbv zeta. unfold Future.cancelled, Future.state. unfold handle, fut in *.
  destruct Hs as [Hs|Hs].
  - assert (Hs1 : futures w1 !! future q = Some Pending) by exact Hs.
    unfold handle, fut in *. rewrite Hs1.
    destruct (error r' =? NoError).
    + destruct (json_loads (body r')) as [v|].
      * unfold Future.set_result, Future.state. unfold handle, fut in *.
        rewrite Hs1. apply (tracker_ok_set_future w1 (future q) _ Hok1); auto.
      * now apply tracker_ok_escape.
    + destruct (from_reply_total r') as (e & Ee). rewrite Ee.
      unfold Future.set_exception, Future.state. unfold handle, fut in *.
      rewrite Hs1. apply (tracker_ok_set_future w1 (future q) _ Hok1); auto.
  - assert (Hs1 : futures w1 !! future q = Some Cancelled) by exact Hs.
    unfold handle, fut in *. rewrite Hs1. exact Hok1.
Qed.

Lemma tracker_ok_run (ops : list tracker_op) (w : world) :
  tracker_ok w -> tracker_ok (tracker_run ops w).
Proof.
  revert w. induction ops as [|op ops IH]; intros w Hok; [exact Hok|].
  unfold tracker_run in *. cbn [fold_left]. apply IH.
  destruct op; cbn [tracker_step].
  - now apply tracker_ok_request.
  - now apply tracker_ok_cancel.
  - now apply tracker_ok_deliver.
Qed.

(** X1: whatever requests, cancellations and completions a tracker has
    seen, the slot has never failed on its own bookkeeping: no [KeyError]
    from the dict and no [InvalidStateError] from a future, the only
    exception that escapes it is the [JSONDecodeError] of a body that does
    not parse; every reply that has not completed is still a key of the
    dict, its future is not done unless it was cancelled, and no two keys
    share a future. *)
Theorem tracker_bookkeeping_never_fails (ops : list tracker_op) :
  let w := tracker_run ops empty_world in
  Forall (fun e => e = JSONDecodeError) (unhandled w) /\
  (forall h r, replies w !! h = Some r -> isFinished r = false ->
     exists q, _requests w !! h = Some q /\
               (Future.state w (future q) = Pending \/
                Future.state w (future q) = Cancelled)) /\
  (forall h1 h2 q1 q2,
     _requests w !! h1 = Some q1 -> _requests w !! h2 = Some q2 ->
     future q1 = future q2 -> h1 = h2).
Proof.
  cbv zeta.
  destruct (tracker_ok_run ops empty_world tracker_ok_empty) as (Ha & Hb & _ & Hc).
  split; [exact Hc|]. split; [|exact Hb].
  intros h r Hr Hu. destruct (Ha h r Hr Hu) as (q & Hq & Hs).
  exists q. split; [exact Hq|]. unfold Future.state.
  destruct Hs as [-> | ->]; auto.
Qed.

End TrackerHistories.

Lemma tracker_bookkeeping_never_fails_witness :
  let w := tracker_run (J := Demo.json_lib)
             [DoRequest "POST" "http://127.0.0.1:7860/sdapi/v1/txt2img" (Some (JObj []));
              DoCancel 0%nat] empty_world in
  exists q, _requests w !! 0%nat = Some q /\
            (Future.state w (future q) = Pending \/
             Future.state w (future q) = Cancelled).
Proof.
  exact (proj1 (proj2 (tracker_bookkeeping_never_fails (J := Demo.json_lib)
           [DoRequest "POST" "http://127.0.0.1:7860/sdapi/v1/txt2img" (Some (JObj []));
            DoCancel 0%nat]))
           0%nat (MkReply "http://127.0.0.1:7860/sdapi/v1/txt2img" false NoError "" "")
           eq_refl eq_refl).
Defined.

Section Completions.
Context {J : JsonLib}.

(** The slot touches no future but the one of its own request. *)
Lemma finished_other_futures (h : handle) (reply : Reply) (q : Request) (w : world) (g : fut) :
  _requests w !! h = Some q ->
  g <> future q ->
  Future.state (snd (RequestManager._finished h reply w)) g = Future.state w g.
Proof.
  intros Hq Hg. unfold RequestManager._finished. rewrite Hq. cbv zeta.
  destruct (Future.cancelled w (future q)); [reflexivity|].
  destruct (error reply =? NoError).
  - destruct (json_loads (body reply)); [|reflexivity].
    unfold Future.set_result. destruct (Future.state w (future q)); try reflexivity.
    cbn [snd]. unfold Future.state. cbn [futures set_futures].
    unfold handle, fut in *. now rewrite list_lookup_insert_ne by congruence.
  - destruct (NetworkError.from_reply reply); [|reflexivity].
    unfold Future.set_exception. destruct (Future.state w (future q)); try reflexivity.
    cbn [snd]. unfold Future.state. cbn [futures set_futures].
    unfold handle, fut in *. now rewrite list_lookup_insert_ne by congruence.
Qed.

(** What [deliver] does for a reply that has not completed. *)
Lemma deliver_unfinished (ev : completion) (r : Reply) (w : world) :
  replies w !! ev_reply ev = Some r ->
  isFinished r = false ->
  Loop.deliver ev w =
    let reply := MkReply (reply_url r) true (ev_error ev) (ev_errorString ev) (ev_body ev) in
    let w1 := set_replies (<[ev_reply ev := reply]> (replies w)) w in
    match RequestManager._finished (ev_reply ev) reply w1 with
    | (Ok _, w2) => w2
    | (Raise e, w2) => escape e w2
    end.
Proof. intros Er Ef. unfold Loop.deliver. now rewrite Er, Ef. Qed.

(** X2: in a tracker with any history, the completion of a reply settles
    the future of that reply's request and no other future.  When that
    future was cancelled, it stays cancelled and nothing escapes the slot;
    when it was pending, a completion with an error rejects it with the
    classified error, and a completion without error whose body parses
    resolves it with the parsed body. *)
Theorem completion_settles_own_future (ops : list tracker_op) (ev : completion) (r : Reply) :
  let w := tracker_run ops empty_world in
  let w' := Loop.deliver ev w in
  let reply := MkReply (reply_url r) true (ev_error ev) (ev_errorString ev) (ev_body ev) in
  replies w !! ev_reply ev = Some r ->
  isFinished r = false ->
  exists q,
    _requests w !! ev_reply ev = Some q /\
    (forall g, g <> future q -> Future.state w' g = Future.state w g) /\
    (Future.state w (future q) = Cancelled ->
     Future.state w' (future q) = Cancelled /\ unhandled w' = unhandled w) /\
    (Future.state w (future q) = Pending ->
     (ev_error ev <> NoError ->
      exists e, NetworkError.from_reply reply = Ok e /\
                Future.state w' (future q) = Exception (NetError e)) /\
     (ev_error ev = NoError ->
      forall v, json_loads (ev_body ev) = Some v ->
                Future.state w' (future q) = Result v)).
Proof.
  cbv zeta. intros Er Ef.
  set (w := tracker_run ops empty_world) in *.
  destruct (tracker_ok_run ops empty_world tracker_ok_empty) as (Ha & _ & _ & _).
  fold w in Ha. destruct (Ha _ _ Er Ef) as (q & Hq & Hs).
  exists q. split; [exact Hq|].
  rewrite (deliver_unfinished ev r w Er Ef). cbv zeta.
  set (reply := MkReply (reply_url r) true (ev_error ev) (ev_errorString ev) (ev_body ev)).
  set (w1 := set_replies (<[ev_reply ev := reply]> (replies w)) w).
  assert (Hq1 : _requests w1 !! ev_reply ev = Some q) by exact Hq.
  split; [|split].
  - intros g Hg.
    pose proof (finished_other_futures (ev_reply ev) reply q w1 g Hq1 Hg) as K.
    destruct (RequestManager._finished (ev_reply ev) reply w1) as [[u|e] w2]; exact K.
  - intros Hc.
    rewrite (finished_discards_cancelled (ev_reply ev) reply q w1 Hq1 Hc).
    split; [exact Hc | reflexivity].
  - intros Hp.
    assert (Hp1 : futures w1 !! future q = Some Pending).
    { destruct Hs as [Hs|Hs]; [exact Hs|]. unfold Future.state in Hp.
      unfold handle, fut in *. rewrite Hs in Hp. discriminate. }
    split.
    + intros He.
      destruct (finished_rejects (ev_reply ev) reply q w1 Hq1 Hp1 He) as (w2 & e & Ee & E & S).
      exists e. split; [exact Ee|]. rewrite E. exact S.
    + intros He v Hv.
      destruct (finished_resolves (ev_reply ev) reply q v w1 Hq1 Hp1 He Hv) as (w2 & E & S).
      rewrite E. exact S.
Qed.

(** X3: a future that the caller cancels while it is pending is cancelled
    for good: whatever completes later, it stays cancelled, and awaiting it
    raises [CancelledError] at once, without waiting for the transport. *)
Theorem cancelled_future_stays_cancelled (f : fut) (w : world)
    (later s : schedule) :
  futures w !! f = Some Pending ->
  let w' := snd (Future.cancel f w) in
  fst (Future.cancel f w) = Ok true /\
  Future.state (Loop.run later w') f = Cancelled /\
  Loop.await f s (Loop.run later w') = (Raised CancelledError, s, Loop.run later w').
Proof.
  intros Hp. cbv zeta.
  assert (Hs : Future.state w f = Pending) by (unfold Future.state; now rewrite Hp).
  unfold Future.cancel. rewrite Hs. cbn [fst snd].
  assert (Hc : Future.state (set_futures (<[f := Cancelled]> (futures w)) w) f = Cancelled)
    by now apply state_insert_same.
  pose proof (cancelled_stays_cancelled later _ f Hc) as K.
  split; [reflexivity|]. split; [exact K|].
  unfold Loop.await. now rewrite K.
Qed.

End Completions.

Lemma completion_settles_own_future_witness :
  let w := tracker_run (J := Demo.json_lib)
             [DoRequest "POST" "http://127.0.0.1:7860/sdapi/v1/txt2img" (Some (JObj []))]
             empty_world in
  let w' := Loop.deliver (J := Demo.json_lib)
              (MkCompletion 0%nat NoError "" Demo.body_abc) w in
  exists q,
    _requests w !! 0%nat = Some q /\
    (Future.state w (future q) = Pending ->
     Future.state w' (future q) = Result Demo.data_abc).
Proof.
  cbv zeta.
  destruct (completion_settles_own_future (J := Demo.json_lib)
              [DoRequest "POST" "http://127.0.0.1:7860/sdapi/v1/txt2img" (Some (JObj []))]
              (MkCompletion 0%nat NoError "" Demo.body_abc)
              (MkReply "http://127.0.0.1:7860/sdapi/v1/txt2img" false NoError "" "")
              eq_refl eq_refl) as (q & Hq & _ & _ & K).
  exists q. split; [exact Hq|].
  intros Hp. exact (proj2 (K Hp) eq_refl Demo.data_abc eq_refl).
Defined.

Lemma cancelled_future_stays_cancelled_witness :
  Future.state
    (Loop.run (J := Demo.json_lib) [[Demo.html_completion]]
       (snd (Future.cancel 0%nat Demo.posted_world))) 0%nat = Cancelled.
Proof.
  exact (proj1 (proj2 (cancelled_future_stays_cancelled (J := Demo.json_lib)
           0%nat Demo.posted_world [[Demo.html_completion]] [] eq_refl))).
Defined.

(** ** The error classifier, beyond the claims *)

Section ClassifierMore.
Context {J : JsonLib}.

(** The reply is tagged: its body parses to an object whose ["error"] is the
    string ["OutOfMemoryError"]. *)
Lemma from_reply_tagged (reply : Reply) (fields : list (string * json)) :
  json_loads (body reply) = Some (JObj fields) ->
  Py.assoc "error" fields = Some (JStr "OutOfMemoryError") ->
  NetworkError.from_reply reply =
    Ok (MkNetError OutOfMemoryErrorClass (error reply)
          match Py.assoc "errors" fields with
          | Some m => m
          | None => JStr (errorString reply)
          end
          (reply_url reply)).
Proof.
  intros E1 E2. unfold NetworkError.from_reply, NetworkError.from_reply_try.
  rewrite E1. cbn. rewrite E2. reflexivity.
Qed.

Lemma from_reply_untagged (reply : Reply) :
  (forall fields,
     json_loads (body reply) = Some (JObj fields) ->
     Py.assoc "error" fields <> Some (JStr "OutOfMemoryError")) ->
  NetworkError.from_reply reply = Ok (fallback reply).
Proof.
  intros Hno. unfold NetworkError.from_reply, NetworkError.from_reply_try.
  destruct (json_loads (body reply)) as [data|] eqn:E1; [|reflexivity].
  destruct data as [ |b|z|x|s|l|fields]; try reflexivity.
  specialize (Hno fields eq_refl). cbn.
  destruct (Py.assoc "error" fields) as [e|] eqn:E2; cbn.
  - destruct (Py.is_str e "OutOfMemoryError") eqn:Et.
    + exfalso. apply Hno. destruct e; try discriminate. cbn in Et.
      apply String.eqb_eq in Et. now subst.
    + destruct (negb _ || negb _); reflexivity.
  - destruct (negb _ || negb _); reflexivity.
Qed.

(** X4: a failed reply whose body parses to an object with
    ["error"] equal to ["OutOfMemoryError"] is classified as
    [OutOfMemoryError]; its message is the value under ["errors"], or the
    error string of the reply when that key is missing; it carries the
    error code and the url of the reply. *)
Theorem from_reply_out_of_memory (reply : Reply) (fields : list (string * json)) :
  json_loads (body reply) = Some (JObj fields) ->
  Py.assoc "error" fields = Some (JStr "OutOfMemoryError") ->
  (forall m, Py.assoc "errors" fields = Some m ->
     NetworkError.from_reply reply =
       Ok (MkNetError OutOfMemoryErrorClass (error reply) m (reply_url reply))) /\
  (Py.assoc "errors" fields = None ->
     NetworkError.from_reply reply =
       Ok (MkNetError OutOfMemoryErrorClass (error reply)
             (JStr (errorString reply)) (reply_url reply))).
Proof.
  intros E1 E2. rewrite (from_reply_tagged reply fields E1 E2).
  split; [intros m Em | intros Em]; now rewrite Em.
Qed.

(** X5: every classification carries the error code and the url of the
    reply, and it is an [OutOfMemoryError] exactly when the body parses to
    an object tagged ["OutOfMemoryError"]: a status code alone never makes
    one, and neither does a body that is not an object. *)
Theorem from_reply_class (reply : Reply) :
  exists r,
    NetworkError.from_reply reply = Ok r /\
    code r = error reply /\
    url r = reply_url reply /\
    (err_class r = OutOfMemoryErrorClass <->
     exists fields,
       json_loads (body reply) = Some (JObj fields) /\
       Py.assoc "error" fields = Some (JStr "OutOfMemoryError")).
Proof.
  destruct (json_loads (body reply)) as [data|] eqn:E1.
  2:{ exists (fallback reply). rewrite from_reply_untagged by (intros f Ef; rewrite E1 in Ef; discriminate Ef).
      repeat split; try reflexivity; try discriminate.
      intros (f & Ef & _). discriminate Ef. }
  destruct data as [ |b|z|x|s|l|fields];
    try (exists (fallback reply);
         rewrite from_reply_untagged by (intros f Ef; rewrite E1 in Ef; discriminate Ef);
         repeat split; try reflexivity; try discriminate;
         intros (f & Ef & _); discriminate Ef).
  assert (Hdec : Py.assoc "error" fields = Some (JStr "OutOfMemoryError") \/
                 Py.assoc "error" fields <> Some (JStr "OutOfMemoryError")).
  { destruct (Py.assoc "error" fields) as [[ |b|z|x|s|l|fs]|];
      try (right; discriminate).
    destruct (String.eqb_spec s "OutOfMemoryError") as [->|Hne]; [now left|].
    right. intros E. inversion E. contradiction. }
  destruct Hdec as [E2|N2].
  - eexists. split; [apply (from_reply_tagged reply fields E1 E2)|].
    repeat split; eauto.
  - exists (fallback reply). rewrite from_reply_untagged.
    + repeat split; try reflexivity; try discriminate.
      intros (f & Ef & Et). inversion Ef; subst. contradiction.
    + intros f Ef. rewrite E1 in Ef. inversion Ef; subst. exact N2.
Qed.

End ClassifierMore.

Lemma from_reply_out_of_memory_witness :
  NetworkError.from_reply (J := Demo2.json_lib) Demo2.reply_oom =
    Ok (MkNetError OutOfMemoryErrorClass 401 (JStr "device allocation failed")
          "http://127.0.0.1:7860/sdapi/v1/txt2img").
Proof.
  exact (proj1 (from_reply_out_of_memory (J := Demo2.json_lib) Demo2.reply_oom
                  [("error", JStr "OutOfMemoryError");
                   ("errors", JStr "device allocation failed")] eq_refl eq_refl)
           (JStr "device allocation failed") eq_refl).
Defined.

(** ** The result extractor, beyond the claims *)

Section ExtractorMore.
Context {Cd : Codec}.

(** X6: with a count that is not negative, [_collect_images] decodes the
    first [count] images of the list, all of them when the list is shorter;
    whatever the count, the result is a prefix of the decoding of the whole
    list, so images are neither reordered nor invented. *)
Theorem collect_images_count_prefix
    (fields : list (string * json)) (images : list json) (count : Z) :
  Py.assoc "images" fields = Some (JList images) ->
  (0 <= count ->
   _collect_images (JObj fields) (Some count) =
     Ok (map from_base64 (take (Z.to_nat count) images))) /\
  (exists n : nat,
     (n <= length images)%nat /\
     _collect_images (JObj fields) (Some count) =
       Ok (take n (map from_base64 images))).
Proof.
  intros E. rewrite collect_images_dict, E. split.
  - intros Hpos. unfold Py.slice_to.
    destruct (Z.ltb_spec count 0) as [|_]; [lia|].
    destruct (Z.le_gt_cases count (Z.of_nat (length images))) as [Hle|Hgt].
    + now rewrite Z.min_l by exact Hle.
    + rewrite Z.min_r by lia. rewrite Nat2Z.id.
      rewrite !take_ge by lia. reflexivity.
  - unfold Py.slice_to.
    set (k := if count <? 0 then _ else _).
    exists (Nat.min (Z.to_nat k) (length images)). split; [lia|].
    rewrite <- fmap_take. f_equal.
    destruct (Nat.min_spec (Z.to_nat k) (length images)) as [[_ ->]|[Hge ->]];
      [reflexivity|].
    now rewrite !take_ge by lia.
Qed.

End ExtractorMore.

Lemma collect_images_count_prefix_witness :
  _collect_images (Cd := Demo.codec) Demo.data_abc (Some 2) = Ok [JStr "a"; JStr "b"] /\
  _collect_images (Cd := Demo.codec) Demo.data_abc (Some 5) =
    Ok [JStr "a"; JStr "b"; JStr "c"].
Proof.
  split.
  - exact (proj1 (collect_images_count_prefix (Cd := Demo.codec)
                    [("images", JList [JStr "a"; JStr "b"; JStr "c"])]
                    [JStr "a"; JStr "b"; JStr "c"] 2 eq_refl) ltac:(lia)).
  - exact (proj1 (collect_images_count_prefix (Cd := Demo.codec)
                    [("images", JList [JStr "a"; JStr "b"; JStr "c"])]
                    [JStr "a"; JStr "b"; JStr "c"] 5 eq_refl) ltac:(lia)).
Defined.

(** ** The progress scope, beyond the claims *)

(** X7: phases that share one scope continue where the previous phase
    stopped.  After a first phase driven to completion, the reports of the
    second phase are placed above [offset + scale], and the second
    [finish()] invokes the callback with [(offset + scale) + scale]: on a
    scope of scale [0.5] that starts at [0], the two phases end at [0.5] and
    at [1.0]. *)
Theorem drive_twice_continues (w : world) (p : ref) (o : ProgressObj)
    (vs1 vs2 : list float) :
  objects w !! p = Some o ->
  let o1 := Float.add (offset o) (scale o) in
  exists w',
    (_ <<- drive p vs1 ;; drive p vs2) w = (Ok tt, w') /\
    log w' = log w ++
      map (fun v => Called (callback o) (Float.add (offset o) (Float.mul (scale o) v))) vs1 ++
      [Called (callback o) o1] ++
      map (fun v => Called (callback o) (Float.add o1 (Float.mul (scale o) v))) vs2 ++
      [Called (callback o) (Float.add o1 (scale o))] /\
    objects w' = <[p := MkProgress (callback o) (scale o) (Float.add o1 (scale o))]> (objects w).
Proof.
  intros Hp. cbv zeta.
  assert (Hlt : (p < length (objects w))%nat) by now apply lookup_lt_Some in Hp.
  assert (Hdrive : forall (w0 : world) (o0 : ProgressObj) (vs : list float),
            objects w0 !! p = Some o0 ->
            exists w1,
              drive p vs w0 = (Ok tt, w1) /\
              log w1 = log w0 ++
                map (fun v => Called (callback o0)
                                (Float.add (offset o0) (Float.mul (scale o0) v))) vs ++
                [Called (callback o0) (Float.add (offset o0) (scale o0))] /\
              objects w1 = <[p := MkProgress (callback o0) (scale o0)
                                    (Float.add (offset o0) (scale o0))]> (objects w0)).
  { intros w0 o0 vs H0. unfold drive, and_then.
    destruct (reports_spec p o0 vs w0 H0) as (w1 & E & Ho & Hl).
    rewrite E. rewrite (finish_spec p o0 w1) by now rewrite Ho.
    eexists. split; [reflexivity|]. cbn [log objects emit set_objects].
    rewrite Hl, Ho, <- app_assoc. auto. }
  destruct (Hdrive w o vs1 Hp) as (w1 & E1 & L1 & O1).
  set (o' := MkProgress (callback o) (scale o) (Float.add (offset o) (scale o))) in *.
  assert (Hp1 : objects w1 !! p = Some o').
  { rewrite O1. now apply list_lookup_insert_eq. }
  destruct (Hdrive w1 o' vs2 Hp1) as (w2 & E2 & L2 & O2).
  exists w2. unfold and_then. rewrite E1. split; [exact E2|]. split.
  - rewrite L2, L1. cbn [callback scale offset o']. now rewrite <- !app_assoc.
  - rewrite O2, O1. cbn [callback scale offset o']. apply list_insert_insert_eq.
Qed.

Lemma drive_twice_continues_witness :
  exists w',
    (_ <<- drive 0%nat [Float.half] ;; drive 0%nat [])
      (Demo.scope_world Demo.scope_fresh) = (Ok tt, w') /\
    map summary (log w') =
      [Rep 7%nat (Float.div (Float.of_Z 1) (Float.of_Z 4));
       Rep 7%nat Float.half;
       Rep 7%nat Float.one].
Proof.
  destruct (drive_twice_continues (Demo.scope_world Demo.scope_fresh) 0%nat
              Demo.scope_fresh [Float.half] [] eq_refl) as (w' & E & L & _).
  exists w'. split; [exact E|]. rewrite L. reflexivity.
Defined.

(** ** Outcomes of waiting *)

Section Outcomes.
Context {J : JsonLib}.

Lemma finished_tracker_settled (h : handle) (reply : Reply) (w : world) (g : fut) :
  tracker_settled (Future.state w g) ->
  tracker_settled (Future.state (snd (RequestManager._finished h reply w)) g).
Proof.
  intros Hg. unfold RequestManager._finished.
  destruct (_requests w !! h) as [q|]; [|exact Hg]. cbv zeta.
  destruct (Future.cancelled w (future q)); [exact Hg|].
  destruct (error reply =? NoError).
  - destruct (json_loads (body reply)) as [v|]; [|exact Hg].
    unfold Future.set_result.
    destruct (Future.state w (future q)) eqn:Es; try exact Hg. cbn [snd].
    destruct (decide (future q = g)) as [<-|Hne].
    + unfold Future.state at 1. cbn [futures set_futures].
      destruct (decide (future q < length (futures w))%nat) as [Hlt|Hge].
      * unfold handle, fut in *. rewrite list_lookup_insert_eq by exact Hlt.
        right. left. eauto.
      * unfold handle, fut in *. rewrite list_insert_ge by lia.
        rewrite (proj2 (lookup_ge_None (futures w) (future q))) by lia. now left.
    + unfold Future.state at 1. cbn [futures set_futures].
      unfold handle, fut in *. rewrite list_lookup_insert_ne by exact Hne. exact Hg.
  - destruct (NetworkError.from_reply reply) as [e|]; [|exact Hg].
    unfold Future.set_exception.
    destruct (Future.state w (future q)) eqn:Es; try exact Hg. cbn [snd].
    destruct (decide (future q = g)) as [<-|Hne].
    + unfold Future.state at 1. cbn [futures set_futures].
      destruct (decide (future q < length (futures w))%nat) as [Hlt|Hge].
      * unfold handle, fut in *. rewrite list_lookup_insert_eq by exact Hlt.
        right. right. eauto.
      * unfold handle, fut in *. rewrite list_insert_ge by lia.
        rewrite (proj2 (lookup_ge_None (futures w) (future q))) by lia. now left.
    + unfold Future.state at 1. cbn [futures set_futures].
      unfold handle, fut in *. rewrite list_lookup_insert_ne by exact Hne. exact Hg.
Qed.

Lemma deliver_tracker_settled (ev : completion) (w : world) (g : fut) :
  tracker_settled (Future.state w g) ->
  tracker_settled (Future.state (Loop.deliver ev w) g).
Proof.
  intros Hg. unfold Loop.deliver.
  destruct (replies w !! ev_reply ev) as [r|]; [|exact Hg].
  destruct (isFinished r); [exact Hg|].
  match goal with
  | |- context [RequestManager._finished ?h ?r ?w1] =>
      pose proof (finished_tracker_settled h r w1 g Hg) as K;
      destruct (RequestManager._finished h r w1) as [[u|e] w2]
  end; exact K.
Qed.

Lemma deliver_all_tracker_settled (evs : list completion) (w : world) (g : fut) :
  tracker_settled (Future.state w g) ->
  tracker_settled (Future.state (Loop.deliver_all evs w) g).
Proof.
  revert w. induction evs as [|ev evs IH]; intros w Hg; [exact Hg|].
  unfold Loop.deliver_all in *. cbn [fold_left]. apply IH.
  now apply deliver_tracker_settled.
Qed.

Lemma settled_outcome (st : future_state) (o : outcome json) :
  tracker_settled st ->
  Loop.settled st = Some o ->
  (exists v, o = Returned v /\ st = Result v) \/
  (exists e, o = Raised (NetError e) /\ st = Exception (NetError e)).
Proof.
  intros [-> | [(v & ->) | (e & ->)]]; cbn; intros E; inversion E; eauto.
Qed.

Lemma wait_outcome (f : fut) (s : schedule) (w : world) out s' w' :
  tracker_settled (Future.state w f) ->
  Loop.wait f s w = (out, s', w') ->
  out = Suspended \/
  (exists v, out = Returned v /\ Future.state w' f = Result v) \/
  (exists e, out = Raised (NetError e) /\ Future.state w' f = Exception (NetError e)).
Proof.
  revert w. induction s as [|evs s IH]; intros w Hf; cbn.
  - intros E. inversion E. now left.
  - pose proof (deliver_all_tracker_settled evs w f Hf) as Hf'.
    destruct (Loop.settled (Future.state (Loop.deliver_all evs w) f)) as [o|] eqn:Eo.
    + intros E. inversion E; subst. right. exact (settled_outcome _ _ Hf' Eo).
    + intros E. exact (IH _ Hf' E).
Qed.

Lemma await_outcome (f : fut) (s : schedule) (w : world) out s' w' :
  tracker_settled (Future.state w f) ->
  Loop.await f s w = (out, s', w') ->
  out = Suspended \/
  (exists v, out = Returned v /\ Future.state w' f = Result v) \/
  (exists e, out = Raised (NetError e) /\ Future.state w' f = Exception (NetError e)).
Proof.
  intros Hf. unfold Loop.await.
  destruct (Loop.settled (Future.state w f)) as [o|] eqn:Eo.
  - intros E. inversion E; subst. right. exact (settled_outcome _ _ Hf Eo).
  - apply wait_outcome. exact Hf.
Qed.

Lemma wait_tracker_settled (f g : fut) (s : schedule) (w : world) out s' w' :
  tracker_settled (Future.state w g) ->
  Loop.wait f s w = (out, s', w') ->
  tracker_settled (Future.state w' g).
Proof.
  revert w. induction s as [|evs s IH]; intros w Hg; cbn.
  - intros E. inversion E; subst. exact Hg.
  - pose proof (deliver_all_tracker_settled evs w g Hg) as Hg'.
    destruct (Loop.settled (Future.state (Loop.deliver_all evs w) f)) as [o|].
    + intros E. inversion E; subst. exact Hg'.
    + intros E. exact (IH _ Hg' E).
Qed.

Lemma await_tracker_settled (f g : fut) (s : schedule) (w : world) out s' w' :
  tracker_settled (Future.state w g) ->
  Loop.await f s w = (out, s', w') ->
  tracker_settled (Future.state w' g).
Proof.
  intros Hg. unfold Loop.await.
  destruct (Loop.settled (Future.state w f)) as [o|].
  - intros E. inversion E; subst. exact Hg.
  - now apply wait_tracker_settled.
Qed.

(** Registering a request leaves the futures that exist as they are. *)
Lemma registered_keeps_state (method u : string) (data : option json) (w : world) (g : fut) :
  (g < length (futures w))%nat ->
  Future.state (registered method u data w) g = Future.state w g.
Proof.
  intros Hg. unfold Future.state, registered.
  cbn [futures set_requests set_futures emit set_replies].
  change (futures (RequestManager._cleanup w)) with (futures w).
  unfold handle, fut in *. now rewrite lookup_app_l.
Qed.

Lemma registered_futures_length (method u : string) (data : option json) (w : world) :
  length (futures (registered method u data w)) = S (length (futures w)).
Proof.
  unfold registered. cbn [futures set_requests set_futures emit set_replies].
  change (futures (RequestManager._cleanup w)) with (futures w).
  rewrite length_app. cbn. lia.
Qed.

End Outcomes.

Section FuturesKept.
Context {J : JsonLib}.

Lemma keeps_futures_refl (w : world) : keeps_futures w w.
Proof. split; auto. Qed.

Lemma keeps_futures_trans (w1 w2 w3 : world) :
  keeps_futures w1 w2 -> keeps_futures w2 w3 -> keeps_futures w1 w3.
Proof.
  intros [L1 K1] [L2 K2]. split; [lia|].
  intros g Hg Hs. apply K2; [lia|]. now apply K1.
Qed.

Lemma keeps_futures_same (w w' : world) :
  futures w' = futures w -> keeps_futures w w'.
Proof.
  intros E. split; [now rewrite E|].
  intros g _ Hs. unfold Future.state in *. now rewrite E.
Qed.

Lemma finished_futures_length (h : handle) (reply : Reply) (w : world) :
  length (futures (snd (RequestManager._finished h reply w))) = length (futures w).
Proof.
  unfold RequestManager._finished.
  destruct (_requests w !! h) as [q|]; [|reflexivity]. cbv zeta.
  destruct (Future.cancelled w (future q)); [reflexivity|].
  destruct (error reply =? NoError).
  - destruct (json_loads (body reply)); [|reflexivity].
    unfold Future.set_result. destruct (Future.state w (future q)); try reflexivity.
    cbn. apply length_insert.
  - destruct (NetworkError.from_reply reply); [|reflexivity].
    unfold Future.set_exception. destruct (Future.state w (future q)); try reflexivity.
    cbn. apply length_insert.
Qed.

Lemma deliver_futures_length (ev : completion) (w : world) :
  length (futures (Loop.deliver ev w)) = length (futures w).
Proof.
  unfold Loop.deliver.
  destruct (replies w !! ev_reply ev) as [r|]; [|reflexivity].
  destruct (isFinished r); [reflexivity|].
  match goal with
  | |- context [RequestManager._finished ?h ?r ?w1] =>
      pose proof (finished_futures_length h r w1) as K;
      destruct (RequestManager._finished h r w1) as [[u|e] w2]
  end; exact K.
Qed.

Lemma deliver_all_keeps_futures (evs : list completion) (w : world) :
  keeps_futures w (Loop.deliver_all evs w).
Proof.
  split.
  - revert w. induction evs as [|ev evs IH]; intros w; [reflexivity|].
    unfold Loop.deliver_all in *. cbn [fold_left].
    specialize (IH (Loop.deliver ev w)). rewrite deliver_futures_length in IH. exact IH.
  - intros g _. apply deliver_all_tracker_settled.
Qed.

Lemma wait_keeps_futures (f : fut) (s : schedule) (w : world) out s' w' :
  Loop.wait f s w = (out, s', w') -> keeps_futures w w'.
Proof.
  revert w. induction s as [|evs s IH]; intros w; cbn.
  - intros E. inversion E. apply keeps_futures_refl.
  - destruct (Loop.settled (Future.state (Loop.deliver_all evs w) f)) as [o|].
    + intros E. inversion E; subst. apply deliver_all_keeps_futures.
    + intros E. eapply keeps_futures_trans; [apply deliver_all_keeps_futures|].
      exact (IH _ E).
Qed.

Lemma await_keeps_futures (f : fut) (s : schedule) (w : world) out s' w' :
  Loop.await f s w = (out, s', w') -> keeps_futures w w'.
Proof.
  unfold Loop.await. destruct (Loop.settled (Future.state w f)).
  - intros E. inversion E. apply keeps_futures_refl.
  - apply wait_keeps_futures.
Qed.

Lemma registered_keeps_futures (method u : string) (data : option json) (w : world) :
  keeps_futures w (registered method u data w).
Proof.
  split.
  - rewrite registered_futures_length. lia.
  - intros g Hg Hs. now rewrite registered_keeps_state.
Qed.

Lemma registered_settled (method u : string) (data : option json) (w : world) :
  tracker_settled (Future.state (registered method u data w) (length (futures w))).
Proof. rewrite registered_state. now left. Qed.

End FuturesKept.

Section OrchestratorMore.
Context {J : JsonLib} {Cd : Codec} {St : Settings}.
Variable self_url : string.

(** [_get]: one [GET]; it returns the parsed reply, or raises a classified
    error, or is left waiting. *)
Lemma get_outcome (op : string) s w out s' w' :
  Auto1111._get self_url op s w = (out, s', w') ->
  (out = Suspended \/ (exists v, out = Returned v) \/
   (exists e, out = Raised (NetError e))) /\
  keeps_futures w w'.
Proof.
  unfold Auto1111._get, Loop.cbind, Loop.call. rewrite get_spec. intros E.
  split.
  - destruct (await_outcome _ _ _ _ _ _ (registered_settled _ _ _ w) E)
      as [-> | [(v & -> & _) | (e & -> & _)]]; eauto.
  - eapply keeps_futures_trans; [apply registered_keeps_futures|].
    exact (await_keeps_futures _ _ _ _ _ _ E).
Qed.

Lemma post_poll_outcome (p : ref) (o : ProgressObj) s w out s' w' :
  objects w !! p = Some o ->
  Auto1111._post_poll self_url p s w = (out, s', w') ->
  (forall e, out = Raised e -> transport_error e) /\
  keeps_futures w w'.
Proof.
  intros Hp E. unfold Auto1111._post_poll in E.
  apply cbind_inv in E as [(status & s1 & w1 & Eg & E) | [(e & Eg & ->) | (Eg & ->)]];
    destruct (get_outcome _ _ _ _ _ _ Eg) as (Ho & Hk);
    destruct (get_frame _ _ _ _ _ _ _ Eg) as (_ & O1 & _).
  - assert (Hp1 : objects w1 !! p = Some o) by now rewrite O1.
    assert (Hret : forall b : bool,
              (Returned b, s1, w1) = (out, s', w') ->
              (forall e, out = Raised e -> transport_error e) /\ keeps_futures w w').
    { intros b Eb. inversion Eb; subst. split; [discriminate | exact Hk]. }
    assert (Hraise : forall e : exn,
              status_error e ->
              (@Raised bool e, s1, w1) = (out, s', w') ->
              (forall e, out = Raised e -> transport_error e) /\ keeps_futures w w').
    { intros e He Eb. inversion Eb; subst. split; [|exact Hk].
      intros e' Ee. inversion Ee; subst. now left. }
    assert (Hitem : forall e, Py.getitem status "progress" = Raise e -> status_error e).
    { intros e. unfold Py.getitem.
      destruct status as [ |b|z|x|str|l|fields]; try (intros K; inversion K; now right).
      destruct (Py.assoc "progress" fields); intros K; inversion K. now left. }
    assert (Hnum : forall v e, Py.as_number v = Raise e -> status_error e).
    { intros v e. destruct v; cbn; intros K; inversion K; now right. }
    revert E. unfold Loop.cbind, Loop.pure, Loop.call, Loop.ret.
    destruct (Py.getitem status "progress") as [v|e] eqn:Ei; cbn;
      [|apply Hraise; exact (Hitem e eq_refl)].
    assert (Hge : forall e, Py.ge_int v 1 = Raise e -> status_error e).
    { intros e. unfold Py.ge_int. destruct (Py.as_number v) eqn:En; cbn; [discriminate|].
      intros K; inversion K; subst. exact (Hnum v _ En). }
    assert (Hgt : forall e, Py.gt_int v 0 = Raise e -> status_error e).
    { intros e. unfold Py.gt_int. destruct (Py.as_number v) eqn:En; cbn; [discriminate|].
      intros K; inversion K; subst. exact (Hnum v _ En). }
    destruct (Py.ge_int v 1) as [[|]|e]; cbn;
      [apply Hret | | apply Hraise; exact (Hge e eq_refl)].
    destruct (Py.gt_int v 0) as [[|]|e]; cbn;
      [| apply Hret | apply Hraise; exact (Hgt e eq_refl)].
    destruct (Py.as_number v) as [n|e] eqn:En; cbn;
      [|apply Hraise; exact (Hnum v e En)].
    unfold Progress.__call__. rewrite Hp1.
    intros E; inversion E; subst. split; [discriminate|].
    eapply keeps_futures_trans; [exact Hk|]. now apply keeps_futures_same.
  - split; [|exact Hk]. intros e' Ee. inversion Ee; subst.
    destruct Ho as [Ho | [(v & Ho) | (ne & Ho)]]; try discriminate.
    inversion Ho; subst. right. eauto.
  - split; [discriminate | exact Hk].
Qed.

Lemma post_while_outcome (fuel : nat) (request : fut) (p : ref) (o : ProgressObj) :
  forall s w out s' w',
    objects w !! p = Some o ->
    Auto1111._post_while self_url fuel request p s w = (out, s', w') ->
    (forall e, out = Raised e -> transport_error e) /\
    keeps_futures w w'.
Proof.
  induction fuel as [|fuel IH]; intros s w out s' w' Hp E; cbn in E.
  - inversion E; subst. split; [discriminate | apply keeps_futures_refl].
  - destruct (Future.done w request).
    + inversion E; subst. split; [discriminate | apply keeps_futures_refl].
    + apply cbind_inv in E as [(stop & s1 & w1 & Eg & E) | [(e & Eg & ->) | (Eg & ->)]];
        destruct (post_poll_outcome _ _ _ _ _ _ _ Hp Eg) as (He & Hk);
        destruct (post_poll_frame _ _ _ _ _ _ _ _ Hp Eg) as (_ & O1 & _).
      * destruct stop.
        -- inversion E; subst. split; [discriminate | exact Hk].
        -- assert (Hp1 : objects w1 !! p = Some o) by now rewrite O1.
           destruct (IH _ _ _ _ _ Hp1 E) as (He2 & Hk2).
           split; [exact He2|]. eapply keeps_futures_trans; eauto.
      * split; [|exact Hk]. intros e' Ee. inversion Ee; subst. now apply He.
      * split; [discriminate | exact Hk].
Qed.

(** [_post]: when it returns, the value is what the request was resolved
    with; when it raises, the exception is a classified network error or
    comes from a progress status without a number. *)
Lemma post_outcome (op : string) (data : json) (progress : option ref) s w out s' w' :
  (forall p, progress = Some p -> exists o, objects w !! p = Some o) ->
  Auto1111._post self_url op data progress s w = (out, s', w') ->
  (forall v, out = Returned v -> Future.state w' (length (futures w)) = Result v) /\
  (forall e, out = Raised e -> transport_error e).
Proof.
  intros Hp E. unfold Auto1111._post in E.
  apply cbind_inv in E as [(request & s1 & w1 & Ep & E) | [(e & Ep & _) | (Ep & _)]];
    unfold Loop.call in Ep; rewrite post_spec in Ep; inversion Ep; subst; clear Ep.
  set (W := registered "POST" (self_url +:+ "/" +:+ op) (Some data) w) in *.
  assert (Hfin : forall s2 w2,
            keeps_futures W w2 ->
            Loop.await (length (futures w)) s2 w2 = (out, s', w') ->
            (forall v, out = Returned v -> Future.state w' (length (futures w)) = Result v) /\
            (forall e, out = Raised e -> transport_error e)).
  { intros s2 w2 [_ Hk] Ea.
    assert (Hs : tracker_settled (Future.state w2 (length (futures w)))).
    { apply Hk; [unfold W; rewrite registered_futures_length; lia|].
      apply registered_settled. }
    destruct (await_outcome _ _ _ _ _ _ Hs Ea) as [-> | [(v & -> & S) | (e & -> & S)]].
    - split; discriminate.
    - split; [|discriminate]. intros v' Ev. inversion Ev; subst. exact S.
    - split; [discriminate|]. intros e' Ee. inversion Ee; subst. right. eauto. }
  apply cbind_inv in E as [(u & s2 & w2 & El & E) | [(e & El & ->) | (El & ->)]].
  - destruct progress as [p|].
    + destruct (Hp p eq_refl) as (o & Ho0).
      assert (Ho : objects W !! p = Some o) by exact Ho0.
      apply cbind_inv in El as [(u1 & s3 & w3 & El & Ef) | [(e & El & Ee) | (El & Ee)]];
        try discriminate.
      destruct (post_while_outcome _ _ _ o _ _ _ _ _ Ho El) as (_ & Hk).
      destruct (post_while_frame _ _ _ _ o _ _ _ _ _ Ho El) as (_ & O3).
      unfold Loop.call in Ef.
      rewrite (finish_spec p o w3) in Ef by (rewrite O3; exact Ho).
      inversion Ef; subst; clear Ef.
      refine (Hfin _ _ _ E). eapply keeps_futures_trans; [exact Hk|].
      apply keeps_futures_same. reflexivity.
    + inversion El; subst. apply (Hfin _ _ (keeps_futures_refl W) E).
  - split; [discriminate|]. intros e' Ee. inversion Ee; subst.
    destruct progress as [p|]; [|discriminate].
    destruct (Hp p eq_refl) as (o & Ho0).
    assert (Ho : objects W !! p = Some o) by exact Ho0.
    apply cbind_inv in El as [(u1 & s3 & w3 & El & Ef) | [(e0 & El & Ee0) | (El & Ee0)]];
      try discriminate.
    + destruct (post_while_frame _ _ _ _ o _ _ _ _ _ Ho El) as (_ & O3).
      unfold Loop.call in Ef.
      rewrite (finish_spec p o w3) in Ef by (rewrite O3; exact Ho). discriminate.
    + inversion Ee0; subst.
      destruct (post_while_outcome _ _ _ o _ _ _ _ _ Ho El) as (He & _).
      now apply He.
  - split; discriminate.
Qed.

End OrchestratorMore.

(** ** The operations of [Auto1111] *)

Section Jobs.
Context {J : JsonLib} {Cd : Codec} {St : Settings} {Ie : ImageExtent} {Bs : BatchSettings}.
Variable self_url : string.

Lemma post_returned_objects (op : string) (data : json) (p : ref) (o : ProgressObj)
    s w v s' w' :
  objects w !! p = Some o ->
  Auto1111._post self_url op data (Some p) s w = (Returned v, s', w') ->
  objects w' = <[p := finished_scope o]> (objects w).
Proof.
  intros Hp E. unfold Auto1111._post in E.
  apply cbind_inv in E as [(request & s1 & w1 & Ep & E) | [(e & Ep & K) | (Ep & K)]];
    try discriminate.
  unfold Loop.call in Ep; rewrite post_spec in Ep; inversion Ep; subst; clear Ep.
  set (W := registered "POST" (self_url +:+ "/" +:+ op) (Some data) w) in *.
  assert (HpW : objects W !! p = Some o) by exact Hp.
  apply cbind_inv in E as [(u & s2 & w2 & El & E) | [(e & El & K) | (El & K)]];
    try discriminate.
  apply cbind_inv in El as [(u1 & s3 & w3 & El & Ef) | [(e & El & Ee) | (El & Ee)]];
    try discriminate.
  destruct (post_while_frame _ _ _ _ _ _ _ _ _ _ HpW El) as (_ & O).
  unfold Loop.call in Ef. rewrite (finish_spec p o w3) in Ef by (now rewrite O).
  inversion Ef; subst; clear Ef.
  destruct (await_frame _ _ _ _ _ _ E) as (_ & O4).
  rewrite O4. cbn [objects emit set_objects]. now rewrite O.
Qed.

(** The shape every generation call has: [_post] with the scope, then
    [_collect_images]. *)
Lemma job_frame (op : string) (payload : json) (count : option Z)
    (p : ref) (o : ProgressObj) s w out s' w' :
  objects w !! p = Some o ->
  (result <~ Auto1111._post self_url op payload (Some p) ;;
   Loop.pure (_collect_images result count)) s w = (out, s', w') ->
  (exists polls,
     log w' = log w ++
       Sent (length (replies w)) "POST" (self_url +:+ "/" +:+ op) (Some payload) :: polls /\
     Forall (poll_event self_url (callback o)) polls) /\
  (forall images, out = Returned images ->
     exists result,
       Future.state w' (length (futures w)) = Result result /\
       _collect_images result count = Ok images /\
       objects w' = <[p := finished_scope o]> (objects w)) /\
  (forall e, out = Raised e ->
     transport_error e \/
     exists result,
       Future.state w' (length (futures w)) = Result result /\
       _collect_images result count = Raise e).
Proof.
  intros Hp E.
  assert (Hsome : forall p0, Some p = Some p0 -> exists o0, objects w !! p0 = Some o0).
  { intros p0 Ep. inversion Ep; subst. eauto. }
  apply cbind_inv in E as [(result & s1 & w1 & E1 & E) | [(e & E1 & ->) | (E1 & ->)]];
    destruct (post_progress_frame _ _ _ _ _ _ _ _ _ _ Hp E1) as (polls & L & F & _ & _);
    destruct (post_outcome _ _ _ _ _ _ _ _ _ Hsome E1) as (Hv & He).
  - destruct (pure_inv _ _ _ _ _ _ E) as (-> & -> & Ec).
    pose proof (Hv result eq_refl) as Hres.
    pose proof (post_returned_objects _ _ _ _ _ _ _ _ _ Hp E1) as Hobj.
    split; [eauto|]. split.
    + intros images ->. exists result.
      destruct (_collect_images result count); [|discriminate].
      inversion Ec; subst. auto.
    + intros e ->. right. exists result.
      destruct (_collect_images result count); [discriminate|].
      inversion Ec; subst. auto.
  - split; [eauto|]. split; [discriminate|].
    intros e' Ee. inversion Ee; subst. left. now apply He.
  - split; [eauto|]. split; discriminate.
Qed.

(** X8: [txt2img] posts one request to [sdapi/v1/txt2img], whose body
    carries the prompt and the width and height asked for; everything else
    it lets observe are polls of the progress endpoint and invocations of
    the callback of the scope.  When it returns, the request was resolved
    and the images are all the images of that payload, and the scope has
    finished; when it raises, the exception is a classified network error,
    a progress status without a number, or the exception of
    [_collect_images] on the payload the request was resolved with. *)
Theorem txt2img_runs (prompt : string) (e : Extent) (p : ref) (o : ProgressObj)
    s w out s' w' :
  objects w !! p = Some o ->
  Auto1111.txt2img self_url prompt e p s w = (out, s', w') ->
  let payload := Auto1111.txt2img_payload prompt e in
  (Py.getitem payload "prompt" = Ok (JStr prompt) /\
   Py.getitem payload "width" = Ok (JInt (width e)) /\
   Py.getitem payload "height" = Ok (JInt (height e)) /\
   Py.getitem payload "batch_size" = Ok (JInt batch_size)) /\
  (exists polls,
     log w' = log w ++
       Sent (length (replies w)) "POST" (self_url +:+ "/" +:+ "sdapi/v1/txt2img")
         (Some payload) :: polls /\
     Forall (poll_event self_url (callback o)) polls) /\
  (forall images, out = Returned images ->
     exists result,
       Future.state w' (length (futures w)) = Result result /\
       _collect_images result None = Ok images /\
       objects w' = <[p := finished_scope o]> (objects w)) /\
  (forall x, out = Raised x ->
     transport_error x \/
     exists result,
       Future.state w' (length (futures w)) = Result result /\
       _collect_images result None = Raise x).
Proof.
  intros Hp E. cbv zeta. split; [repeat split|].
  exact (job_frame _ _ _ _ _ _ _ _ _ _ Hp E).
Qed.

(** X9: [txt2img_inpaint] refuses an image and a mask of different
    extents before anything is sent: it raises [AssertionError] and leaves
    the world as it is.  Otherwise it posts one request to
    [sdapi/v1/txt2img] that carries the image and the mask as ControlNet
    arguments, and when it returns, the images are those of the payload the
    request was resolved with, without the last one. *)
Theorem txt2img_inpaint_runs (img mask : Image) (prompt : string) (e : Extent)
    (p : ref) (o : ProgressObj) s w :
  objects w !! p = Some o ->
  (extent_eqb (extent img) (extent mask) = false ->
   Auto1111.txt2img_inpaint self_url img mask prompt e p s w =
     (Raised AssertionError, s, w)) /\
  (extent_eqb (extent img) (extent mask) = true ->
   forall out s' w',
     Auto1111.txt2img_inpaint self_url img mask prompt e p s w = (out, s', w') ->
     (exists polls,
        log w' = log w ++
          Sent (length (replies w)) "POST" (self_url +:+ "/" +:+ "sdapi/v1/txt2img")
            (Some (Auto1111.txt2img_inpaint_payload img mask prompt e)) :: polls /\
        Forall (poll_event self_url (callback o)) polls) /\
     (forall images, out = Returned images ->
        exists result,
          Future.state w' (length (futures w)) = Result result /\
          _collect_images result (Some (-1)) = Ok images /\
          forall fields l,
            result = JObj fields -> Py.assoc "images" fields = Some (JList l) ->
            images = map from_base64 (take (length l - 1) l))).
Proof.
  intros Hp. split.
  - intros Hne. unfold Auto1111.txt2img_inpaint. now rewrite Hne.
  - intros Heq out s' w' E. unfold Auto1111.txt2img_inpaint in E. rewrite Heq in E.
    cbn [negb] in E.
    destruct (job_frame _ _ _ _ _ _ _ _ _ _ Hp E) as (Hlog & Hret & _).
    split; [exact Hlog|].
    intros images Hout. destruct (Hret images Hout) as (result & Hs & Hc & _).
    exists result. split; [exact Hs|]. split; [exact Hc|].
    intros fields l -> Hl. rewrite collect_images_dict, Hl in Hc.
    rewrite slice_to_negative in Hc by lia. now inversion Hc.
Qed.

(** X10: [img2img_inpaint] refuses an image and a mask of different
    extents before anything is sent; otherwise it posts one request to
    [sdapi/v1/img2img] with the image, the mask and the strength, and when
    it returns, the images are those of the payload the request was
    resolved with, without the last one. *)
Theorem img2img_inpaint_runs (img mask : Image) (prompt : string) (strength : float)
    (e : Extent) (p : ref) (o : ProgressObj) s w :
  objects w !! p = Some o ->
  let payload := Auto1111.img2img_inpaint_payload img mask prompt strength e in
  (Py.getitem payload "init_images" = Ok (JList [JStr (to_base64 img)]) /\
   Py.getitem payload "mask" = Ok (JStr (to_base64 mask)) /\
   Py.getitem payload "denoising_strength" = Ok (JFloat strength)) /\
  (extent_eqb (extent img) (extent mask) = false ->
   Auto1111.img2img_inpaint self_url img mask prompt strength e p s w =
     (Raised AssertionError, s, w)) /\
  (extent_eqb (extent img) (extent mask) = true ->
   forall out s' w',
     Auto1111.img2img_inpaint self_url img mask prompt strength e p s w = (out, s', w') ->
     (exists polls,
        log w' = log w ++
          Sent (length (replies w)) "POST" (self_url +:+ "/" +:+ "sdapi/v1/img2img")
            (Some payload) :: polls /\
        Forall (poll_event self_url (callback o)) polls) /\
     (forall images, out = Returned images ->
        exists result,
          Future.state w' (length (futures w)) = Result result /\
          _collect_images result (Some (-1)) = Ok images /\
          forall fields l,
            result = JObj fields -> Py.assoc "images" fields = Some (JList l) ->
            images = map from_base64 (take (length l - 1) l))).
Proof.
  intros Hp. cbv zeta. split; [repeat split|]. split.
  - intros Hne. unfold Auto1111.img2img_inpaint. now rewrite Hne.
  - intros Heq out s' w' E. unfold Auto1111.img2img_inpaint in E. rewrite Heq in E.
    cbn [negb] in E.
    destruct (job_frame _ _ _ _ _ _ _ _ _ _ Hp E) as (Hlog & Hret & _).
    split; [exact Hlog|].
    intros images Hout. destruct (Hret images Hout) as (result & Hs & Hc & _).
    exists result. split; [exact Hs|]. split; [exact Hc|].
    intros fields l -> Hl. rewrite collect_images_dict, Hl in Hc.
    rewrite slice_to_negative in Hc by lia. now inversion Hc.
Qed.

(** X11: [img2img] is [_img2img] on the encoded image with cfg scale [7]
    and the batch size of the settings: it posts one request to
    [sdapi/v1/img2img] that carries the image, the strength and the tiled
    VAE script, and returns every image of the payload the request was
    resolved with. *)
Theorem img2img_runs (img : Image) (prompt : string) (strength : float) (e : Extent)
    (p : ref) (o : ProgressObj) s w out s' w' :
  objects w !! p = Some o ->
  Auto1111.img2img self_url img prompt strength e p s w = (out, s', w') ->
  let payload :=
    Auto1111.img2img_payload (JStr (to_base64 img)) prompt strength e 7 batch_size in
  (Py.getitem payload "init_images" = Ok (JList [JStr (to_base64 img)]) /\
   Py.getitem payload "denoising_strength" = Ok (JFloat strength) /\
   Py.getitem payload "cfg_scale" = Ok (JInt 7) /\
   Py.getitem payload "batch_size" = Ok (JInt batch_size) /\
   Py.getitem payload "alwayson_scripts" = Ok Auto1111._make_tiled_vae_payload) /\
  (exists polls,
     log w' = log w ++
       Sent (length (replies w)) "POST" (self_url +:+ "/" +:+ "sdapi/v1/img2img")
         (Some payload) :: polls /\
     Forall (poll_event self_url (callback o)) polls) /\
  (forall images, out = Returned images ->
     exists result,
       Future.state w' (length (futures w)) = Result result /\
       _collect_images result None = Ok images).
Proof.
  intros Hp E. cbv zeta. split; [repeat split|].
  unfold Auto1111.img2img, Auto1111._img2img in E.
  destruct (job_frame _ _ _ _ _ _ _ _ _ _ Hp E) as (Hlog & Hret & _).
  split; [exact Hlog|].
  intros images Hout. destruct (Hret images Hout) as (result & Hs & Hc & _). eauto.
Qed.

(** X12: [upscale_tiled] posts one request to [sdapi/v1/img2img] for the
    script ["ultimate sd upscale"], with the upscale prompt put before the
    prompt of the caller, strength [0.4] and the target size, and returns
    every image of the payload the request was resolved with. *)
Theorem upscale_tiled_runs (img : Image) (target : Extent) (prompt : string)
    (p : ref) (o : ProgressObj) s w out s' w' :
  objects w !! p = Some o ->
  Auto1111.upscale_tiled self_url img target prompt p s w = (out, s', w') ->
  let payload := Auto1111.upscale_tiled_payload img target prompt in
  (Py.getitem payload "script_name" = Ok (JStr "ultimate sd upscale") /\
   Py.getitem payload "prompt" = Ok (JStr ("highres 8k uhd, " +:+ prompt)) /\
   Py.getitem payload "denoising_strength" = Ok (JFloat Float.f0_4) /\
   Py.getitem payload "width" = Ok (JInt (width target)) /\
   Py.getitem payload "height" = Ok (JInt (height target))) /\
  (exists polls,
     log w' = log w ++
       Sent (length (replies w)) "POST" (self_url +:+ "/" +:+ "sdapi/v1/img2img")
         (Some payload) :: polls /\
     Forall (poll_event self_url (callback o)) polls) /\
  (forall images, out = Returned images ->
     exists result,
       Future.state w' (length (futures w)) = Result result /\
       _collect_images result None = Ok images).
Proof.
  intros Hp E. cbv zeta. split; [repeat split|].
  unfold Auto1111.upscale_tiled in E.
  destruct (job_frame _ _ _ _ _ _ _ _ _ _ Hp E) as (Hlog & Hret & _).
  split; [exact Hlog|].
  intros images Hout. destruct (Hret images Hout) as (result & Hs & Hc & _). eauto.
Qed.

End Jobs.

Lemma txt2img_runs_witness :
  let run := Auto1111.txt2img (J := Demo.json_lib) (Cd := Demo.codec) (Bs := Demo3.batch)
               Demo.base_url "a cat" (MkExtent 512 512) 0%nat
               (Demo3.job_schedule Demo.body_abc) (Demo.scope_world Demo.scope_root) in
  fst (fst run) = Returned [JStr "a"; JStr "b"; JStr "c"] /\
  objects (snd run) = [MkProgress 7%nat Float.one Float.one] /\
  exists result,
    Future.state (snd run) 0%nat = Result result /\
    _collect_images (Cd := Demo.codec) result None = Ok [JStr "a"; JStr "b"; JStr "c"].
Proof.
  cbv zeta.
  destruct (txt2img_runs (J := Demo.json_lib) (Cd := Demo.codec) (Bs := Demo3.batch)
              Demo.base_url "a cat" (MkExtent 512 512) 0%nat Demo.scope_root
              (Demo3.job_schedule Demo.body_abc) (Demo.scope_world Demo.scope_root)
              _ _ _ eq_refl ltac:(vm_compute; reflexivity))
    as (_ & _ & K & _).
  destruct (K [JStr "a"; JStr "b"; JStr "c"] ltac:(vm_compute; reflexivity))
    as (result & Hs & Hc & Ho).
  split; [vm_compute; reflexivity|]. split; [exact Ho|]. eauto.
Defined.

Lemma txt2img_inpaint_runs_witness :
  Auto1111.txt2img_inpaint (J := Demo.json_lib) (Cd := Demo.codec)
    (Ie := Demo3.image_extent) (Bs := Demo3.batch)
    Demo.base_url (JStr "wide") (JStr "mask") "a cat" (MkExtent 512 512) 0%nat
    (Demo3.job_schedule Demo.body_abc) (Demo.scope_world Demo.scope_root) =
    (Raised AssertionError, Demo3.job_schedule Demo.body_abc,
     Demo.scope_world Demo.scope_root) /\
  let run := Auto1111.txt2img_inpaint (J := Demo.json_lib) (Cd := Demo.codec)
               (Ie := Demo3.image_extent) (Bs := Demo3.batch)
               Demo.base_url (JStr "small") (JStr "mask") "a cat" (MkExtent 512 512) 0%nat
               (Demo3.job_schedule Demo.body_abc) (Demo.scope_world Demo.scope_root) in
  exists result,
    Future.state (snd run) 0%nat = Result result /\
    _collect_images (Cd := Demo.codec) result (Some (-1)) = Ok [JStr "a"; JStr "b"].
Proof.
  pose proof (txt2img_inpaint_runs (J := Demo.json_lib) (Cd := Demo.codec)
                (Ie := Demo3.image_extent) (Bs := Demo3.batch) Demo.base_url) as T.
  split.
  - exact (proj1 (T (JStr "wide") (JStr "mask") "a cat" (MkExtent 512 512) 0%nat
                    Demo.scope_root (Demo3.job_schedule Demo.body_abc)
                    (Demo.scope_world Demo.scope_root) eq_refl) eq_refl).
  - cbv zeta.
    destruct (proj2 (T (JStr "small") (JStr "mask") "a cat" (MkExtent 512 512) 0%nat
                       Demo.scope_root (Demo3.job_schedule Demo.body_abc)
                       (Demo.scope_world Demo.scope_root) eq_refl) eq_refl
                _ _ _ ltac:(vm_compute; reflexivity)) as (_ & K).
    destruct (K [JStr "a"; JStr "b"] ltac:(vm_compute; reflexivity))
      as (result & Hs & Hc & _).
    eauto.
Defined.

Lemma img2img_inpaint_runs_witness :
  Auto1111.img2img_inpaint (J := Demo.json_lib) (Cd := Demo.codec)
    (Ie := Demo3.image_extent) (Bs := Demo3.batch)
    Demo.base_url (JStr "wide") (JStr "mask") "a cat" Float.half (MkExtent 512 512) 0%nat
    (Demo3.job_schedule Demo.body_abc) (Demo.scope_world Demo.scope_root) =
    (Raised AssertionError, Demo3.job_schedule Demo.body_abc,
     Demo.scope_world Demo.scope_root) /\
  let run := Auto1111.img2img_inpaint (J := Demo.json_lib) (Cd := Demo.codec)
               (Ie := Demo3.image_extent) (Bs := Demo3.batch)
               Demo.base_url (JStr "small") (JStr "mask") "a cat" Float.half
               (MkExtent 512 512) 0%nat
               (Demo3.job_schedule Demo.body_abc) (Demo.scope_world Demo.scope_root) in
  exists result,
    Future.state (snd run) 0%nat = Result result /\
    _collect_images (Cd := Demo.codec) result (Some (-1)) = Ok [JStr "a"; JStr "b"].
Proof.
  pose proof (img2img_inpaint_runs (J := Demo.json_lib) (Cd := Demo.codec)
                (Ie := Demo3.image_extent) (Bs := Demo3.batch) Demo.base_url) as T.
  split.
  - exact (proj1 (proj2 (T (JStr "wide") (JStr "mask") "a cat" Float.half
                           (MkExtent 512 512) 0%nat
                           Demo.scope_root (Demo3.job_schedule Demo.body_abc)
                           (Demo.scope_world Demo.scope_root) eq_refl)) eq_refl).
  - cbv zeta.
    destruct (proj2 (proj2 (T (JStr "small") (JStr "mask") "a cat" Float.half
                              (MkExtent 512 512) 0%nat
                              Demo.scope_root (Demo3.job_schedule Demo.body_abc)
                              (Demo.scope_world Demo.scope_root) eq_refl)) eq_refl
                _ _ _ ltac:(vm_compute; reflexivity)) as (_ & K).
    destruct (K [JStr "a"; JStr "b"] ltac:(vm_compute; reflexivity))
      as (result & Hs & Hc & _).
    eauto.
Defined.

Lemma img2img_runs_witness :
  let run := Auto1111.img2img (J := Demo.json_lib) (Cd := Demo.codec) (Bs := Demo3.batch)
               Demo.base_url (JStr "small") "a cat" Float.half (MkExtent 512 512) 0%nat
               (Demo3.job_schedule Demo.body_out) (Demo.scope_world Demo.scope_root) in
  exists result,
    Future.state (snd run) 0%nat = Result result /\
    _collect_images (Cd := Demo.codec) result None = Ok [JStr "out"].
Proof.
  cbv zeta.
  destruct (img2img_runs (J := Demo.json_lib) (Cd := Demo.codec) (Bs := Demo3.batch)
              Demo.base_url (JStr "small") "a cat" Float.half (MkExtent 512 512) 0%nat
              Demo.scope_root
              (Demo3.job_schedule Demo.body_out) (Demo.scope_world Demo.scope_root)
              _ _ _ eq_refl ltac:(vm_compute; reflexivity))
    as (_ & _ & K).
  exact (K [JStr "out"] ltac:(vm_compute; reflexivity)).
Defined.

Lemma upscale_tiled_runs_witness :
  let run := Auto1111.upscale_tiled (J := Demo.json_lib) (Cd := Demo.codec)
               (Bs := Demo3.batch)
               Demo.base_url (JStr "small") (MkExtent 1024 1024) "a cat" 0%nat
               (Demo3.job_schedule Demo.body_out) (Demo.scope_world Demo.scope_root) in
  exists result,
    Future.state (snd run) 0%nat = Result result /\
    _collect_images (Cd := Demo.codec) result None = Ok [JStr "out"].
Proof.
  cbv zeta.
  destruct (upscale_tiled_runs (J := Demo.json_lib) (Cd := Demo.codec) (Bs := Demo3.batch)
              Demo.base_url (JStr "small") (MkExtent 1024 1024) "a cat" 0%nat
              Demo.scope_root
              (Demo3.job_schedule Demo.body_out) (Demo.scope_world Demo.scope_root)
              _ _ _ eq_refl ltac:(vm_compute; reflexivity))
    as (_ & _ & K).
  exact (K [JStr "out"] ltac:(vm_compute; reflexivity)).
Defined.

(** ** Requests and polls *)

Section Polling.
Context {J : JsonLib}.
Variable self_url : string.

Lemma cbind_returned {A B : Type} (m : co A) (k : A -> co B) s w a s1 w1 :
  m s w = (Returned a, s1, w1) -> Loop.cbind m k s w = k a s1 w1.
Proof. intros E. unfold Loop.cbind. now rewrite E. Qed.

Lemma cbind_raised {A B : Type} (m : co A) (k : A -> co B) s w e s1 w1 :
  m s w = (Raised e, s1, w1) -> Loop.cbind m k s w = (Raised e, s1, w1).
Proof. intros E. unfold Loop.cbind. now rewrite E. Qed.

Lemma registered_done (method u : string) (data : option json) (w : world) :
  Future.done (registered method u data w) (length (futures w)) = false.
Proof. unfold Future.done. now rewrite registered_state. Qed.

Lemma registered_replies_length (method u : string) (data : option json) (w : world) :
  length (replies (registered method u data w)) = S (length (replies w)).
Proof.
  unfold registered. cbn [replies set_requests set_futures emit set_replies].
  change (replies (RequestManager._cleanup w)) with (replies w).
  rewrite length_app. cbn. lia.
Qed.

(** X13: [_get] sends exactly one [GET] to the operation appended to the
    url of the instance and invokes no callback.  It returns what the
    future of that request was resolved with, raises the classified error
    it was rejected with, and never raises anything else. *)
Theorem get_sends_once (op : string) s w out s' w' :
  Auto1111._get self_url op s w = (out, s', w') ->
  log w' = log w ++ [Sent (length (replies w)) "GET" (self_url +:+ "/" +:+ op) None] /\
  objects w' = objects w /\
  (out = Suspended \/
   (exists v, out = Returned v /\ Future.state w' (length (futures w)) = Result v) \/
   (exists e, out = Raised (NetError e) /\
              Future.state w' (length (futures w)) = Exception (NetError e))).
Proof.
  intros E. destruct (get_frame _ _ _ _ _ _ _ E) as (L & O & _).
  split; [exact L|]. split; [exact O|].
  unfold Auto1111._get, Loop.cbind, Loop.call in E. rewrite get_spec in E.
  exact (await_outcome _ _ _ _ _ _ (registered_settled _ _ _ w) E).
Qed.

Lemma post_poll_first (p : ref) s w out s' w' :
  Auto1111._post_poll self_url p s w = (out, s', w') ->
  exists l,
    log w' = log w ++
      Sent (length (replies w)) "GET" (self_url +:+ "/" +:+ "sdapi/v1/progress") None :: l.
Proof.
  intros E. unfold Auto1111._post_poll in E.
  apply cbind_inv in E as [(status & s1 & w1 & Eg & E) | [(e & Eg & ->) | (Eg & ->)]];
    destruct (get_frame _ _ _ _ _ _ _ Eg) as (L1 & _ & _);
    try (exists []; exact L1).
  revert E. unfold Loop.cbind, Loop.pure, Loop.call, Loop.ret.
  destruct (Py.getitem status "progress") as [v|e]; cbn;
    [|intros E; inversion E; subst; exists []; exact L1].
  destruct (Py.ge_int v 1) as [[|]|e]; cbn;
    try (intros E; inversion E; subst; exists []; exact L1).
  destruct (Py.gt_int v 0) as [[|]|e]; cbn;
    try (intros E; inversion E; subst; exists []; exact L1).
  destruct (Py.as_number v) as [n|e]; cbn;
    try (intros E; inversion E; subst; exists []; exact L1).
  unfold Progress.__call__. destruct (objects w1 !! p) as [o|];
    intros E; inversion E; subst.
  - eexists. cbn [log emit]. rewrite L1, <- app_assoc. reflexivity.
  - exists []. exact L1.
Qed.

(** X14: with a progress scope, [_post] asks for the progress at least
    once, whatever the backend does: the request is new when the loop
    starts, so the first thing after the [POST] is a [GET] of
    [sdapi/v1/progress]. *)
Theorem post_polls_at_least_once (op : string) (data : json) (p : ref) (o : ProgressObj)
    s w out s' w' :
  objects w !! p = Some o ->
  Auto1111._post self_url op data (Some p) s w = (out, s', w') ->
  exists rest,
    log w' = log w ++
      Sent (length (replies w)) "POST" (self_url +:+ "/" +:+ op) (Some data) ::
      Sent (S (length (replies w))) "GET" (self_url +:+ "/" +:+ "sdapi/v1/progress") None ::
      rest.
Proof.
  intros Hp E. unfold Auto1111._post in E.
  apply cbind_inv in E as [(request & s1 & w1 & Ep & E) | [(e & Ep & _) | (Ep & _)]];
    unfold Loop.call in Ep; rewrite post_spec in Ep; inversion Ep; subst; clear Ep.
  set (W := registered "POST" (self_url +:+ "/" +:+ op) (Some data) w) in *.
  assert (HpW : objects W !! p = Some o) by exact Hp.
  assert (LW : log W = log w ++
            [Sent (length (replies w)) "POST" (self_url +:+ "/" +:+ op) (Some data)])
    by reflexivity.
  assert (HlenW : length (replies W) = S (length (replies w)))
    by apply registered_replies_length.
  assert (HdoneW : Future.done W (length (futures w)) = false)
    by apply registered_done.
  assert (Hloop : forall o1 s3 w3,
            Auto1111._post_while self_url (S (length s1)) (length (futures w)) p s1 W =
              (o1, s3, w3) ->
            exists l,
              log w3 = log W ++
                Sent (S (length (replies w))) "GET"
                  (self_url +:+ "/" +:+ "sdapi/v1/progress") None :: l).
  { intros o1 s3 w3 El. cbn [Auto1111._post_while] in El.
    rewrite HdoneW in El.
    apply cbind_inv in El as [(stop & s4 & w4 & Eg & El) | [(e & Eg & ->) | (Eg & ->)]];
      destruct (post_poll_first _ _ _ _ _ _ Eg) as (l & L);
      rewrite HlenW in L;
      try (exists l; exact L).
    destruct stop.
    - inversion El; subst. exists l. exact L.
    - destruct (post_poll_frame _ _ _ _ _ _ _ _ HpW Eg) as (_ & O4 & _).
      assert (Hp4 : objects w4 !! p = Some o) by now rewrite O4.
      destruct (post_while_frame _ _ _ _ _ _ _ _ _ _ Hp4 El) as ((l2 & L2 & _) & _).
      exists (l ++ l2). rewrite L2, L, <- app_assoc. reflexivity. }
  assert (Hjoin : forall w3 l l',
            log w3 = log W ++
              Sent (S (length (replies w))) "GET"
                (self_url +:+ "/" +:+ "sdapi/v1/progress") None :: l ->
            log w' = log w3 ++ l' ->
            exists rest,
              log w' = log w ++
                Sent (length (replies w)) "POST" (self_url +:+ "/" +:+ op) (Some data) ::
                Sent (S (length (replies w))) "GET"
                  (self_url +:+ "/" +:+ "sdapi/v1/progress") None :: rest).
  { intros w3 l l' L3 L'. exists (l ++ l').
    rewrite L', L3, LW, <- !app_assoc. reflexivity. }
  apply cbind_inv in E as [(u & s2 & w2 & El & E) | [(e & El & ->) | (El & ->)]];
    apply cbind_inv in El as [(u1 & s3 & w3 & El & Ef) | [(e' & El & Ee) | (El & Ee)]];
    try discriminate;
    destruct (Hloop _ _ _ El) as (l & L3);
    try (apply (Hjoin _ l [] L3); now rewrite app_nil_r).
  - destruct (post_while_frame _ _ _ _ _ _ _ _ _ _ HpW El) as (_ & O3).
    unfold Loop.call in Ef. rewrite (finish_spec p o w3) in Ef by (now rewrite O3).
    inversion Ef; subst; clear Ef.
    destruct (await_frame _ _ _ _ _ _ E) as (L4 & _).
    apply (Hjoin _ l [Called (callback o) (Float.add (offset o) (scale o))] L3).
    rewrite L4. reflexivity.
  - destruct (post_while_frame _ _ _ _ _ _ _ _ _ _ HpW El) as (_ & O3).
    unfold Loop.call in Ef. rewrite (finish_spec p o w3) in Ef by (now rewrite O3).
    discriminate.
  - destruct (post_while_frame _ _ _ _ _ _ _ _ _ _ HpW El) as (_ & O3).
    unfold Loop.call in Ef. rewrite (finish_spec p o w3) in Ef by (now rewrite O3).
    discriminate.
Qed.

(** X15: a progress poll that fails aborts the operation.  When the reply
    to the first poll completes with an error, [_post] raises the
    classification of that reply; the callback has not been invoked, not
    even by [finish()], and the scope is as it was. *)
Theorem post_poll_failure_aborts (op : string) (data : json) (p : ref)
    (ev : completion) (rest : schedule) (w : world) :
  ev_reply ev = S (length (replies w)) ->
  ev_error ev <> NoError ->
  exists e w',
    NetworkError.from_reply
      (MkReply (self_url +:+ "/" +:+ "sdapi/v1/progress") true
         (ev_error ev) (ev_errorString ev) (ev_body ev)) = Ok e /\
    Auto1111._post self_url op data (Some p) ([ev] :: rest) w =
      (Raised (NetError e), rest, w') /\
    log w' = log w ++
      [Sent (length (replies w)) "POST" (self_url +:+ "/" +:+ op) (Some data);
       Sent (S (length (replies w))) "GET" (self_url +:+ "/" +:+ "sdapi/v1/progress") None] /\
    objects w' = objects w.
Proof.
  intros Hh He.
  set (W := registered "POST" (self_url +:+ "/" +:+ op) (Some data) w).
  set (u := self_url +:+ "/" +:+ "sdapi/v1/progress").
  assert (HhW : ev_reply ev = length (replies W))
    by (unfold W; now rewrite registered_replies_length).
  destruct (proj2 (deliver_registered "GET" u None W ev HhW) He) as (e & Ee & S).
  exists e, (Loop.deliver_all [ev] (registered "GET" u None W)).
  split; [exact Ee|]. split; [|split].
  - assert (Hget : Auto1111._get self_url "sdapi/v1/progress" ([ev] :: rest) W =
                     (Raised (NetError e), rest,
                      Loop.deliver_all [ev] (registered "GET" u None W))).
    { unfold Auto1111._get, Loop.cbind, Loop.call. rewrite get_spec. fold u.
      unfold Loop.await. rewrite registered_state. cbn [Loop.settled Loop.wait].
      now rewrite S. }
    unfold Auto1111._post.
    rewrite (cbind_returned _ _ _ _ (length (futures w)) ([ev] :: rest) W)
      by (unfold Loop.call; now rewrite post_spec).
    apply cbind_raised. apply cbind_raised.
    cbn [Auto1111._post_while]. unfold W at 1. rewrite registered_done. fold W.
    apply cbind_raised. unfold Auto1111._post_poll. apply cbind_raised. exact Hget.
  - destruct (deliver_all_frame [ev] (registered "GET" u None W)) as (L & _).
    rewrite L. unfold registered at 1. cbn [log emit set_requests set_futures set_replies].
    change (log (RequestManager._cleanup W)) with (log W).
    change (replies (RequestManager._cleanup W)) with (replies W).
    unfold W at 2. rewrite registered_replies_length.
    unfold W, registered. cbn [log emit set_requests set_futures set_replies].
    change (log (RequestManager._cleanup w)) with (log w).
    change (replies (RequestManager._cleanup w)) with (replies w).
    now rewrite <- app_assoc.
  - destruct (deliver_all_frame [ev] (registered "GET" u None W)) as (_ & O).
    rewrite O. reflexivity.
Qed.

End Polling.

Lemma get_sends_once_witness :
  let run := Auto1111._get (J := Demo.json_lib) Demo.base_url "sdapi/v1/progress"
               [[MkCompletion 0%nat NoError "" Demo.body_progress_half]] empty_world in
  log (snd run) = [Sent 0%nat "GET" "http://127.0.0.1:7860/sdapi/v1/progress" None] /\
  fst (fst run) = Returned Demo.data_progress_half.
Proof.
  cbv zeta.
  destruct (get_sends_once (J := Demo.json_lib) Demo.base_url "sdapi/v1/progress"
              [[MkCompletion 0%nat NoError "" Demo.body_progress_half]] empty_world
              _ _ _ ltac:(vm_compute; reflexivity)) as (L & _ & _).
  split; [exact L | vm_compute; reflexivity].
Defined.

Lemma post_polls_at_least_once_witness :
  exists rest,
    log (snd (Auto1111._post (J := Demo.json_lib) Demo.base_url "sdapi/v1/txt2img"
                (JObj []) (Some 0%nat) [] (Demo.scope_world Demo.scope_root))) =
      Sent 0%nat "POST" (Demo.base_url +:+ "/" +:+ "sdapi/v1/txt2img") (Some (JObj [])) ::
      Sent 1%nat "GET" (Demo.base_url +:+ "/" +:+ "sdapi/v1/progress") None :: rest.
Proof.
  exact (post_polls_at_least_once (J := Demo.json_lib) Demo.base_url "sdapi/v1/txt2img"
           (JObj []) 0%nat Demo.scope_root [] (Demo.scope_world Demo.scope_root)
           _ _ _ eq_refl ltac:(vm_compute; reflexivity)).
Defined.

Lemma post_poll_failure_aborts_witness :
  exists e w',
    Auto1111._post (J := Demo.json_lib) Demo.base_url "sdapi/v1/txt2img" (JObj [])
      (Some 0%nat) [[MkCompletion 1%nat 302 "Bad Gateway" Demo.body_html]]
      (Demo.scope_world Demo.scope_root) =
      (Raised (NetError e), [], w') /\
    objects w' = [Demo.scope_root].
Proof.
  destruct (post_poll_failure_aborts (J := Demo.json_lib) Demo.base_url
              "sdapi/v1/txt2img" (JObj []) 0%nat
              (MkCompletion 1%nat 302 "Bad Gateway" Demo.body_html) []
              (Demo.scope_world Demo.scope_root) eq_refl ltac:(discriminate))
    as (e & w' & _ & E & _ & O).
  exists e, w'. split; [exact E | exact O].
Defined.

(** ** The tracker, refused calls *)

(** X16: [request] refuses a method other than ["GET"] and ["POST"] with
    [AssertionError], and a ["POST"] without data with [UnboundLocalError]
    (the bytes to send were never bound).  In both cases the sweep of the
    dict has taken place, but nothing has been sent, no future has been
    created and no entry has been added. *)
Theorem request_refuses (method u : string) (data : option json) (w : world) :
  (String.eqb method "GET" = false -> String.eqb method "POST" = false ->
   RequestManager.request method u data w =
     (Raise AssertionError, RequestManager._cleanup w)) /\
  (RequestManager.request "POST" u None w =
     (Raise UnboundLocalError, RequestManager._cleanup w)) /\
  log (RequestManager._cleanup w) = log w /\
  futures (RequestManager._cleanup w) = futures w /\
  replies (RequestManager._cleanup w) = replies w /\
  (forall h q, _requests (RequestManager._cleanup w) !! h = Some q ->
               _requests w !! h = Some q).
Proof.
  split; [|split; [|split; [|split; [|split]]]]; try reflexivity.
  - intros E1 E2. unfold RequestManager.request. now rewrite E1, E2.
  - intros h q. rewrite cleanup_lookup.
    destruct (Net.is_finished w h); [discriminate | auto].
Qed.

Lemma request_refuses_witness :
  RequestManager.request "PUT" "http://127.0.0.1:7860/sdapi/v1/txt2img" (Some (JObj []))
    Demo.tracker_world =
    (Raise AssertionError, RequestManager._cleanup Demo.tracker_world).
Proof.
  exact (proj1 (request_refuses "PUT" "http://127.0.0.1:7860/sdapi/v1/txt2img"
                  (Some (JObj [])) Demo.tracker_world) eq_refl eq_refl).
Defined.

(** ** [connect] *)

Section Connect.
Context {J : JsonLib}.

Lemma upscaler_names_of_filter (us names : list json) :
  Auto1111.upscaler_names_of us = Ok names <->
  exists all,
    Forall2 (fun u n => Py.getitem u "name" = Ok n) us all /\
    names = List.filter (fun n => negb (Py.is_str n "None")) all.
Proof.
  revert names. induction us as [|u us IH]; intros names; cbn.
  - split.
    + intros E. inversion E. exists []. split; [constructor | reflexivity].
    + intros (all & F & ->). inversion F. reflexivity.
  - destruct (Py.getitem u "name") as [n|e] eqn:En; cbn.
    + split.
      * destruct (negb (Py.is_str n "None")) eqn:Ec.
        -- destruct (Auto1111.upscaler_names_of us) as [tl|] eqn:Et; cbn; [|discriminate].
           intros E. inversion E; subst.
           destruct (proj1 (IH tl) eq_refl) as (all & F & ->).
           exists (n :: all). split; [now constructor|]. cbn. now rewrite Ec.
        -- intros E. destruct (proj1 (IH names) E) as (all & F & ->).
           exists (n :: all). split; [now constructor|]. cbn. now rewrite Ec.
      * intros (all & F & ->). inversion F as [|u0 n0 us0 all0 Hn F0]; subst.
        rewrite En in Hn. inversion Hn; subst. cbn.
        destruct (negb (Py.is_str n0 "None")).
        -- rewrite (proj2 (IH _) (ex_intro _ all0 (conj F0 eq_refl))). reflexivity.
        -- apply IH. eauto.
    + split; [discriminate|].
      intros (all & F & _). inversion F as [|u0 n0 us0 all0 Hn F0]; subst.
      rewrite En in Hn. discriminate.
Qed.

(** X17: [connect] asks the instance at [url] for [sdapi/v1/upscalers] and
    stores the names of the upscalers in the order of the reply, without
    the entries named ["None"]: when the reply completes without error
    and parses to a list whose elements all have a ["name"], [connect]
    returns the instance of that url with those names, and has sent the
    one [GET]. *)
Theorem connect_lists_upscalers (url : string) (ev : completion) (rest : schedule)
    (w : world) (us all : list json) :
  ev_reply ev = length (replies w) ->
  ev_error ev = NoError ->
  json_loads (ev_body ev) = Some (JList us) ->
  Forall2 (fun u n => Py.getitem u "name" = Ok n) us all ->
  let names := List.filter (fun n => negb (Py.is_str n "None")) all in
  Forall (fun n => n <> JStr "None") names /\
  exists w',
    Auto1111.connect url ([ev] :: rest) w = (Returned (url, names), rest, w') /\
    log w' = log w ++
      [Sent (length (replies w)) "GET" (url +:+ "/" +:+ "sdapi/v1/upscalers") None].
Proof.
  intros Hh He Hb Hall. cbv zeta. split.
  - apply Forall_forall. intros n Hin.
    apply list_elem_of_In, filter_In in Hin as [_ Hn].
    intros ->. discriminate.
  - set (u := url +:+ "/" +:+ "sdapi/v1/upscalers").
    set (W := registered "GET" u None w).
    pose proof (proj1 (deliver_registered "GET" u None w ev Hh) He _ Hb) as S.
    exists (Loop.deliver_all [ev] W). split.
    + assert (Hget : Auto1111._get url "sdapi/v1/upscalers" ([ev] :: rest) w =
                       (Returned (JList us), rest, Loop.deliver_all [ev] W)).
      { unfold Auto1111._get, Loop.cbind, Loop.call. rewrite get_spec. fold u. fold W.
        unfold Loop.await. unfold W at 1. rewrite registered_state. fold W.
        cbn [Loop.settled Loop.wait]. fold W in S. now rewrite S. }
      unfold Auto1111.connect. rewrite (cbind_returned _ _ _ _ _ _ _ Hget).
      unfold Auto1111.upscaler_names. cbn [PyIter.iter bind].
      rewrite (proj2 (upscaler_names_of_filter us _) (ex_intro _ all (conj Hall eq_refl))).
      reflexivity.
    + destruct (deliver_all_frame [ev] W) as (L & _). rewrite L. reflexivity.
Qed.

End Connect.

Lemma connect_lists_upscalers_witness :
  exists w',
    Auto1111.connect (J := Demo2.json_lib) Auto1111.default_url
      [[MkCompletion 0%nat NoError "" Demo2.body_upscalers]] empty_world =
      (Returned (Auto1111.default_url, [JStr "Lanczos"; JStr "ESRGAN_4x"]), [], w').
Proof.
  destruct (connect_lists_upscalers (J := Demo2.json_lib) Auto1111.default_url
              (MkCompletion 0%nat NoError "" Demo2.body_upscalers) [] empty_world
              [JObj [("name", JStr "None")];
               JObj [("name", JStr "Lanczos")];
               JObj [("name", JStr "ESRGAN_4x")]]
              [JStr "None"; JStr "Lanczos"; JStr "ESRGAN_4x"]
              eq_refl eq_refl eq_refl ltac:(repeat constructor))
    as (_ & w' & E & _).
  exists w'. exact E.
Defined.

(** ** The workflow builder *)

Section Workflow.
Context {R : PyRuntime}.

Lemma numbered_init : numbered ComfyWorkflow.__init__.
Proof.
  split; [cbn; lia|]. intros k. cbn. split.
  - intros [v Hv]. rewrite lookup_empty in Hv. discriminate.
  - intros (i & Hi & _). lia.
Qed.

Lemma numbered_fresh (self : ComfyWorkflow.t) :
  numbered self ->
  ComfyWorkflow.root self !! pretty (ComfyWorkflow.node_count self + 1) = None.
Proof.
  intros [Hn Hk]. apply eq_None_not_Some. intros Hs.
  apply Hk in Hs as (i & Hi & Heq). apply (inj pretty) in Heq. lia.
Qed.

Lemma add_numbered (ct : string) (oc : Z) (inputs : list (string * value))
    (self : ComfyWorkflow.t) :
  numbered self -> numbered (snd (ComfyWorkflow.add ct oc inputs self)).
Proof.
  intros [Hn Hk]. unfold ComfyWorkflow.add. cbn [snd]. split; [cbn; lia|].
  intros k. cbn [ComfyWorkflow.root ComfyWorkflow.node_count].
  destruct (decide (k = pretty (ComfyWorkflow.node_count self + 1))) as [->|Hne].
  - rewrite lookup_insert_eq. split; [|eauto].
    intros _. exists (ComfyWorkflow.node_count self + 1). split; [lia | reflexivity].
  - rewrite lookup_insert_ne by congruence. rewrite Hk. split.
    + intros (i & Hi & ->). exists i. split; [lia | reflexivity].
    + intros (i & Hi & ->). exists i. split; [|reflexivity].
      destruct (decide (i = ComfyWorkflow.node_count self + 1)) as [->|]; [|lia].
      contradiction.
Qed.

Lemma add_size (ct : string) (oc : Z) (inputs : list (string * value))
    (self : ComfyWorkflow.t) :
  numbered self ->
  size (ComfyWorkflow.root (snd (ComfyWorkflow.add ct oc inputs self))) =
    S (size (ComfyWorkflow.root self)).
Proof.
  intros Hnum. unfold ComfyWorkflow.add. cbn [snd ComfyWorkflow.root].
  apply map_size_insert_None. now apply numbered_fresh.
Qed.

(** X18: [add] gives the new node the next number and never overwrites a
    node: in a workflow whose nodes are numbered [1] to [node_count], the
    key [str(node_count + 1)] is free, the node is stored under it, every
    other key is bound as before, and the nodes are again numbered [1] to
    the new [node_count].  The result is [Output(node_count + 1, 0)] when
    one output is asked for, and otherwise the tuple of the outputs [0] to
    [output_count - 1] of the new node, empty when [output_count <= 0]. *)
Theorem add_appends_node (ct : string) (oc : Z) (inputs : list (string * value))
    (self : ComfyWorkflow.t) :
  numbered self ->
  let n := ComfyWorkflow.node_count self + 1 in
  let r := fst (ComfyWorkflow.add ct oc inputs self) in
  let self' := snd (ComfyWorkflow.add ct oc inputs self) in
  numbered self' /\
  ComfyWorkflow.node_count self' = n /\
  ComfyWorkflow.root self !! pretty n = None /\
  ComfyWorkflow.root self' !! pretty n =
    Some (JObj [("class_type", JStr ct);
                ("inputs",
                 JObj (map (fun '(k, v) => (k, ComfyWorkflow.normalize v)) inputs))]) /\
  (forall k, k <> pretty n ->
     ComfyWorkflow.root self' !! k = ComfyWorkflow.root self !! k) /\
  (oc = 1 -> r = Single (MkOutput n 0)) /\
  (oc <> 1 ->
   r = Tuple (map (fun i => MkOutput n (Z.of_nat i)) (seq 0 (Z.to_nat oc)))) /\
  (oc <= 0 -> r = Tuple []).
Proof.
  intros Hnum. cbv zeta.
  split; [now apply add_numbered|]. split; [reflexivity|].
  split; [now apply numbered_fresh|].
  unfold ComfyWorkflow.add. cbn [fst snd ComfyWorkflow.root].
  split; [apply lookup_insert_eq|]. split.
  { intros k Hk. now rewrite lookup_insert_ne by congruence. }
  unfold ComfyWorkflow.range. split; [|split].
  - intros ->. reflexivity.
  - intros Hoc. apply Z.eqb_neq in Hoc. rewrite Hoc. now rewrite map_map.
  - intros Hoc. destruct (Z.eqb_spec oc 1) as [->|_]; [lia|].
    now replace (Z.to_nat oc) with 0%nat by lia.
Qed.

Lemma add_cached_numbered (ct : string) (oc : Z) (inputs : list (string * value))
    (self : ComfyWorkflow.t) :
  numbered self -> numbered (snd (ComfyWorkflow.add_cached ct oc inputs self)).
Proof.
  intros Hnum. unfold ComfyWorkflow.add_cached.
  destruct (ComfyWorkflow._cache self !! (ct +:+ str_inputs inputs)); [exact Hnum|].
  pose proof (add_numbered ct oc inputs self Hnum) as K.
  destruct (ComfyWorkflow.add ct oc inputs self) as [r s']. exact K.
Qed.

Lemma add_cached_size (ct : string) (oc : Z) (inputs : list (string * value))
    (self : ComfyWorkflow.t) :
  numbered self ->
  size (ComfyWorkflow.root (snd (ComfyWorkflow.add_cached ct oc inputs self))) =
    match ComfyWorkflow._cache self !! (ct +:+ str_inputs inputs) with
    | Some _ => size (ComfyWorkflow.root self)
    | None => S (size (ComfyWorkflow.root self))
    end.
Proof.
  intros Hnum. unfold ComfyWorkflow.add_cached.
  destruct (ComfyWorkflow._cache self !! (ct +:+ str_inputs inputs)); [reflexivity|].
  pose proof (add_size ct oc inputs self Hnum) as K.
  destruct (ComfyWorkflow.add ct oc inputs self) as [r s']. exact K.
Qed.

Lemma add_cached_count (ct : string) (oc : Z) (inputs : list (string * value))
    (self : ComfyWorkflow.t) :
  ComfyWorkflow.node_count (snd (ComfyWorkflow.add_cached ct oc inputs self)) =
    match ComfyWorkflow._cache self !! (ct +:+ str_inputs inputs) with
    | Some _ => ComfyWorkflow.node_count self
    | None => ComfyWorkflow.node_count self + 1
    end.
Proof.
  unfold ComfyWorkflow.add_cached.
  destruct (ComfyWorkflow._cache self !! (ct +:+ str_inputs inputs)); reflexivity.
Qed.

(** X19: however a workflow was built by [add] and [add_cached], its nodes
    are the keys [str(1)] to [str(node_count)], one node per number:
    [root] has exactly [node_count] entries. *)
Theorem workflow_nodes_counted (ops : list workflow_op) :
  let self := workflow_run ops ComfyWorkflow.__init__ in
  numbered self /\
  Z.of_nat (size (ComfyWorkflow.root self)) = ComfyWorkflow.node_count self.
Proof.
  cbv zeta.
  assert (H : forall s0,
            numbered s0 /\
            Z.of_nat (size (ComfyWorkflow.root s0)) = ComfyWorkflow.node_count s0 ->
            numbered (workflow_run ops s0) /\
            Z.of_nat (size (ComfyWorkflow.root (workflow_run ops s0))) =
              ComfyWorkflow.node_count (workflow_run ops s0)).
  { induction ops as [|op ops IH]; intros s0 Hs0; [exact Hs0|].
    unfold workflow_run in *. cbn [fold_left]. apply IH. destruct Hs0 as [Hnum Hsz].
    destruct op as [ct oc inputs | ct oc inputs]; cbn [workflow_step].
    - split; [now apply add_numbered|]. rewrite add_size by exact Hnum.
      unfold ComfyWorkflow.add. cbn. lia.
    - split; [now apply add_cached_numbered|].
      rewrite add_cached_size by exact Hnum. rewrite add_cached_count.
      destruct (ComfyWorkflow._cache s0 !! (ct +:+ str_inputs inputs)); lia. }
  apply H. split; [apply numbered_init | reflexivity].
Qed.

Lemma cache_kept (op : workflow_op) (self : ComfyWorkflow.t) (key : string) (r : outputs) :
  ComfyWorkflow._cache self !! key = Some r ->
  ComfyWorkflow._cache (workflow_step op self) !! key = Some r.
Proof.
  intros Hk. destruct op as [ct oc inputs | ct oc inputs]; cbn [workflow_step].
  - exact Hk.
  - unfold ComfyWorkflow.add_cached.
    destruct (ComfyWorkflow._cache self !! (ct +:+ str_inputs inputs)) eqn:E; [exact Hk|].
    cbn. rewrite lookup_insert_ne; [exact Hk|]. intros <-. congruence.
Qed.

(** X20: [add_cached] adds a node once per class type and arguments.  After
    a call, every later call with the same class type and the same
    arguments, whatever happened to the workflow in between and whatever
    [output_count] it asks for, returns the outputs of the first call and
    leaves the workflow as it is. *)
Theorem add_cached_once (ct : string) (oc oc' : Z) (inputs : list (string * value))
    (self : ComfyWorkflow.t) (between : list workflow_op) :
  let r := fst (ComfyWorkflow.add_cached ct oc inputs self) in
  let later := workflow_run between (snd (ComfyWorkflow.add_cached ct oc inputs self)) in
  ComfyWorkflow.add_cached ct oc' inputs later = (r, later).
Proof.
  cbv zeta.
  assert (H0 : ComfyWorkflow._cache (snd (ComfyWorkflow.add_cached ct oc inputs self)) !!
                 (ct +:+ str_inputs inputs) =
               Some (fst (ComfyWorkflow.add_cached ct oc inputs self))).
  { unfold ComfyWorkflow.add_cached.
    destruct (ComfyWorkflow._cache self !! (ct +:+ str_inputs inputs)) eqn:E; [exact E|].
    cbn. apply lookup_insert_eq. }
  revert H0. generalize (snd (ComfyWorkflow.add_cached ct oc inputs self)) as s1.
  generalize (fst (ComfyWorkflow.add_cached ct oc inputs self)) as r.
  intros r s1 H0.
  assert (H : ComfyWorkflow._cache (workflow_run between s1) !!
                (ct +:+ str_inputs inputs) = Some r).
  { revert s1 H0. induction between as [|op ops IH]; intros s1 H0; [exact H0|].
    unfold workflow_run in *. cbn [fold_left]. apply IH. now apply cache_kept. }
  unfold ComfyWorkflow.add_cached at 1. now rewrite H.
Qed.

(** X21: [scale_mask] adds three nodes in a chain and returns the output
    of the last one: [MaskToImage] on the mask, [ImageScale] to the extent
    on the output of the first, bilinear and without cropping, and
    [ImageToMask] of the red channel on the output of the second; the other
    nodes of the workflow are untouched. *)
Theorem scale_mask_chain (mask : value) (e : Extent) (self : ComfyWorkflow.t) :
  let n := ComfyWorkflow.node_count self in
  let r := fst (ComfyWorkflow.scale_mask mask e self) in
  let self' := snd (ComfyWorkflow.scale_mask mask e self) in
  r = Single (MkOutput (n + 3) 0) /\
  ComfyWorkflow.node_count self' = n + 3 /\
  ComfyWorkflow.root self' !! pretty (n + 1) =
    Some (JObj [("class_type", JStr "MaskToImage");
                ("inputs", JObj [("mask", ComfyWorkflow.normalize mask)])]) /\
  ComfyWorkflow.root self' !! pretty (n + 2) =
    Some (JObj [("class_type", JStr "ImageScale");
                ("inputs",
                 JObj [("image", JList [JStr (pretty (n + 1)); JInt 0]);
                       ("width", JInt (width e));
                       ("height", JInt (height e));
                       ("upscale_method", JStr "bilinear");
                       ("crop", JStr "disabled")])]) /\
  ComfyWorkflow.root self' !! pretty (n + 3) =
    Some (JObj [("class_type", JStr "ImageToMask");
                ("inputs",
                 JObj [("image", JList [JStr (pretty (n + 2)); JInt 0]);
                       ("channel", JStr "red")])]) /\
  (forall k, k <> pretty (n + 1) -> k <> pretty (n + 2) -> k <> pretty (n + 3) ->
     ComfyWorkflow.root self' !! k = ComfyWorkflow.root self !! k) /\
  ComfyWorkflow._cache self' = ComfyWorkflow._cache self.
Proof.
  cbv zeta. unfold ComfyWorkflow.scale_mask, ComfyWorkflow.mask_to_image,
    ComfyWorkflow.scale_image, ComfyWorkflow.image_to_mask, ComfyWorkflow.add.
  cbn [fst snd ComfyWorkflow.root ComfyWorkflow.node_count ComfyWorkflow._cache
       ComfyWorkflow.sample_count ComfyWorkflow.as_value map ComfyWorkflow.normalize
       node output Z.eqb Pos.eqb hd ComfyWorkflow.range Z.to_nat Pos.to_nat
       Pos.iter_op seq Z.of_nat].
  set (n := ComfyWorkflow.node_count self).
  replace (n + 1 + 1) with (n + 2) by lia.
  replace (n + 2 + 1) with (n + 3) by lia.
  assert (N12 : pretty (n + 1) <> pretty (n + 2))
    by (intros K; apply (inj pretty) in K; lia).
  assert (N13 : pretty (n + 1) <> pretty (n + 3))
    by (intros K; apply (inj pretty) in K; lia).
  assert (N23 : pretty (n + 2) <> pretty (n + 3))
    by (intros K; apply (inj pretty) in K; lia).
  split; [reflexivity|]. split; [reflexivity|]. split; [|split; [|split; [|split]]].
  - rewrite lookup_insert_ne by congruence. rewrite lookup_insert_ne by congruence.
    apply lookup_insert_eq.
  - rewrite lookup_insert_ne by congruence. apply lookup_insert_eq.
  - apply lookup_insert_eq.
  - intros k K1 K2 K3. now rewrite !lookup_insert_ne by congruence.
  - reflexivity.
Qed.

(** X22: [ksampler] adds [steps] to [sample_count] and exactly one node,
    under the next number, whose output it returns; the cache and the other
    nodes are untouched.  The node is a [KSampler] with the ten inputs of
    the call in the order of the call: the arguments that are outputs of
    other nodes are stored as references [[str(node), output]], the sampler,
    the scheduler, the steps, [cfg] and [denoise] as they come.  A seed
    other than [-1] is stored as it is and the generator is not asked; for
    the seed [-1] the node stores the next 64 bits of the generator, a number
    from [0] to [2^64 - 1], and the generator has moved on by one draw, so
    that the next call takes the draw after it. *)
Theorem ksampler_node (model positive negative latent_image : Output)
    (sampler scheduler : string) (steps : Z) (cfg denoise : json) (seed : Z)
    (self : ComfyWorkflow.t) (rng : random_state) :
  let n := ComfyWorkflow.node_count self + 1 in
  let run := ComfyWorkflow.ksampler (VOutput model) (VOutput positive) (VOutput negative)
               (VOutput latent_image) sampler scheduler steps
               (VOther cfg) (VOther denoise) seed self rng in
  let self' := snd (fst run) in
  let ref (o : Output) := JList [JStr (pretty (node o)); JInt (output o)] in
  exists stored : Z,
    fst (fst run) = Single (MkOutput n 0) /\
    ComfyWorkflow.sample_count self' = ComfyWorkflow.sample_count self + steps /\
    ComfyWorkflow.node_count self' = n /\
    ComfyWorkflow._cache self' = ComfyWorkflow._cache self /\
    ComfyWorkflow.root self' !! pretty n =
      Some (JObj [("class_type", JStr "KSampler");
                  ("inputs",
                   JObj [("seed", JInt stored);
                         ("sampler_name", JStr sampler);
                         ("scheduler", JStr scheduler);
                         ("model", ref model);
                         ("positive", ref positive);
                         ("negative", ref negative);
                         ("latent_image", ref latent_image);
                         ("steps", JInt steps);
                         ("cfg", cfg);
                         ("denoise", denoise)])]) /\
    (forall k, k <> pretty n ->
       ComfyWorkflow.root self' !! k = ComfyWorkflow.root self !! k) /\
    (seed <> -1 -> stored = seed /\ snd run = rng) /\
    (seed = -1 ->
     stored = rng 0%nat mod 2 ^ 64 /\ 0 <= stored < 2 ^ 64 /\
     snd run = fun i => rng (S i)).
Proof.
  cbv zeta. unfold ComfyWorkflow.ksampler.
  destruct (seed =? -1) eqn:Es.
  - apply Z.eqb_eq in Es. subst seed. unfold getrandbits.
    exists (rng 0%nat mod 2 ^ 64). unfold ComfyWorkflow.add.
    cbn [fst snd ComfyWorkflow.root ComfyWorkflow.node_count ComfyWorkflow.sample_count
         ComfyWorkflow._cache map ComfyWorkflow.normalize].
    split; [reflexivity|]. split; [reflexivity|]. split; [reflexivity|].
    split; [reflexivity|]. split; [apply lookup_insert_eq|].
    split; [intros k Hk; now rewrite lookup_insert_ne by congruence|].
    split; [intros Hs; contradiction|]. intros _.
    split; [reflexivity|]. split; [|reflexivity].
    apply Z.mod_pos_bound. lia.
  - apply Z.eqb_neq in Es. exists seed. unfold ComfyWorkflow.add.
    cbn [fst snd ComfyWorkflow.root ComfyWorkflow.node_count ComfyWorkflow.sample_count
         ComfyWorkflow._cache map ComfyWorkflow.normalize].
    split; [reflexivity|]. split; [reflexivity|]. split; [reflexivity|].
    split; [reflexivity|]. split; [apply lookup_insert_eq|].
    split; [intros k Hk; now rewrite lookup_insert_ne by congruence|].
    split; [intros _; split; reflexivity|]. intros Hs. contradiction.
Qed.

End Workflow.

Lemma add_appends_node_witness :
  let run := ComfyWorkflow.add "LoraLoader" 2 [("lora_name", VOther (JStr "style"))]
               ComfyWorkflow.__init__ in
  fst run = Tuple [MkOutput 1 0; MkOutput 1 1] /\
  ComfyWorkflow.node_count (snd run) = 1.
Proof.
  pose proof (add_appends_node "LoraLoader" 2 [("lora_name", VOther (JStr "style"))]
                ComfyWorkflow.__init__ numbered_init) as (_ & Hc & _ & _ & _ & _ & Hr & _).
  split; [exact (Hr ltac:(lia)) | exact Hc].
Defined.

Lemma add_cached_once_witness :
  let first := ComfyWorkflow.load_checkpoint (R := Demo4.runtime) (VOther (JStr "sd15"))
                 ComfyWorkflow.__init__ in
  let later := workflow_run (R := Demo4.runtime)
                 [OpAddCached "VAELoader" 1 [("vae_name", VOther (JStr "ema"))];
                  OpAdd "EmptyLatentImage" 1 []] (snd first) in
  fst first = Tuple [MkOutput 1 0; MkOutput 1 1; MkOutput 1 2] /\
  ComfyWorkflow.node_count later = 3 /\
  ComfyWorkflow.load_checkpoint (R := Demo4.runtime) (VOther (JStr "sd15")) later =
    (fst first, later).
Proof.
  cbv zeta. split; [reflexivity|]. split; [reflexivity|].
  exact (add_cached_once (R := Demo4.runtime) "CheckpointLoaderSimple" 3 3
           [("ckpt_name", VOther (JStr "sd15"))] ComfyWorkflow.__init__
           [OpAddCached "VAELoader" 1 [("vae_name", VOther (JStr "ema"))];
            OpAdd "EmptyLatentImage" 1 []]).
Defined.

(** ** The first progress status *)

Section FirstStatus.
Context {J : JsonLib}.
Variable self_url : string.

Lemma deliver_all_one (ev : completion) (w : world) :
  Loop.deliver_all [ev] w = Loop.deliver ev w.
Proof. reflexivity. Qed.

Lemma finished_replies (h : handle) (reply : Reply) (w : world) :
  replies (snd (RequestManager._finished h reply w)) = replies w.
Proof.
  unfold RequestManager._finished.
  destruct (_requests w !! h) as [q|]; [|reflexivity]. cbv zeta.
  destruct (Future.cancelled w (future q)); [reflexivity|].
  destruct (error reply =? NoError).
  - destruct (json_loads (body reply)); [|reflexivity].
    unfold Future.set_result. now destruct (Future.state w (future q)).
  - destruct (NetworkError.from_reply reply); [|reflexivity].
    unfold Future.set_exception. now destruct (Future.state w (future q)).
Qed.

(** The completion of the reply just registered, delivered alone: the
    other futures and the number of replies are as before. *)
Lemma deliver_registered_others (method u : string) (data : option json) (w : world)
    (ev : completion) :
  ev_reply ev = length (replies w) ->
  let W := registered method u data w in
  length (replies (Loop.deliver_all [ev] W)) = S (length (replies w)) /\
  forall g, g <> length (futures w) ->
            Future.state (Loop.deliver_all [ev] W) g = Future.state W g.
Proof.
  intros Hh. cbv zeta. set (W := registered method u data w).
  assert (Hr : replies W !! ev_reply ev = Some (MkReply u false NoError "" "")).
  { rewrite Hh. cbn. rewrite lookup_app_r by lia. now rewrite Nat.sub_diag. }
  rewrite (deliver_all_one ev W), (deliver_unfinished ev _ W Hr eq_refl).
  cbv zeta. cbn [reply_url].
  set (reply := MkReply u true (ev_error ev) (ev_errorString ev) (ev_body ev)).
  set (W1 := set_replies (<[ev_reply ev := reply]> (replies W)) W).
  assert (Hq : _requests W1 !! ev_reply ev = Some (MkRequest u (length (futures w)))).
  { rewrite Hh. cbn. apply lookup_insert_eq. }
  pose proof (finished_replies (ev_reply ev) reply W1) as Kr.
  split.
  - assert (Hlen : length (replies W1) = S (length (replies w))).
    { unfold W1. cbn [replies set_replies]. rewrite length_insert.
      apply registered_replies_length. }
    destruct (RequestManager._finished (ev_reply ev) reply W1) as [[x|e] w2];
      cbn [snd] in Kr; cbn [replies escape]; now rewrite Kr.
  - intros g Hg.
    pose proof (finished_other_futures (ev_reply ev) reply _ W1 g Hq Hg) as K.
    destruct (RequestManager._finished (ev_reply ev) reply W1) as [[x|e] w2]; exact K.
Qed.

Lemma post_while_polls_first (fuel : nat) (request : fut) (p : ref) (o : ProgressObj)
    s w out s' w' :
  objects w !! p = Some o ->
  Future.done w request = false ->
  Auto1111._post_while self_url (S fuel) request p s w = (out, s', w') ->
  exists l,
    log w' = log w ++
      Sent (length (replies w)) "GET" (self_url +:+ "/" +:+ "sdapi/v1/progress") None :: l.
Proof.
  intros Hp Hd El. cbn [Auto1111._post_while] in El. rewrite Hd in El.
  apply cbind_inv in El as [(stop & s4 & w4 & Eg & El) | [(e & Eg & ->) | (Eg & ->)]];
    destruct (post_poll_first _ _ _ _ _ _ _ Eg) as (l & L);
    try (exists l; exact L).
  destruct stop.
  - inversion El; subst. exists l. exact L.
  - destruct (post_poll_frame _ _ _ _ _ _ _ _ Hp Eg) as (_ & O4 & _).
    assert (Hp4 : objects w4 !! p = Some o) by now rewrite O4.
    destruct (post_while_frame _ _ _ _ _ _ _ _ _ _ Hp4 El) as ((l2 & L2 & _) & _).
    exists (l ++ l2). rewrite L2, L, <- app_assoc. reflexivity.
Qed.

(** X23: what [_post] does with the first progress status.  When the
    status says [progress >= 1], the loop stops asking although the request
    is not done: [finish()] follows at once, and nothing is sent any more.
    When the status says a progress above [0] and below [1], the callback
    is invoked with [offset + scale * progress] and, the request being
    still pending, the progress is asked for again. *)
Theorem post_first_status (op : string) (data : json) (p : ref) (o : ProgressObj)
    (ev : completion) (rest : schedule) (w : world) (status v : json)
    out s' w' :
  objects w !! p = Some o ->
  ev_reply ev = S (length (replies w)) ->
  ev_error ev = NoError ->
  json_loads (ev_body ev) = Some status ->
  Py.getitem status "progress" = Ok v ->
  Auto1111._post self_url op data (Some p) ([ev] :: rest) w = (out, s', w') ->
  let posted := Sent (length (replies w)) "POST" (self_url +:+ "/" +:+ op) (Some data) in
  let asked h := Sent h "GET" (self_url +:+ "/" +:+ "sdapi/v1/progress") None in
  (Py.ge_int v 1 = Ok true ->
   log w' = log w ++
     [posted; asked (S (length (replies w)));
      Called (callback o) (Float.add (offset o) (scale o))]) /\
  (Py.ge_int v 1 = Ok false -> Py.gt_int v 0 = Ok true ->
   forall n, Py.as_number v = Ok n ->
   exists l,
     log w' = log w ++
       posted :: asked (S (length (replies w))) ::
       Called (callback o) (Float.add (offset o) (Float.mul (scale o) (Py.to_float n))) ::
       asked (S (S (length (replies w)))) :: l).
Proof.
  intros Hp Hh He Hb Hitem E. cbv zeta.
  set (W := registered "POST" (self_url +:+ "/" +:+ op) (Some data) w).
  set (u := self_url +:+ "/" +:+ "sdapi/v1/progress").
  set (f := length (futures w)).
  assert (HhW : ev_reply ev = length (replies W))
    by (unfold W; now rewrite registered_replies_length).
  pose proof (proj1 (deliver_registered "GET" u None W ev HhW) He _ Hb) as S.
  destruct (deliver_registered_others "GET" u None W ev HhW) as (Hlen & Hoth).
  set (W2 := Loop.deliver_all [ev] (registered "GET" u None W)) in *.
  destruct (deliver_all_frame [ev] (registered "GET" u None W)) as (L2 & O2).
  fold W2 in L2, O2.
  assert (LW2 : log W2 = log w ++
            [Sent (length (replies w)) "POST" (self_url +:+ "/" +:+ op) (Some data);
             Sent (Datatypes.S (length (replies w))) "GET" u None]).
  { rewrite L2. unfold registered at 1.
    cbn [log emit set_requests set_futures set_replies].
    change (log (RequestManager._cleanup W)) with (log W).
    change (replies (RequestManager._cleanup W)) with (replies W).
    unfold W at 2. rewrite registered_replies_length.
    unfold W, registered. cbn [log emit set_requests set_futures set_replies].
    change (log (RequestManager._cleanup w)) with (log w).
    change (replies (RequestManager._cleanup w)) with (replies w).
    now rewrite <- app_assoc. }
  assert (HpW2 : objects W2 !! p = Some o) by (rewrite O2; exact Hp).
  assert (Hget : Auto1111._get self_url "sdapi/v1/progress" ([ev] :: rest) W =
                   (Returned status, rest, W2)).
  { unfold Auto1111._get, Loop.cbind, Loop.call. rewrite get_spec. fold u.
    unfold Loop.await. rewrite registered_state. cbn [Loop.settled Loop.wait].
    fold W2. now rewrite S. }
  assert (HdW : Future.done W f = false) by apply registered_done.
  unfold Auto1111._post in E.
  rewrite (cbind_returned _ _ _ _ f ([ev] :: rest) W) in E
    by (unfold Loop.call; now rewrite post_spec).
  split.
  - intros Hge.
    assert (Hpoll : Auto1111._post_poll self_url p ([ev] :: rest) W =
                      (Returned true, rest, W2)).
    { unfold Auto1111._post_poll. rewrite (cbind_returned _ _ _ _ _ _ _ Hget).
      unfold Loop.cbind, Loop.pure, Loop.call, Loop.ret. rewrite Hitem. cbn.
      now rewrite Hge. }
    assert (Hloop : Auto1111._post_while self_url (Datatypes.S (length ([ev] :: rest)))
                      f p ([ev] :: rest) W = (Returned tt, rest, W2)).
    { cbn [Auto1111._post_while]. rewrite HdW.
      now rewrite (cbind_returned _ _ _ _ _ _ _ Hpoll). }
    assert (Hfin : Loop.cbind
                     (fun s => Auto1111._post_while self_url (Datatypes.S (length s)) f p s)
                     (fun _ => Loop.call (Progress.finish p)) ([ev] :: rest) W =
                   (Returned tt, rest,
                    emit (Called (callback o) (Float.add (offset o) (scale o)))
                      (set_objects (<[p := finished_scope o]> (objects W2)) W2))).
    { unfold Loop.cbind. cbv beta. rewrite Hloop. unfold Loop.call.
      now rewrite (finish_spec p o W2 HpW2). }
    rewrite (cbind_returned _ _ _ _ _ _ _ Hfin) in E.
    destruct (await_frame _ _ _ _ _ _ E) as (L4 & _).
    rewrite L4. cbn [log emit set_objects]. rewrite LW2, <- app_assoc. reflexivity.
  - intros Hge Hgt n Hn.
    set (W3 := emit (Called (callback o)
                       (Float.add (offset o) (Float.mul (scale o) (Py.to_float n)))) W2).
    assert (Hpoll : Auto1111._post_poll self_url p ([ev] :: rest) W =
                      (Returned false, rest, W3)).
    { unfold Auto1111._post_poll. rewrite (cbind_returned _ _ _ _ _ _ _ Hget).
      unfold Loop.cbind, Loop.pure, Loop.call, Loop.ret. rewrite Hitem. cbn.
      rewrite Hge. cbn. rewrite Hgt. cbn. rewrite Hn. cbn.
      unfold Progress.__call__.
      change (Loop.deliver ev (registered "GET" u None W)) with W2.
      now rewrite HpW2. }
    assert (HpW3 : objects W3 !! p = Some o) by exact HpW2.
    assert (HdW3 : Future.done W3 f = false).
    { unfold Future.done.
      change (Future.state W3 f) with (Future.state W2 f).
      unfold W2. rewrite Hoth.
      - rewrite registered_keeps_state
          by (unfold W; rewrite registered_futures_length; unfold f; lia).
        unfold W, f. now rewrite registered_state.
      - unfold W. rewrite registered_futures_length. unfold f. lia. }
    assert (HlenW3 : length (replies W3) = Datatypes.S (Datatypes.S (length (replies w)))).
    { change (replies W3) with (replies W2). rewrite Hlen.
      unfold W. now rewrite registered_replies_length. }
    assert (LW3 : log W3 = log W2 ++
              [Called (callback o)
                 (Float.add (offset o) (Float.mul (scale o) (Py.to_float n)))])
      by reflexivity.
    assert (Hjoin : forall w3 l l',
              log w3 = log W3 ++ Sent (length (replies W3)) "GET" u None :: l ->
              log w' = log w3 ++ l' ->
              exists l0,
                log w' = log w ++
                  Sent (length (replies w)) "POST" (self_url +:+ "/" +:+ op) (Some data) ::
                  Sent (Datatypes.S (length (replies w))) "GET" u None ::
                  Called (callback o)
                    (Float.add (offset o) (Float.mul (scale o) (Py.to_float n))) ::
                  Sent (Datatypes.S (Datatypes.S (length (replies w)))) "GET" u None :: l0).
    { intros w3 l l' L3 L'. exists (l ++ l').
      rewrite L', L3, LW3, LW2, HlenW3, <- !app_assoc. reflexivity. }
    assert (Hstep : forall o1 s3 w3,
              Auto1111._post_while self_url (Datatypes.S (length ([ev] :: rest)))
                f p ([ev] :: rest) W = (o1, s3, w3) ->
              Auto1111._post_while self_url (Datatypes.S (length rest)) f p rest W3 =
                (o1, s3, w3)).
    { intros o1 s3 w3 El. cbn [Auto1111._post_while length] in El.
      rewrite HdW in El. now rewrite (cbind_returned _ _ _ _ _ _ _ Hpoll) in El. }
    apply cbind_inv in E as [(x & s2 & w2 & El & E) | [(e & El & ->) | (El & ->)]];
      apply cbind_inv in El as [(x1 & s3 & w3 & El & Ef) | [(e' & El & Ee) | (El & Ee)]];
      try discriminate;
      apply Hstep in El;
      destruct (post_while_polls_first _ _ _ _ _ _ _ _ _ HpW3 HdW3 El) as (l & L3);
      try (apply (Hjoin _ l [] L3); now rewrite app_nil_r);
      destruct (post_while_frame _ _ _ _ _ _ _ _ _ _ HpW3 El) as (_ & O3);
      unfold Loop.call in Ef; rewrite (finish_spec p o w3) in Ef by (now rewrite O3);
      try discriminate.
    inversion Ef; subst; clear Ef.
    destruct (await_frame _ _ _ _ _ _ E) as (L4 & _).
    apply (Hjoin _ l [Called (callback o) (Float.add (offset o) (scale o))] L3).
    rewrite L4. reflexivity.
Qed.

End FirstStatus.


Lemma triple_eta {A B C : Type} (x : A * B * C) :
  x = (fst (fst x), snd (fst x), snd x).
Proof. now destruct x as [[a b] c]. Defined.

Lemma post_first_status_witness :
  let w := Demo.scope_world Demo.scope_root in
  let run body :=
    Auto1111._post (J := Demo.json_lib) Demo.base_url "sdapi/v1/txt2img" (JObj [])
      (Some 0%nat) [[MkCompletion 1%nat NoError "" body]] w in
  let posted := Sent 0%nat "POST" (Demo.base_url +:+ "/" +:+ "sdapi/v1/txt2img")
                  (Some (JObj [])) in
  let asked h := Sent h "GET" (Demo.base_url +:+ "/" +:+ "sdapi/v1/progress") None in
  log (snd (run Demo.body_progress_done)) =
    [posted; asked 1%nat; Called 7%nat (Float.add Float.zero Float.one)] /\
  exists l,
    log (snd (run Demo.body_progress_half)) =
      posted :: asked 1%nat ::
      Called 7%nat (Float.add Float.zero (Float.mul Float.one Float.half)) ::
      asked 2%nat :: l.
Proof.
  cbv zeta. split.
  - exact (proj1 (post_first_status (J := Demo.json_lib) Demo.base_url
                    "sdapi/v1/txt2img" (JObj []) 0%nat Demo.scope_root
                    (MkCompletion 1%nat NoError "" Demo.body_progress_done) []
                    (Demo.scope_world Demo.scope_root)
                    Demo.data_progress_done (JFloat Float.one) _ _ _
                    eq_refl eq_refl eq_refl ltac:(vm_compute; reflexivity) eq_refl
                    (triple_eta _))
             ltac:(vm_compute; reflexivity)).
  - exact (proj2 (post_first_status (J := Demo.json_lib) Demo.base_url
                    "sdapi/v1/txt2img" (JObj []) 0%nat Demo.scope_root
                    (MkCompletion 1%nat NoError "" Demo.body_progress_half) []
                    (Demo.scope_world Demo.scope_root)
                    Demo.data_progress_half (JFloat Float.half) _ _ _
                    eq_refl eq_refl eq_refl ltac:(vm_compute; reflexivity) eq_refl
                    (triple_eta _))
             ltac:(vm_compute; reflexivity) ltac:(vm_compute; reflexivity)
             (Py.NFloat Float.half) eq_refl).
Defined.

(** ** The reply that resolves a request *)

Section ResolvedByReply.
Context {J : JsonLib}.

Lemma finished_tracker_frame (h : handle) (reply : Reply) (w : world) :
  let w' := snd (RequestManager._finished h reply w) in
  replies w' = replies w /\ _requests w' = _requests w /\
  length (futures w') = length (futures w).
Proof.
  cbv zeta. unfold RequestManager._finished.
  destruct (_requests w !! h) as [q|]; [|auto]. cbv zeta.
  destruct (Future.cancelled w (future q)); [auto|].
  destruct (error reply =? NoError).
  - destruct (json_loads (body reply)); [|auto].
    unfold Future.set_result.
    destruct (Future.state w (future q));
      cbn [snd replies _requests futures set_futures]; rewrite ?length_insert; auto.
  - destruct (NetworkError.from_reply reply); [|auto].
    unfold Future.set_exception.
    destruct (Future.state w (future q));
      cbn [snd replies _requests futures set_futures]; rewrite ?length_insert; auto.
Qed.

Lemma pending_lookup (w : world) (f : fut) :
  (f < length (futures w))%nat ->
  Future.state w f = Pending ->
  futures w !! f = Some Pending.
Proof.
  intros Hf. unfold Future.state.
  destruct (futures w !! f) as [st|] eqn:E; [now intros ->|].
  apply lookup_ge_None in E. lia.
Qed.

(** The slot on the reply of a pending request: the future is resolved
    exactly when there was no error and the body parses. *)
Lemma finished_own (h : handle) (reply : Reply) (q : Request) (w : world) (v : json) :
  _requests w !! h = Some q ->
  (future q < length (futures w))%nat ->
  Future.state w (future q) = Pending ->
  Future.state (snd (RequestManager._finished h reply w)) (future q) = Result v <->
  error reply = NoError /\ json_loads (body reply) = Some v.
Proof.
  intros Hq Hlt Hs. pose proof (pending_lookup w (future q) Hlt Hs) as Hp.
  destruct (Z.eq_dec (error reply) NoError) as [He|He].
  - destruct (json_loads (body reply)) as [v0|] eqn:El.
    + destruct (finished_resolves h reply q v0 w Hq Hp He El) as (w' & E & S).
      rewrite E. cbn [snd]. rewrite S. split.
      * intros K. inversion K. auto.
      * intros (_ & K). inversion K. reflexivity.
    + rewrite (finished_unparseable h reply q w Hq Hs He El). cbn [snd]. rewrite Hs.
      split; [discriminate|]. intros (_ & K). discriminate K.
  - destruct (finished_rejects h reply q w Hq Hp He) as (w' & e & _ & E & S).
    rewrite E. cbn [snd]. rewrite S. split; [discriminate|].
    intros (K & _). contradiction.
Qed.

Lemma finished_elsewhere (h : handle) (reply : Reply) (w : world) (g : fut) :
  (forall q, _requests w !! h = Some q -> future q <> g) ->
  Future.state (snd (RequestManager._finished h reply w)) g = Future.state w g.
Proof.
  intros Hne. destruct (_requests w !! h) as [q|] eqn:E.
  - apply (finished_other_futures h reply q w g E). intros K. now apply (Hne q eq_refl).
  - unfold RequestManager._finished. now rewrite E.
Qed.

Lemma resolved_by_reply_observed (h : handle) (f : fut) (w w' : world) :
  replies w' = replies w -> _requests w' = _requests w -> futures w' = futures w ->
  resolved_by_reply h f w -> resolved_by_reply h f w'.
Proof.
  intros Er Eq Ef. unfold resolved_by_reply, Future.state. now rewrite Er, Eq, Ef.
Qed.

Lemma resolved_by_reply_deliver (h : handle) (f : fut) (ev : completion) (w : world) :
  resolved_by_reply h f w -> resolved_by_reply h f (Loop.deliver ev w).
Proof.
  intros Hinv.
  destruct (replies w !! ev_reply ev) as [r|] eqn:Er.
  2:{ unfold Loop.deliver. now rewrite Er. }
  destruct (isFinished r) eqn:Ef.
  { unfold Loop.deliver. now rewrite Er, Ef. }
  rewrite (deliver_unfinished ev r w Er Ef). cbv zeta.
  set (reply := MkReply (reply_url r) true (ev_error ev) (ev_errorString ev) (ev_body ev)).
  set (w1 := set_replies (<[ev_reply ev := reply]> (replies w)) w).
  assert (Hgoal : resolved_by_reply h f
                    (snd (RequestManager._finished (ev_reply ev) reply w1))).
  { destruct Hinv as (Hh & Hf & Ha & rep & Hrep & Hst).
    destruct (finished_tracker_frame (ev_reply ev) reply w1) as (Kr & Kq & Kf).
    unfold resolved_by_reply. rewrite Kr, Kq, Kf.
    split; [|split; [|split]].
    - unfold w1. cbn [replies set_replies]. now rewrite length_insert.
    - exact Hf.
    - exact Ha.
    - destruct (decide (ev_reply ev = h)) as [Eh|Eh].
      + rewrite Eh in Er. unfold handle in *. rewrite Hrep in Er.
        inversion Er; subst rep. rewrite Ef in Hst.
        destruct Hst as (Hpend & q & Hq & Hfq).
        exists reply. split.
        * unfold w1. cbn [replies set_replies]. rewrite Eh.
          apply list_lookup_insert_eq. exact Hh.
        * change (isFinished reply) with true. cbv iota. intros v.
          rewrite Eh. subst f.
          exact (finished_own h reply q w1 v Hq Hf Hpend).
      + assert (Hsame : Future.state
                          (snd (RequestManager._finished (ev_reply ev) reply w1)) f =
                        Future.state w f).
        { apply (finished_elsewhere (ev_reply ev) reply w1 f).
          intros q Hq Hfq. apply Eh. exact (Ha _ q Hq Hfq). }
        exists rep. split.
        * unfold w1. cbn [replies set_replies].
          rewrite list_lookup_insert_ne by exact Eh. exact Hrep.
        * rewrite Hsame. exact Hst. }
  destruct (RequestManager._finished (ev_reply ev) reply w1) as [[u|e] w2];
    cbn [snd] in Hgoal; [exact Hgoal|].
  now apply (resolved_by_reply_observed h f w2).
Qed.

Lemma resolved_by_reply_registered (h : handle) (f : fut) (method u : string)
    (data : option json) (w : world) :
  resolved_by_reply h f w -> resolved_by_reply h f (registered method u data w).
Proof.
  intros (Hh & Hf & Ha & rep & Hrep & Hst).
  split; [|split; [|split]].
  - rewrite registered_replies_length. lia.
  - rewrite registered_futures_length. lia.
  - intros h' q Hq Hfq.
    assert (Hq' : <[length (replies w) := MkRequest u (length (futures w))]>
                    (_requests (RequestManager._cleanup w)) !! h' = Some q) by exact Hq.
    destruct (decide (length (replies w) = h')) as [Eh|Hne].
    + rewrite <- Eh in Hq'. rewrite lookup_insert_eq in Hq'.
      inversion Hq'; subst q. cbn [future] in Hfq. lia.
    + rewrite lookup_insert_ne in Hq' by exact Hne. rewrite cleanup_lookup in Hq'.
      destruct (Net.is_finished w h'); [discriminate Hq'|]. exact (Ha h' q Hq' Hfq).
  - exists rep. split.
    + change ((replies w ++ [MkReply u false NoError "" ""]) !! h = Some rep).
      rewrite lookup_app_l by exact Hh. exact Hrep.
    + rewrite (registered_keeps_state method u data w f Hf).
      destruct (isFinished rep) eqn:Efin; [exact Hst|].
      destruct Hst as (Hp & q & Hq & Hfq). split; [exact Hp|].
      exists q. split; [|exact Hfq].
      change (<[length (replies w) := MkRequest u (length (futures w))]>
                (_requests (RequestManager._cleanup w)) !! h = Some q).
      rewrite lookup_insert_ne by lia. rewrite cleanup_lookup.
      unfold Net.is_finished. unfold handle in *. now rewrite Hrep, Efin.
Qed.

(** A request that has just been sent, in a tracker whose requests have
    their futures. *)
Lemma resolved_by_reply_fresh (method u : string) (data : option json) (w : world) :
  requests_have_futures w ->
  resolved_by_reply (length (replies w)) (length (futures w))
    (registered method u data w).
Proof.
  intros Hreq. split; [|split; [|split]].
  - rewrite registered_replies_length. lia.
  - rewrite registered_futures_length. lia.
  - intros h' q Hq Hfq.
    assert (Hq' : <[length (replies w) := MkRequest u (length (futures w))]>
                    (_requests (RequestManager._cleanup w)) !! h' = Some q) by exact Hq.
    destruct (decide (length (replies w) = h')) as [Eh|Hne]; [now symmetry|].
    rewrite lookup_insert_ne in Hq' by exact Hne. rewrite cleanup_lookup in Hq'.
    destruct (Net.is_finished w h'); [discriminate Hq'|].
    pose proof (Hreq h' q Hq') as K. cbn beta in K. lia.
  - exists (MkReply u false NoError "" ""). split.
    + change ((replies w ++ [MkReply u false NoError "" ""]) !! length (replies w) =
              Some (MkReply u false NoError "" "")).
      rewrite lookup_app_r by lia. now rewrite Nat.sub_diag.
    + cbn [isFinished]. split; [apply registered_state|].
      exists (MkRequest u (length (futures w))). split; [|reflexivity].
      change (<[length (replies w) := MkRequest u (length (futures w))]>
                (_requests (RequestManager._cleanup w)) !! length (replies w) =
              Some (MkRequest u (length (futures w)))).
      apply lookup_insert_eq.
Qed.

(** Every history of the tracker gives its requests their futures. *)
Lemma tracker_ok_requests_have_futures (w : world) :
  tracker_ok w -> requests_have_futures w.
Proof.
  intros (_ & _ & Hd & _) h q Hq. exact (proj2 (Hd h q Hq)).
Qed.

Lemma deliver_replies_length (ev : completion) (w : world) :
  length (replies (Loop.deliver ev w)) = length (replies w).
Proof.
  unfold Loop.deliver.
  destruct (replies w !! ev_reply ev) as [r|]; [|reflexivity].
  destruct (isFinished r); [reflexivity|].
  match goal with
  | |- context [RequestManager._finished ?h ?r ?w1] =>
      destruct (finished_tracker_frame h r w1) as (K & _);
      destruct (RequestManager._finished h r w1) as [[u|e] w2]
  end; cbn [snd] in K; cbn [replies escape]; rewrite K;
    cbn [replies set_replies]; now rewrite length_insert.
Qed.

(** What [await] leaves of its future: it is suspended on a future that is
    not settled, or it gives what the future was settled with. *)
Lemma wait_state (f : fut) (s : schedule) (w : world) out s' w' :
  Loop.settled (Future.state w f) = None ->
  Loop.wait f s w = (out, s', w') ->
  (out = Suspended /\ Loop.settled (Future.state w' f) = None) \/
  Loop.settled (Future.state w' f) = Some out.
Proof.
  revert w. induction s as [|evs s IH]; intros w Hw; cbn.
  - intros E. inversion E; subst. now left.
  - destruct (Loop.settled (Future.state (Loop.deliver_all evs w) f)) as [o|] eqn:Eo.
    + intros E. inversion E; subst. now right.
    + intros E. exact (IH _ Eo E).
Qed.

Lemma await_state (f : fut) (s : schedule) (w : world) out s' w' :
  Loop.await f s w = (out, s', w') ->
  (out = Suspended /\ Loop.settled (Future.state w' f) = None) \/
  Loop.settled (Future.state w' f) = Some out.
Proof.
  unfold Loop.await.
  destruct (Loop.settled (Future.state w f)) as [o|] eqn:Eo.
  - intros E. inversion E; subst. now right.
  - now apply wait_state.
Qed.

End ResolvedByReply.

(** ** What the orchestration keeps *)

(** A property of the tracker that requests and completions keep, and that
    does not look at the log or at the progress scopes, is kept by [_get]
    and [_post]. *)
Section Preserved.
Context {J : JsonLib}.
Variable self_url : string.
Variable P : world -> Prop.
Hypothesis P_registered : forall method u data w, P w -> P (registered method u data w).
Hypothesis P_deliver : forall ev w, P w -> P (Loop.deliver ev w).
Hypothesis P_observed :
  forall w w', replies w' = replies w -> _requests w' = _requests w ->
               futures w' = futures w -> P w -> P w'.

Lemma deliver_all_preserved (evs : list completion) (w : world) :
  P w -> P (Loop.deliver_all evs w).
Proof.
  revert w. induction evs as [|ev evs IH]; intros w Hw; [exact Hw|].
  unfold Loop.deliver_all in *. cbn [fold_left]. apply IH. now apply P_deliver.
Qed.

Lemma wait_preserved (f : fut) (s : schedule) (w : world) out s' w' :
  P w -> Loop.wait f s w = (out, s', w') -> P w'.
Proof.
  revert w. induction s as [|evs s IH]; intros w Hw; cbn.
  - intros E. inversion E; subst. exact Hw.
  - pose proof (deliver_all_preserved evs w Hw) as Hw2.
    destruct (Loop.settled (Future.state (Loop.deliver_all evs w) f)) as [o|].
    + intros E. inversion E; subst. exact Hw2.
    + intros E. exact (IH _ Hw2 E).
Qed.

Lemma await_preserved (f : fut) (s : schedule) (w : world) out s' w' :
  P w -> Loop.await f s w = (out, s', w') -> P w'.
Proof.
  intros Hw. unfold Loop.await.
  destruct (Loop.settled (Future.state w f)) as [o|].
  - intros E. inversion E; subst. exact Hw.
  - now apply wait_preserved.
Qed.

Lemma get_preserved (op : string) s w out s' w' :
  P w -> Auto1111._get self_url op s w = (out, s', w') -> P w'.
Proof.
  intros Hw E. unfold Auto1111._get, Loop.cbind, Loop.call in E.
  rewrite get_spec in E. cbv beta iota in E.
  refine (await_preserved _ _ _ _ _ _ _ E). now apply P_registered.
Qed.

Lemma post_poll_preserved (p : ref) s w out s' w' :
  P w -> Auto1111._post_poll self_url p s w = (out, s', w') -> P w'.
Proof.
  intros Hw E. unfold Auto1111._post_poll in E.
  apply cbind_inv in E as [(status & s1 & w1 & Eg & E) | [(e & Eg & _) | (Eg & _)]];
    pose proof (get_preserved _ _ _ _ _ _ Hw Eg) as Hw1; try exact Hw1.
  assert (Hany : forall o : outcome bool, (o, s1, w1) = (out, s', w') -> P w').
  { intros o Eb. inversion Eb; subst. exact Hw1. }
  revert E. unfold Loop.cbind, Loop.pure, Loop.call, Loop.ret.
  destruct (Py.getitem status "progress") as [v|e]; cbn; [|apply Hany].
  destruct (Py.ge_int v 1) as [[|]|e]; cbn; [apply Hany | | apply Hany].
  destruct (Py.gt_int v 0) as [[|]|e]; cbn; [| apply Hany | apply Hany].
  destruct (Py.as_number v) as [n|e]; cbn; [|apply Hany].
  unfold Progress.__call__.
  destruct (objects w1 !! p) as [o|]; intros E; inversion E; subst; [|exact Hw1].
  now apply (P_observed w1).
Qed.

Lemma post_while_preserved (fuel : nat) (request : fut) (p : ref) :
  forall s w out s' w',
    P w -> Auto1111._post_while self_url fuel request p s w = (out, s', w') -> P w'.
Proof.
  induction fuel as [|fuel IH]; intros s w out s' w' Hw E; cbn in E.
  - inversion E; subst. exact Hw.
  - destruct (Future.done w request).
    + inversion E; subst. exact Hw.
    + apply cbind_inv in E as [(stop & s1 & w1 & Eg & E) | [(e & Eg & _) | (Eg & _)]];
        pose proof (post_poll_preserved _ _ _ _ _ _ Hw Eg) as Hw1; try exact Hw1.
      destruct stop.
      * inversion E; subst. exact Hw1.
      * exact (IH _ _ _ _ _ Hw1 E).
Qed.

Lemma finish_preserved (p : ref) (w : world) :
  P w -> P (snd (Progress.finish p w)).
Proof.
  intros Hw. unfold Progress.finish.
  destruct (objects w !! p) as [o|]; cbn [snd]; [|exact Hw].
  now apply (P_observed w).
Qed.

Lemma call_world {A : Type} (m : action A) s w out s' w' :
  Loop.call m s w = (out, s', w') -> w' = snd (m w).
Proof.
  unfold Loop.call. destruct (m w) as [[a|e] w1]; intros E; now inversion E.
Qed.

Lemma post_preserved (op : string) (data : json) (progress : option ref) s w out s' w' :
  P w -> Auto1111._post self_url op data progress s w = (out, s', w') -> P w'.
Proof.
  intros Hw E. unfold Auto1111._post in E.
  apply cbind_inv in E as [(request & s1 & w1 & Ep & E) | [(e & Ep & _) | (Ep & _)]];
    unfold Loop.call in Ep; rewrite post_spec in Ep; inversion Ep; subst; clear Ep.
  pose proof (P_registered "POST" (self_url +:+ "/" +:+ op) (Some data) w Hw) as HW.
  set (W := registered "POST" (self_url +:+ "/" +:+ op) (Some data) w) in *.
  assert (Hmid : forall (o2 : outcome unit) s2 w2,
            match progress with
            | Some progress =>
                Loop.cbind
                  (fun s => Auto1111._post_while self_url (S (length s))
                              (length (futures w)) progress s)
                  (fun _ => Loop.call (Progress.finish progress))
            | None => Loop.ret tt
            end s1 W = (o2, s2, w2) -> P w2).
  { intros o2 s2 w2 Em. destruct progress as [p|].
    - apply cbind_inv in Em as [(x & s3 & w3 & El & Ef) | [(e & El & _) | (El & _)]];
        pose proof (post_while_preserved _ _ _ _ _ _ _ _ HW El) as Hw3; try exact Hw3.
      rewrite (call_world _ _ _ _ _ _ Ef). now apply finish_preserved.
    - inversion Em; subst. exact HW. }
  apply cbind_inv in E as [(x & s2 & w2 & Em & E) | [(e & Em & _) | (Em & _)]];
    pose proof (Hmid _ _ _ Em) as Hw2; try exact Hw2.
  exact (await_preserved _ _ _ _ _ _ Hw2 E).
Qed.

End Preserved.

(** ** [upscale] *)

Section Upscale.
Context {J : JsonLib} {Cd : Codec} {St : Settings}.
Variable self_url : string.

(** C4 (as the code has it), for a tracker whose requests have their
    futures, as every history of the tracker gives them: [upscale] posts the
    resize request without a progress scope and awaits it; nothing is
    reported before the second request.  The call stops there, without
    returning images, unless the resize reply carries an image: unless that
    reply completed without error and its body parses to a value with an
    ["image"].  When it does,
    [upscale] posts next the img2img request on that very image, with
    strength [0.4], with the scope of the caller itself: what follows is
    [GET]s of the progress endpoint and invocations of the callback of that
    scope, the last one by its [finish()] when the call returns images.  No
    [Progress] instance is created. *)
Theorem upscale_two_phases (img : Image) (target : Extent) (prompt : string)
    (p : ref) (o : ProgressObj) (s : schedule) (w : world) out s' w' :
  objects w !! p = Some o ->
  requests_have_futures w ->
  Auto1111.upscale self_url img target prompt p s w = (out, s', w') ->
  let h := length (replies w) in
  let f := length (futures w) in
  let resize :=
    Sent h "POST" (self_url +:+ "/" +:+ "sdapi/v1/extra-single-image")
      (Some (Auto1111.upscale_payload img target)) in
  length (objects w') = length (objects w) /\
  ((log w' = log w ++ [resize] /\
    (forall images, out <> Returned images) /\
    (forall reply result image,
       replies w' !! h = Some reply ->
       isFinished reply = true -> error reply = NoError ->
       json_loads (body reply) = Some result ->
       Py.getitem result "image" <> Ok image)) \/
   exists reply result image polls,
     replies w' !! h = Some reply /\
     isFinished reply = true /\ error reply = NoError /\
     json_loads (body reply) = Some result /\
     Future.state w' f = Result result /\
     Py.getitem result "image" = Ok image /\
     log w' = log w ++
       resize ::
       Sent (S h) "POST" (self_url +:+ "/" +:+ "sdapi/v1/img2img")
         (Some (Auto1111.img2img_payload image
                  (Auto1111.upscale_prompt +:+ ", " +:+ prompt)
                  Float.f0_4 target 5 1)) ::
       polls /\
     Forall (poll_event self_url (callback o)) polls /\
     (forall images, out = Returned images ->
        exists polls',
          polls = polls' ++ [Called (callback o) (Float.add (offset o) (scale o))])).
Proof.
  intros Hp Hreq E. cbv zeta.
  set (h := length (replies w)). set (f := length (futures w)).
  set (u := self_url +:+ "/" +:+ "sdapi/v1/extra-single-image").
  set (W0 := registered "POST" u (Some (Auto1111.upscale_payload img target)) w).
  assert (K0 : resolved_by_reply h f W0)
    by (apply resolved_by_reply_fresh; exact Hreq).
  assert (Hfirst : forall o1 s1 w1,
            Auto1111._post self_url "sdapi/v1/extra-single-image"
              (Auto1111.upscale_payload img target) None s w = (o1, s1, w1) ->
            log w1 = log w ++
              [Sent h "POST" u (Some (Auto1111.upscale_payload img target))] /\
            objects w1 = objects w /\
            resolved_by_reply h f w1 /\
            length (replies w1) = S h /\
            ((o1 = Suspended /\ Loop.settled (Future.state w1 f) = None) \/
             Loop.settled (Future.state w1 f) = Some o1)).
  { intros o1 s1 w1 E1. rewrite post_plain in E1. fold u W0 f in E1.
    destruct (await_frame _ _ _ _ _ _ E1) as (L1 & O1).
    split; [exact L1|]. split; [exact O1|].
    split; [exact (await_preserved (resolved_by_reply h f)
                     (resolved_by_reply_deliver h f) _ _ _ _ _ _ K0 E1)|].
    split; [|exact (await_state _ _ _ _ _ _ E1)].
    refine (await_preserved (fun w0 => length (replies w0) = S h) _ _ _ _ _ _ _ _ E1).
    - intros ev w0 H0. now rewrite deliver_replies_length.
    - apply registered_replies_length. }
  assert (Hcarried : forall o1 s1 w1,
            Auto1111._post self_url "sdapi/v1/extra-single-image"
              (Auto1111.upscale_payload img target) None s w = (o1, s1, w1) ->
            forall reply result,
              replies w1 !! h = Some reply ->
              isFinished reply = true -> error reply = NoError ->
              json_loads (body reply) = Some result ->
              o1 = Returned result).
  { intros o1 s1 w1 E1 reply result Hr Hfin He Hl.
    destruct (Hfirst _ _ _ E1) as (_ & _ & (_ & _ & _ & rep & Hrep & Hst) & _ & S1).
    unfold handle in *. rewrite Hr in Hrep. inversion Hrep; subst rep.
    rewrite Hfin in Hst.
    assert (Hres : Future.state w1 f = Result result) by (apply Hst; auto).
    rewrite Hres in S1. cbn [Loop.settled] in S1.
    destruct S1 as [(_ & K) | K]; [discriminate K | now inversion K]. }
  unfold Auto1111.upscale in E.
  apply cbind_inv in E as [(result & s1 & w1 & E1 & E) | [(e & E1 & ->) | (E1 & ->)]].
  2:{ destruct (Hfirst _ _ _ E1) as (L1 & O1 & _).
      split; [now rewrite O1|]. left. split; [exact L1|]. split; [discriminate|].
      intros reply result image Hr Hfin He Hl.
      pose proof (Hcarried _ _ _ E1 reply result Hr Hfin He Hl) as K. discriminate K. }
  2:{ destruct (Hfirst _ _ _ E1) as (L1 & O1 & _).
      split; [now rewrite O1|]. left. split; [exact L1|]. split; [discriminate|].
      intros reply result image Hr Hfin He Hl.
      pose proof (Hcarried _ _ _ E1 reply result Hr Hfin He Hl) as K. discriminate K. }
  destruct (Hfirst _ _ _ E1) as (L1 & O1 & K1 & Hlen & S1).
  assert (Hres : Future.state w1 f = Result result).
  { destruct S1 as [(K & _) | K]; [discriminate K|].
    destruct (Future.state w1 f); cbn [Loop.settled] in K; now inversion K. }
  assert (Hnoimage : forall e,
            Py.getitem result "image" = Raise e ->
            forall reply result' image,
              replies w1 !! h = Some reply ->
              isFinished reply = true -> error reply = NoError ->
              json_loads (body reply) = Some result' ->
              Py.getitem result' "image" <> Ok image).
  { intros e Hitem reply result' image Hr Hfin He Hl.
    pose proof (Hcarried _ _ _ E1 reply result' Hr Hfin He Hl) as K.
    inversion K; subst result'. rewrite Hitem. discriminate. }
  apply cbind_inv in E as [(image & s2 & w2 & E2 & E) | [(e & E2 & ->) | (E2 & ->)]];
    destruct (pure_inv _ _ _ _ _ _ E2) as (-> & -> & E2');
    destruct (Py.getitem result "image") as [image0|e0] eqn:Hitem;
    try discriminate E2'.
  2:{ split; [now rewrite O1|]. left. split; [exact L1|]. split; [discriminate|].
      exact (Hnoimage e0 eq_refl). }
  inversion E2'; subst image0; clear E2'.
  assert (Hp1 : objects w1 !! p = Some o) by now rewrite O1.
  set (P2 := fun w0 : world =>
               resolved_by_reply h f w0 /\ Future.state w0 f = Result result).
  assert (Hsecond : forall o3 s3 w3,
            Auto1111._post self_url "sdapi/v1/img2img"
              (Auto1111.img2img_payload image
                 (Auto1111.upscale_prompt +:+ ", " +:+ prompt) Float.f0_4 target 5 1)
              (Some p) s1 w1 = (o3, s3, w3) ->
            length (objects w3) = length (objects w) /\
            exists reply polls,
              replies w3 !! h = Some reply /\
              isFinished reply = true /\ error reply = NoError /\
              json_loads (body reply) = Some result /\
              Future.state w3 f = Result result /\
              log w3 = log w ++
                Sent h "POST" u (Some (Auto1111.upscale_payload img target)) ::
                Sent (S h) "POST" (self_url +:+ "/" +:+ "sdapi/v1/img2img")
                  (Some (Auto1111.img2img_payload image
                           (Auto1111.upscale_prompt +:+ ", " +:+ prompt)
                           Float.f0_4 target 5 1)) ::
                polls /\
              Forall (poll_event self_url (callback o)) polls /\
              (forall v, o3 = Returned v ->
                 exists polls',
                   polls = polls' ++
                     [Called (callback o) (Float.add (offset o) (scale o))])).
  { intros o3 s3 w3 E3.
    destruct (post_progress_frame _ _ _ _ _ _ _ _ _ _ Hp1 E3) as (polls & L3 & F3 & O3 & R3).
    assert (H3 : P2 w3).
    { refine (post_preserved self_url P2 _ _ _ _ _ _ _ _ _ _ _ _ E3).
      - intros m u0 d w0 (Hi & Hs). split; [now apply resolved_by_reply_registered|].
        rewrite registered_keeps_state; [exact Hs | apply Hi].
      - intros ev w0 (Hi & Hs). split; [now apply resolved_by_reply_deliver|].
        rewrite deliver_keeps_settled; [exact Hs|]. rewrite Hs. discriminate.
      - intros w0 w0' Er Eq Ef (Hi & Hs).
        split; [exact (resolved_by_reply_observed h f w0 w0' Er Eq Ef Hi)|].
        unfold Future.state in *. now rewrite Ef.
      - split; [exact K1 | exact Hres]. }
    destruct H3 as ((_ & _ & _ & rep & Hrep & Hst) & S3).
    split; [rewrite O3, O1; reflexivity|].
    destruct (isFinished rep) eqn:Efin.
    2:{ destruct Hst as (K & _). rewrite S3 in K. discriminate K. }
    destruct (proj1 (Hst result) S3) as (He & Hl).
    exists rep, polls. repeat (split; [assumption|]).
    split; [|split; [exact F3 | exact R3]].
    rewrite L3, L1, Hlen, <- app_assoc. reflexivity. }
  unfold Auto1111._img2img in E.
  apply cbind_inv in E as [(r2 & s3 & w3 & E3 & E) | [(e & E3 & ->) | (E3 & ->)]];
    destruct (Hsecond _ _ _ E3)
      as (Hlen3 & rep & polls & Hrep & Hfin & He & Hl & S3 & L3 & F3 & R3).
  - destruct (pure_inv _ _ _ _ _ _ E) as (-> & -> & _).
    split; [exact Hlen3|]. right. exists rep, result, image, polls.
    repeat (split; [assumption|]). intros images _. exact (R3 r2 eq_refl).
  - split; [exact Hlen3|]. right. exists rep, result, image, polls.
    repeat (split; [assumption|]). discriminate.
  - split; [exact Hlen3|]. right. exists rep, result, image, polls.
    repeat (split; [assumption|]). discriminate.
Qed.

End Upscale.

Lemma upscale_two_phases_witness :
  let out := fst (fst Demo.upscale_run) in
  let w' := snd Demo.upscale_run in
  out = Returned [JStr "out"] /\
  length (objects w') = 1%nat /\
  exists polls,
    replies w' !! 0%nat =
      Some (MkReply (Demo.base_url +:+ "/" +:+ "sdapi/v1/extra-single-image") true
              NoError "" Demo.body_resized) /\
    log w' =
      Sent 0%nat "POST" (Demo.base_url +:+ "/" +:+ "sdapi/v1/extra-single-image")
        (Some (Auto1111.upscale_payload (Cd := Demo.codec) (St := Demo.settings)
                 (JStr "small") (MkExtent 1024 1024))) ::
      Sent 1%nat "POST" (Demo.base_url +:+ "/" +:+ "sdapi/v1/img2img")
        (Some (Auto1111.img2img_payload (JStr "big")
                 (Auto1111.upscale_prompt +:+ ", " +:+ "a cat")
                 Float.f0_4 (MkExtent 1024 1024) 5 1)) ::
      polls /\
    Forall (poll_event Demo.base_url 7%nat) polls.
Proof.
  cbv zeta. split; [vm_compute; reflexivity|].
  assert (Hreply : replies (snd Demo.upscale_run) !! 0%nat =
                   Some (MkReply (Demo.base_url +:+ "/" +:+ "sdapi/v1/extra-single-image")
                           true NoError "" Demo.body_resized))
    by (vm_compute; reflexivity).
  destruct (upscale_two_phases (J := Demo.json_lib) (Cd := Demo.codec)
              (St := Demo.settings) Demo.base_url (JStr "small")
              (MkExtent 1024 1024) "a cat" 0%nat Demo.scope_root
              Demo.upscale_schedule (Demo.scope_world Demo.scope_root)
              (fst (fst Demo.upscale_run)) (snd (fst Demo.upscale_run))
              (snd Demo.upscale_run)
              ltac:(vm_compute; reflexivity)
              ltac:(apply map_Forall_empty)
              ltac:(vm_compute; reflexivity))
    as (Hlen & [(_ & Hno & _) |
                (reply & result & image & polls & Hrep & _ & _ & Hl & _ & Hi & Hlog & Hpolls & _)]).
  - exfalso. apply (Hno [JStr "out"]). vm_compute. reflexivity.
  - split; [exact Hlen|]. exists polls.
    change (length (replies (Demo.scope_world Demo.scope_root))) with 0%nat in Hrep, Hlog.
    rewrite Hreply in Hrep. inversion Hrep; subst reply.
    assert (Hres : result = Demo.data_resized).
    { vm_compute in Hl. inversion Hl. reflexivity. }
    subst result. vm_compute in Hi. inversion Hi; subst image.
    split; [exact Hreply|]. split; [exact Hlog | exact Hpolls].
Defined.
